(** * Heart-rate telemetry pipeline: consumer, query service, test-mode producer

  A shallow embedding of
  - [polarh10-backend/heartrate/models.py]            (module [Models]),
  - [.../management/commands/subscribe_hr.py]         (module [SubscribeHr]),
  - [polarh10-backend/heartrate/views.py]             (module [Views]),
  - [polarh10-producer/hr_callbacl.py], test mode     (module [Producer]),
  together with the part of Python they rely on (module [Py]) and the
  words of the specification on the means of [stats] (module [Spec]). *)

From Stdlib Require Import ZArith List String Ascii Lia Bool Strings.Byte.
From Stdlib Require Import Floats.SpecFloat.
From Stdlib Require Import QArith Qabs QArith.Qpower Lqa.
From stdpp Require Import base option gmap strings list sorting.

#[local] Set Warnings "-register-all".
#[local] Open Scope Z_scope.

(* ================================================================== *)
(** * Python: values, exceptions, floats, datetimes *)
(* ================================================================== *)

Module Py.

(** Exception classes that can reach the handlers of the modelled code.
    All of them derive from [Exception]. *)
Inductive exn :=
| UnicodeDecodeError
| UnicodeEncodeError
| JSONDecodeError
| RecursionError
| AttributeError
| TypeError
| ValueError
| OverflowError
| IntegrityError
| DataError
| OperationalError.

#[global] Instance exn_eq_dec : EqDecision exn.
Proof. solve_decision. Defined.

(** [isinstance(e, json.JSONDecodeError)]: the class has no subclass
    among the ones above, and it is not a base of any of them. *)
Definition is_JSONDecodeError (e : exn) : bool :=
  match e with JSONDecodeError => true | _ => false end.

(** [isinstance(e, ValueError)]: [UnicodeDecodeError],
    [UnicodeEncodeError] and [json.JSONDecodeError] are subclasses of
    [ValueError]. *)
Definition is_ValueError (e : exn) : bool :=
  match e with
  | ValueError | UnicodeDecodeError | UnicodeEncodeError
  | JSONDecodeError => true
  | _ => false
  end.

Inductive result (A : Type) :=
| Ok (a : A)
| Raise (e : exn).
Arguments Ok {A} a.
Arguments Raise {A} e.

(** Statement after statement: the first exception ends the sequence. *)
#[global] Instance result_ret : MRet result := fun A a => Ok a.

#[global] Instance result_bind : MBind result := fun A B f r =>
  match r with
  | Ok a => f a
  | Raise e => Raise e
  end.

(** ** Floats: IEEE binary64 *)

Definition prec : Z := 53.
Definition emax : Z := 1024.
Abbreviation float := spec_float.

Definition float_is_zero (f : float) : bool :=
  match f with S754_zero _ => true | _ => false end.

(** [a / b] on two ints, [b <> 0]: the quotient of the exact integers,
    correctly rounded. *)
Definition int_as_float (a : Z) : float :=
  match a with
  | Z0 => S754_zero false
  | Zpos p => S754_finite false p 0
  | Zneg p => S754_finite true p 0
  end.

Definition truediv (a b : Z) : float :=
  SFdiv prec emax (int_as_float a) (int_as_float b).

(** [float(n)] for an int [n]. *)
Definition float_of_int (n : Z) : result float :=
  match binary_normalize prec emax n 0 false with
  | S754_infinity _ => Raise OverflowError
  | f => Ok f
  end.

(** [int(f)] for a float [f]: truncation towards zero. *)
Definition int_of_float (f : float) : result Z :=
  match f with
  | S754_zero _ => Ok 0
  | S754_nan => Raise ValueError
  | S754_infinity _ => Raise OverflowError
  | S754_finite s m e =>
      let a := if 0 <=? e then Z.shiftl (Zpos m) e
               else Z.shiftr (Zpos m) (- e) in
      Ok (if s then - a else a)
  end.

(** [round(f, 1)]: the exact value of [f] is rounded to the nearest
    multiple of one tenth, ties to the even multiple, and that decimal
    is converted back to the nearest float. *)
Definition half_even_tenths (m : positive) (e : Z) : Z :=
  if 0 <=? e then Z.shiftl (10 * Zpos m) e
  else
    let den := Z.shiftl 1 (- e) in
    let q := (10 * Zpos m) / den in
    let r := (10 * Zpos m) mod den in
    match 2 * r ?= den with
    | Lt => q
    | Gt => q + 1
    | Eq => if Z.even q then q else q + 1
    end.

Definition round1 (f : float) : float :=
  match f with
  | S754_finite s m e =>
      match half_even_tenths m e with
      | Zpos k => SFdiv prec emax (S754_finite s k 0) (S754_finite false 10 0)
      | _ => S754_zero s
      end
  | _ => f
  end.

(** ** JSON-shaped values: what [json.loads] can return *)

Inductive val :=
| VNone
| VBool (b : bool)
| VInt (z : Z)
| VFloat (f : float)
| VStr (s : string)
| VList (l : list val)
| VDict (d : gmap string val).

(** Truth value testing. *)
Definition truthy (v : val) : bool :=
  match v with
  | VNone => false
  | VBool b => b
  | VInt z => negb (z =? 0)
  | VFloat f => negb (float_is_zero f)
  | VStr s => negb (String.eqb s "")
  | VList l => match l with [] => false | _ :: _ => true end
  | VDict d => negb (bool_decide (size d = 0%nat))
  end.

(** [v is None] *)
Definition is_none (v : val) : bool :=
  match v with VNone => true | _ => false end.

(** [isinstance(v, list)] *)
Definition is_list (v : val) : bool :=
  match v with VList _ => true | _ => false end.

(** [v != 'HR'] style comparison of a value with a string literal. *)
Definition eq_str (v : val) (s : string) : bool :=
  match v with VStr t => String.eqb t s | _ => false end.

(** [a or b] *)
Definition or_ (a b : val) : val := if truthy a then a else b.

(** [d.get(key)] on a dict: a missing key gives [None]. *)
Definition dict_get (d : gmap string val) (key : string) : val :=
  default VNone (d !! key).

(** [v.get(key)]: only dicts have the method. *)
Definition get (v : val) (key : string) : result val :=
  match v with
  | VDict d => Ok (dict_get d key)
  | _ => Raise AttributeError
  end.

(** ** [bytes.decode('utf-8')], strict *)

Definition byte_val (b : byte) : Z := Z.of_N (Byte.to_N b).

Definition between (lo hi : Z) (b : byte) : bool :=
  (lo <=? byte_val b) && (byte_val b <=? hi).

Definition is_cont : byte -> bool := between 128 191.

Definition second_of_3 (lead : byte) : byte -> bool :=
  if byte_val lead =? 224 then between 160 191
  else if byte_val lead =? 237 then between 128 159
  else is_cont.

Definition second_of_4 (lead : byte) : byte -> bool :=
  if byte_val lead =? 240 then between 144 191
  else if byte_val lead =? 244 then between 128 143
  else is_cont.

Fixpoint utf8_valid (bs : list byte) : bool :=
  match bs with
  | [] => true
  | b0 :: t0 =>
      if between 0 127 b0 then utf8_valid t0
      else if between 194 223 b0 then
        match t0 with
        | b1 :: t1 => is_cont b1 && utf8_valid t1
        | _ => false
        end
      else if between 224 239 b0 then
        match t0 with
        | b1 :: b2 :: t2 => second_of_3 b0 b1 && is_cont b2 && utf8_valid t2
        | _ => false
        end
      else if between 240 244 b0 then
        match t0 with
        | b1 :: b2 :: b3 :: t3 =>
            second_of_4 b0 b1 && is_cont b2 && is_cont b3 && utf8_valid t3
        | _ => false
        end
      else false
  end.

(** The decoded [str] is kept as its UTF-8 text. *)
Definition decode_utf8 (bs : list byte) : result string :=
  if utf8_valid bs then Ok (string_of_list_byte bs)
  else Raise UnicodeDecodeError.

(** ** [str.encode('utf-8')], strict, as a text stream does it

    A [str] may hold code points that no UTF-8 text contains: the lone
    surrogates, which [json.loads] produces for an escape such as
    [\ud800]. In the text kept for the [str] such a code point stands
    as its three bytes ([ED A0 80] for U+D800), which the strict
    decoder above refuses; a [str] can be encoded exactly when its
    text is valid UTF-8. *)
Definition encodable (s : string) : bool :=
  utf8_valid (list_byte_of_string s).

(** ** Library functions taken as given

    [json.loads], [int(str)] and [float(str)] are not re-implemented:
    the code below is parametric in them. [json.loads] returns a value
    or raises; [int] and [float] on a string return a number or raise
    [ValueError] ([None] here). Nor is the database: [db_avg] is what
    its [AVG] returns, as the ORM hands it over, for the values of an
    integer column over one row at least. How the database adds up and
    divides is its own business, and differs from one to the other. *)
Record lib := {
  json_loads : string -> result val;
  int_of_str : string -> option Z;
  float_of_str : string -> option float;
  db_avg : list Z -> float
}.

Definition or_ValueError {A} (o : option A) : result A :=
  match o with Some a => Ok a | None => Raise ValueError end.

(** [int(v)] *)
Definition int (L : lib) (v : val) : result Z :=
  match v with
  | VBool b => Ok (if b then 1 else 0)
  | VInt z => Ok z
  | VFloat f => int_of_float f
  | VStr s => or_ValueError (int_of_str L s)
  | VNone | VList _ | VDict _ => Raise TypeError
  end.

(** [float(v)] *)
Definition float_ (L : lib) (v : val) : result float :=
  match v with
  | VBool b => Ok (if b then S754_finite false 1 0 else S754_zero false)
  | VInt z => float_of_int z
  | VFloat f => Ok f
  | VStr s => or_ValueError (float_of_str L s)
  | VNone | VList _ | VDict _ => Raise TypeError
  end.

(** ** [datetime] and [timedelta]

    An aware UTC [datetime] is the number of microseconds since the
    epoch; the type covers the years 1 to 9999. A [timedelta] is a
    number of microseconds, of at most 999999999 days in magnitude. *)

Definition datetime := Z.

Definition datetime_min : Z := -62135596800000000.
Definition datetime_max : Z := 253402300799999999.

Definition us_per_minute : Z := 60000000.
Definition us_per_day : Z := 86400000000.
Definition timedelta_max_days : Z := 999999999.

(** [timedelta(minutes=m)] *)
Definition timedelta_minutes (m : Z) : result Z :=
  let us := m * us_per_minute in
  let days := us / us_per_day in
  if (- timedelta_max_days <=? days) && (days <=? timedelta_max_days)
  then Ok us else Raise OverflowError.

(** [t - d] for a datetime [t] and a timedelta [d] *)
Definition datetime_sub (t : datetime) (d : Z) : result datetime :=
  let r := t - d in
  if (datetime_min <=? r) && (r <=? datetime_max)
  then Ok r else Raise OverflowError.

End Py.

Export Py(exn(..), result(..), val(..)).

(* ================================================================== *)
(** * heartrate/models.py *)
(* ================================================================== *)

Module Models.

(** One row of the [HeartRateReading] table, typed as the columns are:
    [BigIntegerField], [IntegerField], [IntegerField],
    [FloatField(null=True)], [DateTimeField], and the implicit
    auto-incremented primary key. *)
Record HeartRateReading := {
  id : Z;
  sensor_timestamp : Z;
  bpm : Z;
  rr_interval : Z;
  energy : option Py.float;
  created_at : Py.datetime
}.

(** [sensor_timestamp_seconds]: nanoseconds to seconds. *)
Definition sensor_timestamp_seconds (r : HeartRateReading) : Py.float :=
  Py.truediv (sensor_timestamp r) 1000000000.

(** [rr_interval_seconds]: milliseconds to seconds. *)
Definition rr_interval_seconds (r : HeartRateReading) : Py.float :=
  Py.truediv (rr_interval r) 1000.

(** The table: its rows in insertion order and the next primary key. *)
Record Db := {
  rows : list HeartRateReading;
  next_id : Z
}.

(** Why the storage backend may refuse an INSERT. *)
Inductive StorageFault :=
| Unavailable
| ConstraintViolated
| ValueOutOfRange.

Definition exn_of_fault (f : StorageFault) : exn :=
  match f with
  | Unavailable => OperationalError
  | ConstraintViolated => IntegrityError
  | ValueOutOfRange => DataError
  end.

(** What the surroundings decide for one call of the consumer: the
    reading of the server clock ([timezone.now], the default of
    [created_at]) and the verdict of the storage backend on the INSERT
    ([None]: the row is written; [Some f]: the write raises, for
    instance because the database is unreachable). *)
Record Env := {
  now : Py.datetime;
  insert_fault : option StorageFault
}.

(** [IntegerField.get_prep_value]: [None] stays [None], anything else
    goes through [int]. *)
Definition IntegerField_prep (L : Py.lib) (v : val) : result (option Z) :=
  match v with
  | VNone => Ok None
  | _ => z ← Py.int L v; mret (Some z)
  end.

(** [FloatField.get_prep_value]: likewise through [float]. *)
Definition FloatField_prep (L : Py.lib) (v : val)
  : result (option Py.float) :=
  match v with
  | VNone => Ok None
  | _ => f ← Py.float_ L v; mret (Some f)
  end.

(** A column without [null=True] refuses NULL. *)
Definition not_null {A} (o : option A) : result A :=
  match o with Some a => Ok a | None => Raise IntegrityError end.

(** The row that [HeartRateReading.objects.create(...)] would write. *)
Definition prepare_row (L : Py.lib) (env : Env) (db : Db)
    (sensor_timestamp bpm rr_interval energy : val)
  : result HeartRateReading :=
  ts ← IntegerField_prep L sensor_timestamp;
  b ← IntegerField_prep L bpm;
  rr ← IntegerField_prep L rr_interval;
  en ← FloatField_prep L energy;
  ts ← not_null ts;
  b ← not_null b;
  rr ← not_null rr;
  mret {| id := next_id db; sensor_timestamp := ts; bpm := b;
          rr_interval := rr; energy := en; created_at := now env |}.

(** [HeartRateReading.objects.create(...)]: the new row and the table
    after the write, or the exception of the failed write (the table
    is then unchanged). *)
Definition objects_create (L : Py.lib) (env : Env) (db : Db)
    (sensor_timestamp bpm rr_interval energy : val)
  : result (HeartRateReading * Db) :=
  r ← prepare_row L env db sensor_timestamp bpm rr_interval energy;
  match insert_fault env with
  | Some f => Raise (exn_of_fault f)
  | None => Ok (r, {| rows := rows db ++ [r]; next_id := next_id db + 1 |})
  end.

End Models.

Export Models(HeartRateReading(..), Db(..), Env(..)).

(* ================================================================== *)
(** * heartrate/management/commands/subscribe_hr.py *)
(* ================================================================== *)

Module SubscribeHr.

(** A Pub/Sub message: its payload. [ack] and [nack] are recorded in
    the trace. *)
Record Message := { data : list byte }.

(** The lines written to [self.stdout], by the branch that writes
    them. *)
Inductive Line :=
| IgnoringNonHR (type : val)
| InvalidMessage (data : val)
| Saved (bpm rr_interval : val) (id : Z)
| FailedToDecodeJSON (e : exn) (raw : list byte)
| ErrorProcessing (e : exn).

(** What one call does, in the order in which it does it. *)
Inductive Event :=
| Stdout (l : Line)
| Insert (r : HeartRateReading)
| Ack
| Nack.

Record World := {
  db : Db;
  trace : list Event
}.

(** Computations that change the world and may raise; what was done
    before an exception stays done. *)
Definition M (A : Type) : Type := World -> result A * World.

#[global] Instance M_ret : MRet M := fun A a w => (Ok a, w).

#[global] Instance M_bind : MBind M := fun A B f m w =>
  match m w with
  | (Ok a, w') => f a w'
  | (Raise e, w') => (Raise e, w')
  end.

Definition lift {A} (r : result A) : M A := fun w => (r, w).

Definition emit (ev : Event) : M unit := fun w =>
  (Ok tt, {| db := db w; trace := trace w ++ [ev] |}).

(** [try: body  except Exception as e: handler e] *)
Definition try_except {A} (body : M A) (handler : exn -> M A) : M A :=
  fun w =>
    match body w with
    | (Ok a, w') => (Ok a, w')
    | (Raise e, w') => handler e w'
    end.

(** Whether the text of a line can be encoded for the stream behind
    [self.stdout]. An f-string puts a [str] into the line as it is,
    and any other value by its [repr], which escapes what cannot be
    encoded; only [IgnoringNonHR] formats a value that may be a [str].
    The error messages hold escaped text, [Saved] holds what [int]
    accepted. *)
Definition writable (l : Line) : bool :=
  match l with
  | IgnoringNonHR (VStr s) => Py.encodable s
  | _ => true
  end.

(** [self.stdout.write(...)]: the write raises [UnicodeEncodeError]
    when the line cannot be encoded, and nothing is written. *)
Definition stdout_write (l : Line) : M unit :=
  if writable l then emit (Stdout l) else lift (Raise UnicodeEncodeError).
Definition ack : M unit := emit Ack.
Definition nack : M unit := emit Nack.

(** [HeartRateReading.objects.create(...)] on the world's table. *)
Definition objects_create (L : Py.lib) (env : Env)
    (sensor_timestamp bpm rr_interval energy : val) : M HeartRateReading :=
  fun w =>
    match Models.objects_create L env (db w)
            sensor_timestamp bpm rr_interval energy with
    | Raise e => (Raise e, w)
    | Ok (r, db') => (Ok r, {| db := db'; trace := trace w ++ [Insert r] |})
    end.

(** [rr_interval[0] if rr_interval else 0] under
    [isinstance(rr_interval, list)] *)
Definition first_or_zero (rr_interval : val) : val :=
  match rr_interval with
  | VList (x :: _) => x
  | VList [] => VInt 0
  | _ => rr_interval
  end.

(** The [rr_interval] that reaches [create], from what
    [data.get('rr_interval')] returned: the list case, then [or 0]. *)
Definition rr_for_create (rr_interval : val) : val :=
  Py.or_ (if Py.is_list rr_interval then first_or_zero rr_interval
          else rr_interval) (VInt 0).

(** [Command.message_callback] *)
Definition message_callback (L : Py.lib) (env : Env) (message : Message)
  : M unit :=
  try_except
    (text ← lift (Py.decode_utf8 (data message));
     data ← lift (Py.json_loads L text);
     type ← lift (Py.get data "type");
     if negb (Py.eq_str type "HR") then
       type ← lift (Py.get data "type");
       stdout_write (IgnoringNonHR type);;
       ack
     else
       sensor_timestamp ← lift (Py.get data "timestamp");
       bpm ← lift (Py.get data "bpm");
       rr_interval ← lift (Py.get data "rr_interval");
       energy ← lift (Py.get data "energy");
       let rr_interval :=
         if Py.is_list rr_interval then first_or_zero rr_interval
         else rr_interval in
       if Py.is_none sensor_timestamp || Py.is_none bpm then
         stdout_write (InvalidMessage data);;
         ack
       else
         reading ← objects_create L env sensor_timestamp bpm
                     (Py.or_ rr_interval (VInt 0)) energy;
         stdout_write (Saved bpm (Py.or_ rr_interval (VInt 0))
                        (Models.id reading));;
         ack)
    (fun e =>
       if Py.is_JSONDecodeError e then
         stdout_write (FailedToDecodeJSON e (data message));;
         ack
       else
         stdout_write (ErrorProcessing e);;
         nack).

(** Running the callback on a world. *)
Definition run (L : Py.lib) (env : Env) (message : Message) (w : World)
  : World :=
  snd (message_callback L env message w).

(** The world [w] after the table became [db'] and [new] happened. *)
Definition after (w : World) (db' : Db) (new : list Event) : World :=
  {| db := db'; trace := trace w ++ new |}.

(** ** Reading a trace *)

Definition is_ack (ev : Event) : bool :=
  match ev with Ack => true | _ => false end.
Definition is_nack (ev : Event) : bool :=
  match ev with Nack => true | _ => false end.
Definition is_insert (ev : Event) : bool :=
  match ev with Insert _ => true | _ => false end.

Definition acks (t : list Event) : nat := length (filter is_ack t).
Definition nacks (t : list Event) : nat := length (filter is_nack t).
Definition inserts (t : list Event) : nat := length (filter is_insert t).

(** The classes of the specification, as the branch taken shows them
    on [stdout]. *)
Inductive Class :=
| Persisted
| Ignored
| ValidationError
| DecodeError
| ProcessingError.

Definition class_of_line (l : Line) : Class :=
  match l with
  | Saved _ _ _ => Persisted
  | IgnoringNonHR _ => Ignored
  | InvalidMessage _ => ValidationError
  | FailedToDecodeJSON _ _ => DecodeError
  | ErrorProcessing _ => ProcessingError
  end.

Definition classes (t : list Event) : list Class :=
  omap (fun ev => match ev with Stdout l => Some (class_of_line l)
                           | _ => None end) t.

(** Every [Ack] of the trace comes after an [Insert]. *)
Definition ack_only_after_insert (t : list Event) : Prop :=
  forall pre post, t = pre ++ Ack :: post -> exists r, In (Insert r) pre.

End SubscribeHr.

(* ================================================================== *)
(** * heartrate/views.py and heartrate/serializers.py *)
(* ================================================================== *)

Module Views.

(** The request, as far as the views read it:
    [request.query_params]. *)
Record Request := { query_params : gmap string string }.

(** [HeartRateReadingSerializer(reading).data] *)
Record ReadingData := {
  d_id : Z;
  d_sensor_timestamp : Z;
  d_sensor_timestamp_seconds : Py.float;
  d_bpm : Z;
  d_rr_interval : Z;
  d_rr_interval_seconds : Py.float;
  d_energy : option Py.float;
  d_created_at : Py.datetime
}.

Definition HeartRateReadingSerializer (r : HeartRateReading) : ReadingData :=
  {| d_id := Models.id r;
     d_sensor_timestamp := Models.sensor_timestamp r;
     d_sensor_timestamp_seconds := Models.sensor_timestamp_seconds r;
     d_bpm := Models.bpm r;
     d_rr_interval := Models.rr_interval r;
     d_rr_interval_seconds := Models.rr_interval_seconds r;
     d_energy := Models.energy r;
     d_created_at := Models.created_at r |}.

(** The dictionary built by [stats], which [HeartRateStatsSerializer]
    renders field by field. *)
Record Stats := {
  count : Z;
  avg_bpm : option Py.float;
  min_bpm : option Z;
  max_bpm : option Z;
  avg_rr_interval : option Py.float;
  time_range_start : option Py.datetime;
  time_range_end : option Py.datetime
}.

Inductive Body :=
| Reading (d : ReadingData)
| Aggregate (s : Stats)
| Detail (msg : string).

Record Response := {
  body : Body;
  status : Z
}.

Definition HTTP_200_OK : Z := 200.
Definition HTTP_404_NOT_FOUND : Z := 404.

(** ** Querysets *)

(** [a] may come before [b] under [order_by('-created_at')]. *)
Definition newer_first (a b : HeartRateReading) : Prop :=
  Models.created_at b <= Models.created_at a.

#[global] Instance newer_first_dec : RelDecision newer_first.
Proof. intros a b. unfold newer_first. apply _. Defined.

(** [.order_by('-created_at')]. Which of two rows with the same
    [created_at] comes first is the sort's business; nothing below
    depends on it. *)
Definition order_by_created_at_desc
  : list HeartRateReading -> list HeartRateReading :=
  merge_sort newer_first.

(** [.filter(created_at__gte=cutoff_time)] *)
Definition filter_created_at_gte (cutoff_time : Py.datetime)
  : list HeartRateReading -> list HeartRateReading :=
  filter (fun r => cutoff_time <= Models.created_at r).

(** [.first()] *)
Definition first {A} (l : list A) : option A := head l.

(** [try: body  except ValueError: pass], the value being the queryset
    when the body is left early. *)
Definition except_ValueError_pass {A} (body : result A) (otherwise : A)
  : result A :=
  match body with
  | Ok a => Ok a
  | Raise e => if Py.is_ValueError e then Ok otherwise else Raise e
  end.

(** [HeartRateViewSet.get_queryset]; [now] is what [timezone.now()]
    returns. *)
Definition get_queryset (L : Py.lib) (now : Py.datetime) (db : Db)
    (request : Request) : result (list HeartRateReading) :=
  let queryset := Models.rows db in
  let minutes := query_params request !! "minutes" in
  queryset ←
    match minutes with
    | Some s =>
        if negb (String.eqb s "") then
          except_ValueError_pass
            (minutes ← Py.or_ValueError (Py.int_of_str L s);
             td ← Py.timedelta_minutes minutes;
             cutoff_time ← Py.datetime_sub now td;
             mret (filter_created_at_gte cutoff_time queryset))
            queryset
        else mret queryset
    | None => mret queryset
    end;
  mret (order_by_created_at_desc queryset).

(** [HeartRateViewSet.latest] *)
Definition latest (db : Db) : Response :=
  match first (order_by_created_at_desc (Models.rows db)) with
  | Some reading =>
      {| body := Reading (HeartRateReadingSerializer reading);
         status := HTTP_200_OK |}
  | None =>
      {| body := Detail "No readings available";
         status := HTTP_404_NOT_FOUND |}
  end.

(** ** Aggregates: [Count], [Avg], [Min], [Max]

    [Avg] is the float that the database's [AVG] returns for the
    column. On no rows, [Count] is 0 and the others are NULL. *)

Definition Count {A} (qs : list A) : Z := Z.of_nat (length qs).

Definition Avg {A} (L : Py.lib) (field : A -> Z) (qs : list A)
  : option Py.float :=
  match qs with
  | [] => None
  | _ :: _ => Some (Py.db_avg L (map field qs))
  end.

Definition Min {A} (field : A -> Z) (qs : list A) : option Z :=
  match qs with
  | [] => None
  | r :: qs' => Some (fold_right Z.min (field r) (map field qs'))
  end.

Definition Max {A} (field : A -> Z) (qs : list A) : option Z :=
  match qs with
  | [] => None
  | r :: qs' => Some (fold_right Z.max (field r) (map field qs'))
  end.

(** [m] is the least ([greatest]) value of [field] over [qs]; there is
    none exactly when [qs] is empty. *)
Definition least_of {A} (field : A -> Z) (qs : list A) (m : option Z) : Prop :=
  match m with
  | None => qs = []
  | Some lo =>
      (exists r, r ∈ qs /\ field r = lo)
      /\ (forall r, r ∈ qs -> lo <= field r)
  end.

Definition greatest_of {A} (field : A -> Z) (qs : list A) (m : option Z)
  : Prop :=
  match m with
  | None => qs = []
  | Some hi =>
      (exists r, r ∈ qs /\ field r = hi)
      /\ (forall r, r ∈ qs -> field r <= hi)
  end.

(** [if stats[k]: stats[k] = round(stats[k], 1)] *)
Definition round_if_truthy (v : option Py.float) : option Py.float :=
  match v with
  | Some f => if negb (Py.float_is_zero f) then Some (Py.round1 f) else Some f
  | None => None
  end.

Definition aggregate (L : Py.lib) (qs : list HeartRateReading) : Stats :=
  {| count := Count qs;
     avg_bpm := Avg L Models.bpm qs;
     min_bpm := Min Models.bpm qs;
     max_bpm := Max Models.bpm qs;
     avg_rr_interval := Avg L Models.rr_interval qs;
     time_range_start := Min Models.created_at qs;
     time_range_end := Max Models.created_at qs |}.

(** [HeartRateViewSet.stats] *)
Definition stats (L : Py.lib) (now : Py.datetime) (db : Db)
    (request : Request) : result Response :=
  queryset ← get_queryset L now db request;
  let stats := aggregate L queryset in
  let stats :=
    {| count := count stats;
       avg_bpm := round_if_truthy (avg_bpm stats);
       min_bpm := min_bpm stats;
       max_bpm := max_bpm stats;
       avg_rr_interval := round_if_truthy (avg_rr_interval stats);
       time_range_start := time_range_start stats;
       time_range_end := time_range_end stats |} in
  mret {| body := Aggregate stats; status := HTTP_200_OK |}.

End Views.

(* ================================================================== *)
(** * The words of the specification of [stats], and binary64 *)
(* ================================================================== *)

(** What the specification says of the two means, in rationals, to be
    compared with what the code computes in binary64. *)
Module Spec.

(** The mantissa of a finite float with its sign. *)
Definition signed (s : bool) (m : positive) : Z :=
  if s then Zneg m else Zpos m.

(** The number a float stands for; infinities and NaN stand for
    none. *)
Definition value (f : Py.float) : option Q :=
  match f with
  | S754_zero _ => Some 0%Q
  | S754_finite s m e => Some (inject_Z (signed s m) * 2 ^ e)%Q
  | _ => None
  end.

(** [f] is the number [q] as a double has it: within half a unit in
    the last place of [f]; a zero stands for 0 only. *)
Definition is_double_for (f : Py.float) (q : Q) : Prop :=
  match f with
  | S754_zero _ => (q == 0)%Q
  | S754_finite s m e =>
      (Qabs (inject_Z (signed s m) * 2 ^ e - q) <= 2 ^ e / 2)%Q
  | _ => False
  end.

(** The mean of integers: their total by their number. *)
Definition total (xs : list Z) : Z := foldr Z.add 0 xs.

Definition mean (xs : list Z) : Q :=
  (inject_Z (total xs) / inject_Z (Z.of_nat (length xs)))%Q.

Definition two64 : Q := inject_Z (2 ^ 64).

(** What is asked of the database: the float that its [AVG] returns
    for the values [xs] of a column is a number, of the magnitude of a
    64-bit integer at most as the values of an integer column are, and
    within [tol] of their mean. *)
Definition database_mean (tol : Q) (xs : list Z) (f : Py.float) : Prop :=
  exists v,
    value f = Some v /\ (Qabs v <= two64)%Q /\ (Qabs (v - mean xs) <= tol)%Q.

(** "The mean, reported rounded to one decimal place": over no value
    null; otherwise the double for a decimal [k / 10] that is, up to
    the tolerance of the database, a nearest one to the mean. *)
Definition reported_mean (tol : Q) (xs : list Z) (r : option Py.float)
  : Prop :=
  match xs with
  | [] => r = None
  | _ :: _ =>
      exists (f : Py.float) (k : Z),
        r = Some f
        /\ is_double_for f (inject_Z k / 10)
        /\ (Qabs (mean xs - inject_Z k / 10) <= (1 # 20) + tol)%Q
  end.

End Spec.

(** How [binary_round_aux] rounds, for the proofs about division. *)
Module Rounding.

(** A non-negative rational [N / D] is located by a mantissa and a
    location. *)
Definition located (m : Z) (l : location) (N D : Z) : Prop :=
  match l with
  | loc_Exact => N = m * D
  | loc_Inexact Lt => m * D < N /\ 2 * N < (2 * m + 1) * D
  | loc_Inexact Eq => 2 * N = (2 * m + 1) * D
  | loc_Inexact Gt => (2 * m + 1) * D < 2 * N /\ N < (m + 1) * D
  end.

Definition located_rec (mrs : shr_record) (N D : Z) : Prop :=
  0 <= shr_m mrs /\ located (shr_m mrs) (loc_of_shr_record mrs) N D.

Definition emin : Z := -1074.

(** The mantissa and the exponent that [binary_round_aux] arrives at. *)
Definition round_core (mx ex : Z) (lx : location) : Z * Z :=
  let '(mrs', e') := shr_fexp Py.prec Py.emax mx ex lx in
  let '(mrs'', e'') :=
    shr_fexp Py.prec Py.emax
      (round_nearest_even (shr_m mrs') (loc_of_shr_record mrs')) e' loc_Exact in
  (shr_m mrs'', e'').


End Rounding.

(* ================================================================== *)
(** * polarh10-producer/hr_callbacl.py: test mode *)
(* ================================================================== *)

Module Producer.

(** The tuple [('HR', tstamp, (bpm, rr_interval), energy)]. *)
Record HrData := {
  hr_type : string;
  tstamp : Z;
  bpm : Z;
  rr_interval : Z;
  energy : option Py.float
}.

(** What [generate_random_hr_data] asks of its surroundings:
    [time.time_ns()] and [random.randint(a, b)]. *)
Class Sources (M : Type -> Type) := {
  time_ns : M Z;
  randint : Z -> Z -> M Z
}.

(** [generate_random_hr_data] *)
Definition generate_random_hr_data {M : Type -> Type}
    `{!MRet M, !MBind M, !Sources M} : M HrData :=
  tstamp ← time_ns;
  bpm ← randint 100 120;
  rr_interval ← randint 500 900;
  let energy := None in
  mret {| hr_type := "HR"; tstamp := tstamp; bpm := bpm;
          rr_interval := rr_interval; energy := energy |}.

(** ** Reading 1: the distribution of the result

    A finite distribution is the list of its equally likely outcomes.
    [random.randint(a, b)] is the uniform distribution on the integers
    from [a] to [b]; the clock shows [clock]. *)
Definition Dist : Type -> Type := list.

Definition Sources_dist (clock : Z) : Sources Dist :=
  {| time_ns := [clock];
     randint := fun a b => seqZ a (b - a + 1) |}.

Definition generated (clock : Z) : Dist HrData :=
  @generate_random_hr_data Dist _ _ (Sources_dist clock).

(** Number of outcomes of a distribution that satisfy [p]. *)
Definition weight {A} (p : A -> bool) (d : Dist A) : nat :=
  length (filter (fun a => p a = true) d).

(** ** Reading 2: one run

    The module [random] is a generator state of some type [G] with the
    two functions used; the documented contract of each is a separate
    assumption where it is needed. *)
Record random_module (G : Type) := {
  random_randint : Z -> Z -> G -> Z * G;
  random_uniform : Py.float -> Py.float -> G -> Py.float * G
}.
Arguments random_randint {G} _ _ _ _.
Arguments random_uniform {G} _ _ _ _.

(** Computations that read the wall clock and advance the generator. *)
Definition Run (G : Type) (A : Type) : Type := Z -> G -> A * G.

#[global] Instance Run_ret {G} : MRet (Run G) := fun A a _ g => (a, g).

#[global] Instance Run_bind {G} : MBind (Run G) := fun A B f m clock g =>
  let '(a, g') := m clock g in f a clock g'.

Definition Sources_run {G} (R : random_module G) : Sources (Run G) :=
  {| time_ns := fun clock g => (clock, g);
     randint := fun a b _ g => random_randint R a b g |}.

(** The float literals [0.05] and [0.2]. *)
Definition lit_0_05 : Py.float := S754_finite false 7205759403792794 (-57).
Definition lit_0_2 : Py.float := S754_finite false 7205759403792794 (-55).

(** What is observed of the loop: the calls of [hr_callback] and of
    [asyncio.sleep]. *)
Inductive Event :=
| Callback (data : HrData)
| Sleep (seconds : Py.float).

(** One turn of the loop as its surroundings shape it: the wall clock
    when the data is generated, and whether the quit event was set by
    the time the sleep is over. *)
Record Turn := {
  wall_clock_ns : Z;
  quit_set : bool
}.

(** The loop of [run_test_mode]:
    [while not quittest.is_set(): data = generate_random_hr_data();
     hr_callback(data); await asyncio.sleep(random.uniform(0.05, 0.2))].
    The event is not set when the loop is entered. The run is followed
    for the turns given. *)
Fixpoint run_test_mode {G} (R : random_module G) (turns : list Turn) (g : G)
  : list Event :=
  match turns with
  | [] => []
  | t :: turns' =>
      let '(data, g) :=
        @generate_random_hr_data (Run G) _ _ (Sources_run R)
          (wall_clock_ns t) g in
      let '(seconds, g) := random_uniform R lit_0_05 lit_0_2 g in
      Callback data :: Sleep seconds ::
        (if quit_set t then [] else run_test_mode R turns' g)
  end.

(** [a <= x <= b] on floats *)
Definition float_between (a b x : Py.float) : bool :=
  SFleb a x && SFleb x b.

(** The turns the loop takes: up to the first one that ends with the
    quit event set. *)
Fixpoint turns_taken (turns : list Turn) : list Turn :=
  match turns with
  | [] => []
  | t :: turns' => t :: (if quit_set t then [] else turns_taken turns')
  end.

(** A run in which each emission is followed by one sleep. *)
Definition emissions (es : list (HrData * Py.float)) : list Event :=
  flat_map (fun e => [Callback (fst e); Sleep (snd e)]) es.

(** The documented contracts of [random.randint] ("a random integer N
    such that a <= N <= b") and of [random.uniform] ("a random floating
    point number N such that a <= N <= b for a <= b"). *)
Definition randint_contract {G} (R : random_module G) : Prop :=
  forall a b g, a <= b -> a <= fst (random_randint R a b g) <= b.

Definition uniform_contract {G} (R : random_module G) : Prop :=
  forall a b g, SFleb a b = true ->
    float_between a b (fst (random_uniform R a b g)) = true.

End Producer.

(* ================================================================== *)
(** * polarh10-producer/hr_callbacl.py: heartrate_callback *)
(* ================================================================== *)

Module Callback.

(** What a notification is made of: numbers, strings, [None], lists and
    tuples. *)
Inductive obj :=
| ONone
| OBool (b : bool)
| OInt (z : Z)
| OFloat (f : Py.float)
| OStr (s : string)
| OList (l : list obj)
| OTuple (l : list obj).

(** The exceptions the body of the callback can meet; [OtherError]
    stands for any other subclass of [Exception] that [json.dumps] or
    [publish] may raise. *)
Inductive exc :=
| TypeError
| ValueError
| IndexError
| OtherError.

Inductive res (A : Type) :=
| Ret (a : A)
| Exc (e : exc).
Arguments Ret {A} a.
Arguments Exc {A} e.

#[global] Instance res_ret : MRet res := fun A a => Ret a.

#[global] Instance res_bind : MBind res := fun A B f r =>
  match r with
  | Ret a => f a
  | Exc e => Exc e
  end.

(** The characters of a [str], the text being kept as UTF-8: a byte
    from 128 to 191 continues the character before it. *)
Definition is_continuation (c : ascii) : bool :=
  let n := Z.of_N (N_of_ascii c) in (128 <=? n) && (n <=? 191).

Fixpoint chars (s : string) : list string :=
  match s with
  | EmptyString => []
  | String c s' =>
      match chars s' with
      | String c' t :: rest =>
          if is_continuation c' then String c (String c' t) :: rest
          else String c EmptyString :: String c' t :: rest
      | rest => String c EmptyString :: rest
      end
  end.

(** Iterating over a value, as unpacking and [list(...)] do. *)
Definition iter (x : obj) : res (list obj) :=
  match x with
  | OList l | OTuple l => Ret l
  | OStr s => Ret (map OStr (chars s))
  | ONone | OBool _ | OInt _ | OFloat _ => Exc TypeError
  end.

(** [a, b, c, d = x] *)
Definition unpack4 (x : obj) : res (obj * obj * obj * obj) :=
  items ← iter x;
  match items with
  | [a; b; c; d] => Ret (a, b, c, d)
  | _ => Exc ValueError
  end.

(** [a, b = x] *)
Definition unpack2 (x : obj) : res (obj * obj) :=
  items ← iter x;
  match items with
  | [a; b] => Ret (a, b)
  | _ => Exc ValueError
  end.

(** [x[0]] *)
Definition getitem0 (x : obj) : res obj :=
  match x with
  | OList (h :: _) | OTuple (h :: _) => Ret h
  | OList [] | OTuple [] => Exc IndexError
  | OStr s =>
      match chars s with
      | h :: _ => Ret (OStr h)
      | [] => Exc IndexError
      end
  | ONone | OBool _ | OInt _ | OFloat _ => Exc TypeError
  end.

(** [isinstance(x, tuple)] *)
Definition is_tuple (x : obj) : bool :=
  match x with OTuple _ => true | _ => false end.

(** [isinstance(x, (int, float))]; [bool] is a subclass of [int]. *)
Definition is_number (x : obj) : bool :=
  match x with OBool _ | OInt _ | OFloat _ => true | _ => false end.

(** [list(x)] *)
Definition list_ (x : obj) : res obj :=
  items ← iter x; mret (OList items).

(** The dictionary [message_data]. *)
Record MessageData := {
  md_type : obj;
  md_timestamp : obj;
  md_bpm : obj;
  md_rr_interval : obj;
  md_energy : obj
}.

(** [json.dumps] on [message_data], taken as given. *)
Record lib := {
  json_dumps : MessageData -> res string
}.

(** [str.encode('utf-8')]: the text is kept as its UTF-8 bytes. *)
Definition encode_utf8 (s : string) : list byte := list_byte_of_string s.

(** The module's globals [pubsub_publisher] and [pubsub_topic_path]. *)
Inductive Publisher := PublisherClient.

Record Globals := {
  pubsub_publisher : option Publisher;
  pubsub_topic_path : option string
}.

(** What the callback prints, and what it hands to [publish]. *)
Inductive Line :=
| ShowData (data : obj)
| PublishedToPubSub (data : obj)
| ErrorPublishing (e : exc)
| DataWas (data : obj).

Inductive Event :=
| Print (l : Line)
| Publish (topic : string) (payload : list byte).

(** Statements that print or publish, and may raise. *)
Definition M (A : Type) : Type := list Event -> res A * list Event.

#[global] Instance M_ret : MRet M := fun A a t => (Ret a, t).

#[global] Instance M_bind : MBind M := fun A B f m t =>
  match m t with
  | (Ret a, t') => f a t'
  | (Exc e, t') => (Exc e, t')
  end.

Definition lift {A} (r : res A) : M A := fun t => (r, t).

Definition print (l : Line) : M unit := fun t => (Ret tt, t ++ [Print l]).

(** [pubsub_publisher.publish(topic, payload)]: [fault] is what the
    client raises, if it raises. *)
Definition publish (fault : option exc) (topic : string)
    (payload : list byte) : M unit :=
  fun t =>
    match fault with
    | Some e => (Exc e, t)
    | None => (Ret tt, t ++ [Publish topic payload])
    end.

(** [try: body  except Exception as e: handler e] *)
Definition try_except {A} (body : M A) (handler : exc -> M A) : M A :=
  fun t =>
    match body t with
    | (Ret a, t') => (Ret a, t')
    | (Exc e, t') => handler e t'
    end.

(** From the unpacking of [data] to the dictionary [message_data]. *)
Definition build_message_data (data : obj) : res MessageData :=
  '(hr_type, timestamp, hr_data, energy) ← unpack4 data;
  '(bpm, rr_interval) ←
    (if is_tuple hr_data then unpack2 hr_data
     else first ← getitem0 hr_data; mret (first, hr_data));
  rr_interval ←
    (if is_number rr_interval then mret rr_interval
     else list_ rr_interval);
  mret {| md_type := hr_type;
          md_timestamp := timestamp;
          md_bpm := bpm;
          md_rr_interval := rr_interval;
          md_energy := energy |}.

(** [heartrate_callback] *)
Definition heartrate_callback (J : lib) (G : Globals)
    (fault : option exc) (data : obj) : M unit :=
  match pubsub_publisher G, pubsub_topic_path G with
  | Some publisher, Some topic_path =>
      try_except
        (message_data ← lift (build_message_data data);
         text ← lift (json_dumps J message_data);
         publish fault topic_path (encode_utf8 text);;
         print (PublishedToPubSub data))
        (fun e =>
           print (ErrorPublishing e);;
           print (DataWas data))
  | _, _ => print (ShowData data)
  end.

(** What one call prints and publishes. *)
Definition emitted (J : lib) (G : Globals) (fault : option exc)
    (data : obj) : list Event :=
  snd (heartrate_callback J G fault data []).

Definition is_publish (ev : Event) : bool :=
  match ev with Publish _ _ => true | _ => false end.

Definition publishes (t : list Event) : nat := length (filter is_publish t).

(** The tuple that [generate_random_hr_data] returns. *)
Definition frame_of (d : Producer.HrData) : obj :=
  OTuple [OStr (Producer.hr_type d);
          OInt (Producer.tstamp d);
          OTuple [OInt (Producer.bpm d); OInt (Producer.rr_interval d)];
          match Producer.energy d with
          | Some f => OFloat f
          | None => ONone
          end].

(** What [json.loads] makes of what [json.dumps] wrote: tuples come
    back as lists, the rest as it was. *)
Fixpoint json_of (x : obj) : val :=
  match x with
  | ONone => VNone
  | OBool b => VBool b
  | OInt z => VInt z
  | OFloat f => VFloat f
  | OStr s => VStr s
  | OList l | OTuple l => VList (map json_of l)
  end.

Definition json_of_message (m : MessageData) : gmap string val :=
  <["type" := json_of (md_type m)]> (
  <["timestamp" := json_of (md_timestamp m)]> (
  <["bpm" := json_of (md_bpm m)]> (
  <["rr_interval" := json_of (md_rr_interval m)]> (
  <["energy" := json_of (md_energy m)]> ∅)))).

End Callback.

(* ================================================================== *)
(** * polarh10-producer/hr_callbacl.py: scan, init_pubsub, main *)
(* ================================================================== *)

Module Startup.

(** A peripheral seen by the scanner; it may advertise no name. *)
Record Device := {
  address : string;
  name : option string
}.

(** What the process finds around it: whether [google.cloud.pubsub_v1]
    could be imported, which paths exist, what [PublisherClient()]
    raises if it raises, the library's [topic_path] and [str.lower],
    and the peripherals in the order in which the scanner sees them
    during its scan window. *)
Inductive ClientFault :=
| DefaultCredentialsError
| OtherException.

Record Host := {
  PUBSUB_AVAILABLE : bool;
  os_path_exists : string -> bool;
  publisher_fault : option ClientFault;
  topic_path : string -> string -> string;
  str_lower : string -> string;
  discovered : list Device
}.

(** Truth value of an optional string: [None] and [''] are false. *)
Definition truthy (s : option string) : bool :=
  match s with
  | Some s => negb (String.eqb s "")
  | None => false
  end.

(** [needle in hay] on strings *)
Fixpoint contains (needle hay : string) : bool :=
  String.prefix needle hay
  || match hay with
     | EmptyString => false
     | String _ hay' => contains needle hay'
     end.

(** The filter of [scan]:
    [dev.name and "polar" in dev.name.lower()], by its truth value. *)
Definition is_polar (H : Host) (dev : Device) : bool :=
  match name dev with
  | Some n => negb (String.eqb n "") && contains "polar" (str_lower H n)
  | None => false
  end.

(** [scan]: the first peripheral that passes the filter, [None] when
    the scan window ends without one. *)
Definition scan (H : Host) : option Device :=
  List.find (is_polar H) (discovered H).

(** What is printed, by the block of [print] calls it comes from. *)
Inductive Line :=
| WarnNotInstalled
| CredentialsFileNotFound (path : string)
| UsingCredentials (path : string)
| InitializedPublisher (topic_path : string)
| AuthenticationFailed
| ErrorInitializing
| FallingBackToScreen
| NoConfiguration
| TestModeBanner
| Scanning
| DeviceNotFound
| DataFormat
| Bye
| BothOrNeither.

(** What startup does, in order. [TestMode G] and [BleClient dev G]
    stand for [run_test_mode(heartrate_callback)] and
    [run_ble_client(device, heartrate_callback)] running with the
    globals [G]; nothing follows [SysExit]. *)
Inductive Event :=
| Say (l : Line)
| SetCredentialsEnv (path : string)
| Scanned
| TestMode (G : Callback.Globals)
| BleClient (dev : Device) (G : Callback.Globals)
| SysExit (status : Z).

Definition no_publisher : Callback.Globals :=
  {| Callback.pubsub_publisher := None; Callback.pubsub_topic_path := None |}.

(** [init_pubsub]: the pair it returns and what it does meanwhile. *)
Definition init_pubsub (H : Host) (project_id topic_name : string)
    (credentials_path : option string) : Callback.Globals * list Event :=
  if negb (PUBSUB_AVAILABLE H) then
    (no_publisher, [Say WarnNotInstalled])
  else
    match
      (if truthy credentials_path then
         match credentials_path with
         | Some path =>
             if negb (os_path_exists H path) then
               inl [Say (CredentialsFileNotFound path)]
             else inr [SetCredentialsEnv path; Say (UsingCredentials path)]
         | None => inr []
         end
       else inr [])
    with
    | inl done => (no_publisher, done)
    | inr done =>
        match publisher_fault H with
        | None =>
            let topic_path := topic_path H project_id topic_name in
            ({| Callback.pubsub_publisher := Some Callback.PublisherClient;
                Callback.pubsub_topic_path := Some topic_path |},
             done ++ [Say (InitializedPublisher topic_path)])
        | Some DefaultCredentialsError =>
            (no_publisher, done ++ [Say AuthenticationFailed])
        | Some OtherException =>
            (no_publisher, done ++ [Say ErrorInitializing])
        end
    end.

(** [main]; the globals start as [None], [None]. *)
Definition main (H : Host) (test_mode : bool)
    (pubsub_project_id pubsub_topic_name pubsub_credentials_path
       : option string) : list Event :=
  let '(G, configured) :=
    match pubsub_project_id, pubsub_topic_name with
    | Some project_id, Some topic_name =>
        if truthy pubsub_project_id && truthy pubsub_topic_name then
          let '(G, done) :=
            init_pubsub H project_id topic_name pubsub_credentials_path in
          (G, done ++
              match Callback.pubsub_publisher G with
              | None => [Say FallingBackToScreen]
              | Some _ => []
              end)
        else (no_publisher, [Say NoConfiguration])
    | _, _ => (no_publisher, [Say NoConfiguration])
    end in
  configured ++
  if test_mode then
    [Say TestModeBanner; TestMode G; Say Bye]
  else
    [Say Scanning; Scanned] ++
    match scan H with
    | None => [Say DeviceNotFound; SysExit (-4)]
    | Some device => [Say DataFormat; BleClient device G; Say Bye]
    end.

(** The command line, after [argparse]. *)
Record Args := {
  test : bool;
  pubsub_project_id : option string;
  pubsub_topic_name : option string;
  pubsub_credentials_path : option string
}.

(** The block under [if __name__ == "__main__"]. *)
Definition entry (H : Host) (args : Args) : list Event :=
  if (truthy (pubsub_project_id args) && negb (truthy (pubsub_topic_name args)))
     || (truthy (pubsub_topic_name args)
         && negb (truthy (pubsub_project_id args)))
  then [Say BothOrNeither; SysExit 1]
  else main H (test args) (pubsub_project_id args) (pubsub_topic_name args)
         (pubsub_credentials_path args).

(** The globals with which the callback runs, if it runs. *)
Fixpoint callback_globals (t : list Event) : option Callback.Globals :=
  match t with
  | [] => None
  | TestMode G :: _ | BleClient _ G :: _ => Some G
  | _ :: t' => callback_globals t'
  end.

(** [hr_callback(data)] for each event of a run of the test mode, with
    [heartrate_callback] as the callback: [faults] says, call by call,
    what [publish] raises. *)
Fixpoint deliver (J : Callback.lib) (G : Callback.Globals)
    (faults : list (option Callback.exc)) (run : list Producer.Event)
  : list Callback.Event :=
  match run with
  | [] => []
  | Producer.Callback data :: run' =>
      Callback.emitted J G (default None (head faults))
        (Callback.frame_of data)
      ++ deliver J G (tail faults) run'
  | Producer.Sleep _ :: run' => deliver J G faults run'
  end.

End Startup.

(* ================================================================== *)
(** * subscribe_hr.py: handle, signal_handler, run_subscriber *)
(* ================================================================== *)

Module Command.

(** The messages of the [CommandError]s that [handle] raises. *)
Inductive Why :=
| NotInstalled
| ProjectIdRequired
| SubscriptionNameRequired
| SubscriptionNotFound
| PermissionWasDenied
| OtherFailure.

(** Exceptions: [CommandError], the two classes of [google.api_core]
    that [handle] names, and any other subclass of [Exception]. *)
Inductive exc :=
| CommandError (why : Why)
| NotFound
| PermissionDenied
| OtherException.

Inductive res (A : Type) :=
| Ret (a : A)
| Exc (e : exc).
Arguments Ret {A} a.
Arguments Exc {A} e.

(** The parsed options and the Django settings read by [handle]. *)
Record Options := {
  project_id : option string;
  subscription_name : option string;
  credentials_path : option string;
  timeout : option Z
}.

Record Settings := {
  PUBSUB_PROJECT_ID : option string;
  PUBSUB_SUBSCRIPTION_NAME : option string;
  PUBSUB_CREDENTIALS_PATH : option string
}.

(** Truth value of an optional string, and [a or b]. *)
Definition truthy (s : option string) : bool :=
  match s with
  | Some s => negb (String.eqb s "")
  | None => false
  end.

Definition or_ (a b : option string) : option string :=
  if truthy a then a else b.

(** What the Pub/Sub client does in one run of the command: whether the
    library could be imported, what each call raises if it raises, and
    whether a shutdown signal arrives while the command waits on the
    stream. *)
Record Service := {
  PUBSUB_AVAILABLE : bool;
  subscriber_fault : option exc;
  subscription_path : string -> string -> string;
  subscribe_fault : option exc;
  signal_arrives : bool;
  wait_fault : option exc;
  cleanup_fault : option exc
}.

(** The attributes of the command object. *)
Inductive Future := StreamingPullFuture.

Record Self := {
  subscriber_created : bool;
  streaming_pull_future : option Future;
  running : bool
}.

(** [__init__] *)
Definition init : Self :=
  {| subscriber_created := false;
     streaming_pull_future := None;
     running := true |}.

Inductive Line :=
| Starting (project_id subscription_name : string)
| UsingCredentials (path : string)
| Listening (subscription_path : string)
| ReceivedShutdownSignal
| SubscriberError (e : exc)
| SubscriberStopped.

Inductive Event :=
| Write (l : Line)
| InstallSignalHandlers
| SetCredentialsEnv (path : string)
| Subscribe (subscription_path : string)
| Wait (timeout : option Z)
| Cancel.

Record State := {
  self : Self;
  trace : list Event
}.

Definition M (A : Type) : Type := State -> res A * State.

#[global] Instance M_ret : MRet M := fun A a st => (Ret a, st).

#[global] Instance M_bind : MBind M := fun A B f m st =>
  match m st with
  | (Ret a, st') => f a st'
  | (Exc e, st') => (Exc e, st')
  end.

Definition raise {A} (e : exc) : M A := fun st => (Exc e, st).

Definition emit (ev : Event) : M unit := fun st =>
  (Ret tt, {| self := self st; trace := trace st ++ [ev] |}).

Definition write (l : Line) : M unit := emit (Write l).

Definition get_self : M Self := fun st => (Ret (self st), st).

Definition set_self (s : Self) : M unit := fun st =>
  (Ret tt, {| self := s; trace := trace st |}).

(** A library call that raises [fault] if there is one. *)
Definition call (fault : option exc) : M unit :=
  match fault with
  | Some e => raise e
  | None => mret tt
  end.

Definition try_except {A} (body : M A) (handler : exc -> M A) : M A :=
  fun st =>
    match body st with
    | (Ret a, st') => (Ret a, st')
    | (Exc e, st') => handler e st'
    end.

(** [signal_handler] *)
Definition signal_handler : M unit :=
  write ReceivedShutdownSignal;;
  s ← get_self;
  set_self {| subscriber_created := subscriber_created s;
              streaming_pull_future := streaming_pull_future s;
              running := false |};;
  match streaming_pull_future s with
  | Some _ => emit Cancel
  | None => mret tt
  end.

(** [streaming_pull_future.result(timeout=timeout)] in the [try] of
    [run_subscriber]: the signal handler runs if a signal arrives
    meanwhile. *)
Definition wait_on_stream (S : Service) (timeout : option Z) : M unit :=
  emit (Wait timeout);;
  (if signal_arrives S then signal_handler else mret tt);;
  call (wait_fault S).

(** [run_subscriber] *)
Definition run_subscriber (S : Service) (project_id subscription_name : string)
    (credentials_path : option string) (timeout : option Z) : M unit :=
  (if truthy credentials_path then
     match credentials_path with
     | Some path =>
         emit (SetCredentialsEnv path);;
         write (UsingCredentials path)
     | None => mret tt
     end
   else mret tt);;
  call (subscriber_fault S);;
  s ← get_self;
  set_self {| subscriber_created := true;
              streaming_pull_future := streaming_pull_future s;
              running := running s |};;
  let subscription_path :=
    subscription_path S project_id subscription_name in
  write (Listening subscription_path);;
  call (subscribe_fault S);;
  emit (Subscribe subscription_path);;
  s ← get_self;
  set_self {| subscriber_created := subscriber_created s;
              streaming_pull_future := Some StreamingPullFuture;
              running := running s |};;
  try_except
    (wait_on_stream S timeout)
    (fun e =>
       s ← get_self;
       (if running s then write (SubscriberError e) else mret tt);;
       emit Cancel;;
       emit (Wait None);;
       call (cleanup_fault S));;
  write SubscriberStopped.

(** [handle] *)
Definition handle (S : Service) (settings : Settings) (options : Options)
  : M unit :=
  if negb (PUBSUB_AVAILABLE S) then raise (CommandError NotInstalled)
  else
    let project_id :=
      or_ (project_id options) (PUBSUB_PROJECT_ID settings) in
    let subscription_name :=
      or_ (subscription_name options) (PUBSUB_SUBSCRIPTION_NAME settings) in
    let credentials_path :=
      or_ (credentials_path options) (PUBSUB_CREDENTIALS_PATH settings) in
    let timeout := timeout options in
    if negb (truthy project_id) then
      raise (CommandError ProjectIdRequired)
    else if negb (truthy subscription_name) then
      raise (CommandError SubscriptionNameRequired)
    else
      (* both are strings here, and not empty *)
      let project_id := default "" project_id in
      let subscription_name := default "" subscription_name in
      emit InstallSignalHandlers;;
      write (Starting project_id subscription_name);;
      try_except
        (run_subscriber S project_id subscription_name credentials_path
           timeout)
        (fun e =>
           match e with
           | NotFound => raise (CommandError SubscriptionNotFound)
           | PermissionDenied => raise (CommandError PermissionWasDenied)
           | _ => raise (CommandError OtherFailure)
           end).

(** The command, from a fresh object: what it raises, if anything, and
    what it has done. *)
Definition run (S : Service) (settings : Settings) (options : Options)
  : res unit * State :=
  handle S settings options {| self := init; trace := [] |}.

Definition is_cancel (ev : Event) : bool :=
  match ev with Cancel => true | _ => false end.

Definition is_subscribe (ev : Event) : bool :=
  match ev with Subscribe _ => true | _ => false end.

End Command.

(* ================================================================== *)
(** * Notions used to state properties *)
(* ================================================================== *)

Module Notions.

(** A table whose primary keys are distinct and below the next key. *)
Definition table_ok (db : Db) : Prop :=
  NoDup (map Models.id (Models.rows db))
  /\ Forall (fun r => Models.id r < Models.next_id db) (Models.rows db).

(** Two rows that differ at most in primary key and [created_at]. *)
Definition same_reading (r1 r2 : HeartRateReading) : Prop :=
  Models.sensor_timestamp r1 = Models.sensor_timestamp r2
  /\ Models.bpm r1 = Models.bpm r2
  /\ Models.rr_interval r1 = Models.rr_interval r2
  /\ Models.energy r1 = Models.energy r2.

(** The status with which the process exits, if a trace has one. *)
Fixpoint exit_status (t : list Startup.Event) : option Z :=
  match t with
  | [] => None
  | Startup.SysExit status :: _ => Some status
  | _ :: t' => exit_status t'
  end.

(** Exactly one of two optional strings is given. *)
Definition only_one (a b : option string) : bool :=
  xorb (Startup.truthy a) (Startup.truthy b).

(** Pub/Sub is asked for and [init_pubsub] can set it up. *)
Definition publisher_ready (H : Startup.Host)
    (project_id topic_name credentials_path : option string) : bool :=
  Startup.truthy project_id && Startup.truthy topic_name
  && Startup.PUBSUB_AVAILABLE H
  && match credentials_path with
     | Some path => String.eqb path "" || Startup.os_path_exists H path
     | None => true
     end
  && match Startup.publisher_fault H with
     | None => true
     | Some _ => false
     end.

(** The number of calls of [hr_callback] in a run of the test mode. *)
Definition is_callback (ev : Producer.Event) : bool :=
  match ev with
  | Producer.Callback _ => true
  | Producer.Sleep _ => false
  end.

Definition callbacks (run : list Producer.Event) : nat :=
  length (filter is_callback run).

(** The exception that leaves [run_subscriber], if one does: from the
    creation of the client, from [subscribe], or from the wait for
    cleanup after a failed wait. *)
Definition escaping (S : Command.Service) : option Command.exc :=
  match Command.subscriber_fault S with
  | Some e => Some e
  | None =>
      match Command.subscribe_fault S with
      | Some e => Some e
      | None =>
          match Command.wait_fault S with
          | Some _ => Command.cleanup_fault S
          | None => None
          end
      end
  end.

(** The command has what it needs to start. *)
Definition configured (S : Command.Service) (settings : Command.Settings)
    (options : Command.Options) : bool :=
  Command.PUBSUB_AVAILABLE S
  && Command.truthy
       (Command.or_ (Command.project_id options)
          (Command.PUBSUB_PROJECT_ID settings))
  && Command.truthy
       (Command.or_ (Command.subscription_name options)
          (Command.PUBSUB_SUBSCRIPTION_NAME settings)).

(** The data handed to [hr_callback], call by call. *)
Fixpoint frames (run : list Producer.Event) : list Producer.HrData :=
  match run with
  | [] => []
  | Producer.Callback data :: run' => data :: frames run'
  | Producer.Sleep _ :: run' => frames run'
  end.

(** The dictionary that [heartrate_callback] builds from the tuple of
    [generate_random_hr_data]. *)
Definition message_of (d : Producer.HrData) : Callback.MessageData :=
  {| Callback.md_type := Callback.OStr (Producer.hr_type d);
     Callback.md_timestamp := Callback.OInt (Producer.tstamp d);
     Callback.md_bpm := Callback.OInt (Producer.bpm d);
     Callback.md_rr_interval := Callback.OInt (Producer.rr_interval d);
     Callback.md_energy :=
       match Producer.energy d with
       | Some f => Callback.OFloat f
       | None => Callback.ONone
       end |}.

End Notions.

(* ================================================================== *)
(** * Sample inputs *)
(* ================================================================== *)

Module Samples.

(** ASCII decimal digits, as [int] reads them. *)
Definition digit (c : ascii) : option Z :=
  let n := Z.of_N (N_of_ascii c) in
  if (48 <=? n) && (n <=? 57) then Some (n - 48) else None.

Fixpoint digits (acc : Z) (s : string) : option Z :=
  match s with
  | EmptyString => Some acc
  | String c s' =>
      match digit c with
      | Some k => digits (10 * acc + k) s'
      | None => None
      end
  end.

Definition decimal (s : string) : option Z :=
  match s with
  | EmptyString => None
  | _ => digits 0 s
  end.

(** A database whose [AVG] adds the integers up exactly and divides
    the sum by their number once, in binary64. *)
Definition sum (xs : list Z) : Z := fold_right Z.add 0 xs.

Definition exact_avg (xs : list Z) : Py.float :=
  Py.truediv (sum xs) (Z.of_nat (length xs)).

(** A library that knows one JSON text: [json.loads] returns (or
    raises) [loaded] on [text] and raises [json.JSONDecodeError] on any
    other text; [int] reads strings of digits. *)
Definition lib_reading (text : list byte) (loaded : result val) : Py.lib :=
  {| Py.json_loads := fun s =>
       if String.eqb s (string_of_list_byte text) then loaded
       else Raise JSONDecodeError;
     Py.int_of_str := decimal;
     Py.float_of_str := fun _ => None;
     Py.db_avg := exact_avg |}.

(** [{"type": "HR", "timestamp": 1766417260747938000, "bpm": 119,
     "rr_interval": [700, 650], "energy": null}] *)
Definition hr_event : gmap string val :=
  <["type" := VStr "HR"]> (
  <["timestamp" := VInt 1766417260747938000]> (
  <["bpm" := VInt 119]> (
  <["rr_interval" := VList [VInt 700; VInt 650]]> (
  <["energy" := VNone]> ∅)))).

(** [{"type": "HR", "timestamp": 1766417260747938000, "bpm": 119,
     "rr_interval": 521, "energy": null}] *)
Definition hr_event_521 : gmap string val :=
  <["rr_interval" := VInt 521]> hr_event.

(** [{"type": "HR", "timestamp": 1766417260747938000, "bpm": 119,
     "rr_interval": [], "energy": null}] *)
Definition hr_event_empty_rr : gmap string val :=
  <["rr_interval" := VList []]> hr_event.

(** [{"type": "HR", "timestamp": 1766417260747938000, "bpm": 119,
     "energy": null}] *)
Definition hr_event_no_rr : gmap string val :=
  delete "rr_interval" hr_event.

(** [{"type": "HR", "bpm": 80}] *)
Definition hr_without_timestamp : gmap string val :=
  <["type" := VStr "HR"]> (<["bpm" := VInt 80]> ∅).

(** [{"type": "ACC", "bpm": 80}] *)
Definition acc_event : gmap string val :=
  <["type" := VStr "ACC"]> (<["bpm" := VInt 80]> ∅).

(** The UTF-8 bytes of the first HR event above, as the producer
    publishes it. *)
Definition hr_text : list byte :=
  [x7b; x22; x74; x79; x70; x65; x22; x3a; x22; x48; x52; x22; x2c; x22;
   x74; x69; x6d; x65; x73; x74; x61; x6d; x70; x22; x3a; x31; x37; x36;
   x36; x34; x31; x37; x32; x36; x30; x37; x34; x37; x39; x33; x38; x30;
   x30; x30; x2c; x22; x62; x70; x6d; x22; x3a; x31; x31; x39; x2c; x22;
   x72; x72; x5f; x69; x6e; x74; x65; x72; x76; x61; x6c; x22; x3a; x5b;
   x37; x30; x30; x2c; x36; x35; x30; x5d; x2c; x22; x65; x6e; x65; x72;
   x67; x79; x22; x3a; x6e; x75; x6c; x6c; x7d].

Definition hr_lib : Py.lib :=
  lib_reading hr_text (Ok (VDict hr_event)).

Definition hr_message : SubscribeHr.Message :=
  {| SubscribeHr.data := hr_text |}.

(** The bytes of the HR event with [rr_interval] 521. *)
Definition hr_521_text : list byte :=
  [x7b; x22; x74; x79; x70; x65; x22; x3a; x22; x48; x52; x22; x2c; x22;
   x74; x69; x6d; x65; x73; x74; x61; x6d; x70; x22; x3a; x31; x37; x36;
   x36; x34; x31; x37; x32; x36; x30; x37; x34; x37; x39; x33; x38; x30;
   x30; x30; x2c; x22; x62; x70; x6d; x22; x3a; x31; x31; x39; x2c; x22;
   x72; x72; x5f; x69; x6e; x74; x65; x72; x76; x61; x6c; x22; x3a; x35;
   x32; x31; x2c; x22; x65; x6e; x65; x72; x67; x79; x22; x3a; x6e; x75;
   x6c; x6c; x7d].

Definition hr_521_lib : Py.lib :=
  lib_reading hr_521_text (Ok (VDict hr_event_521)).

Definition hr_521_message : SubscribeHr.Message :=
  {| SubscribeHr.data := hr_521_text |}.

(** The bytes of the HR event without timestamp. *)
Definition no_timestamp_text : list byte :=
  [x7b; x22; x74; x79; x70; x65; x22; x3a; x22; x48; x52; x22; x2c; x22;
   x62; x70; x6d; x22; x3a; x38; x30; x7d].

Definition no_timestamp_lib : Py.lib :=
  lib_reading no_timestamp_text (Ok (VDict hr_without_timestamp)).

Definition no_timestamp_message : SubscribeHr.Message :=
  {| SubscribeHr.data := no_timestamp_text |}.

(** The bytes of the ACC event. *)
Definition acc_text : list byte :=
  [x7b; x22; x74; x79; x70; x65; x22; x3a; x22; x41; x43; x43; x22; x2c;
   x22; x62; x70; x6d; x22; x3a; x38; x30; x7d].

Definition acc_lib : Py.lib :=
  lib_reading acc_text (Ok (VDict acc_event)).

Definition acc_message : SubscribeHr.Message :=
  {| SubscribeHr.data := acc_text |}.

(** The bytes of the JSON text [42]. *)
Definition number_text : list byte :=
  [x34; x32].

Definition number_lib : Py.lib :=
  lib_reading number_text (Ok (VInt 42)).

Definition number_message : SubscribeHr.Message :=
  {| SubscribeHr.data := number_text |}.

(** The bytes of a truncated object, which [json.loads] rejects. *)
Definition broken_text : list byte :=
  [x7b; x22; x74; x79; x70; x65; x22; x3a].

Definition broken_lib : Py.lib :=
  lib_reading broken_text (Raise JSONDecodeError).

Definition broken_message : SubscribeHr.Message :=
  {| SubscribeHr.data := broken_text |}.

(** The bytes of the HR event with an empty [rr_interval]. *)
Definition empty_rr_text : list byte :=
  [x7b; x22; x74; x79; x70; x65; x22; x3a; x22; x48; x52; x22; x2c; x22;
   x74; x69; x6d; x65; x73; x74; x61; x6d; x70; x22; x3a; x31; x37; x36;
   x36; x34; x31; x37; x32; x36; x30; x37; x34; x37; x39; x33; x38; x30;
   x30; x30; x2c; x22; x62; x70; x6d; x22; x3a; x31; x31; x39; x2c; x22;
   x72; x72; x5f; x69; x6e; x74; x65; x72; x76; x61; x6c; x22; x3a; x5b;
   x5d; x2c; x22; x65; x6e; x65; x72; x67; x79; x22; x3a; x6e; x75; x6c;
   x6c; x7d].

Definition empty_rr_lib : Py.lib :=
  lib_reading empty_rr_text (Ok (VDict hr_event_empty_rr)).

Definition empty_rr_message : SubscribeHr.Message :=
  {| SubscribeHr.data := empty_rr_text |}.

(** The bytes of the HR event without [rr_interval]. *)
Definition no_rr_text : list byte :=
  [x7b; x22; x74; x79; x70; x65; x22; x3a; x22; x48; x52; x22; x2c; x22;
   x74; x69; x6d; x65; x73; x74; x61; x6d; x70; x22; x3a; x31; x37; x36;
   x36; x34; x31; x37; x32; x36; x30; x37; x34; x37; x39; x33; x38; x30;
   x30; x30; x2c; x22; x62; x70; x6d; x22; x3a; x31; x31; x39; x2c; x22;
   x65; x6e; x65; x72; x67; x79; x22; x3a; x6e; x75; x6c; x6c; x7d].

Definition no_rr_lib : Py.lib :=
  lib_reading no_rr_text (Ok (VDict hr_event_no_rr)).

Definition no_rr_message : SubscribeHr.Message :=
  {| SubscribeHr.data := no_rr_text |}.

(** [{"type": "\ud800"}]: the type is the one-character [str] made
    of the lone surrogate U+D800, kept as the bytes [ED A0 80]. *)
Definition surrogate_event : gmap string val :=
  <["type" := VStr (string_of_list_byte [xed; xa0; x80])]> ∅.

Definition surrogate_text : list byte :=
  [x7b; x22; x74; x79; x70; x65; x22; x3a; x20; x22; x5c; x75; x64; x38;
   x30; x30; x22; x7d].

Definition surrogate_lib : Py.lib :=
  lib_reading surrogate_text (Ok (VDict surrogate_event)).

Definition surrogate_message : SubscribeHr.Message :=
  {| SubscribeHr.data := surrogate_text |}.

(** One byte that no UTF-8 text contains. *)
Definition not_utf8_text : list byte :=
  [xff].

Definition not_utf8_message : SubscribeHr.Message :=
  {| SubscribeHr.data := not_utf8_text |}.

(** The library as the views use it: only [int] matters there. *)
Definition query_lib : Py.lib := lib_reading [] (Raise JSONDecodeError).

(** 2025-11-04 00:00:00 UTC, in microseconds. *)
Definition now0 : Py.datetime := 1762214400000000.

Definition storage_up : Env :=
  {| Models.now := now0; Models.insert_fault := None |}.

Definition storage_down : Env :=
  {| Models.now := now0; Models.insert_fault := Some Models.Unavailable |}.

Definition empty_db : Db := {| Models.rows := []; Models.next_id := 1 |}.

Definition fresh : SubscribeHr.World :=
  {| SubscribeHr.db := empty_db; SubscribeHr.trace := [] |}.

Definition reading (id : Z) (minutes_ago : Z) (bpm : Z) : HeartRateReading :=
  {| Models.id := id;
     Models.sensor_timestamp := 1766417260747938000;
     Models.bpm := bpm;
     Models.rr_interval := 521;
     Models.energy := None;
     Models.created_at := now0 - minutes_ago * Py.us_per_minute |}.

(** Three readings, stored 10, 1 and 2 minutes before [now0]. *)
Definition three_readings : Db :=
  {| Models.rows := [reading 1 10 80; reading 2 1 119; reading 3 2 90];
     Models.next_id := 4 |}.

Definition request_minutes (s : string) : Views.Request :=
  {| Views.query_params := <["minutes" := s]> ∅ |}.

(** A generator whose state is a counter: [randint] walks through the
    range, [uniform] returns the lower bound. *)
Definition counter : Producer.random_module Z :=
  {| Producer.random_randint := fun a b g => (a + g mod (b - a + 1), g + 1);
     Producer.random_uniform := fun a b g => (a, g + 1) |}.

Definition two_turns : list Producer.Turn :=
  [{| Producer.wall_clock_ns := 1766417260747938000;
      Producer.quit_set := false |};
   {| Producer.wall_clock_ns := 1766417260847938000;
      Producer.quit_set := true |}].

End Samples.

(* ================================================================== *)
(** * More sample inputs *)
(* ================================================================== *)

Module MoreSamples.

(** An HR event whose timestamp is null. *)
Definition null_timestamp_event : gmap string val :=
  <["type" := VStr "HR"]> (<["timestamp" := VNone]> (<["bpm" := VInt 80]> ∅)).

Definition null_timestamp_text : list byte :=
  [x7b; x22; x74; x79; x70; x65; x22; x3a; x22; x48; x52; x22; x2c; x22;
   x74; x69; x6d; x65; x73; x74; x61; x6d; x70; x22; x3a; x6e; x75; x6c;
   x6c; x2c; x22; x62; x70; x6d; x22; x3a; x38; x30; x7d].

Definition null_timestamp_lib : Py.lib :=
  Samples.lib_reading null_timestamp_text (Ok (VDict null_timestamp_event)).

Definition null_timestamp_message : SubscribeHr.Message :=
  {| SubscribeHr.data := null_timestamp_text |}.

(** An HR event with timestamp 0, bpm 0 and [rr_interval] false. *)
Definition zero_bpm_event : gmap string val :=
  <["type" := VStr "HR"]> (<["timestamp" := VInt 0]> (
  <["bpm" := VInt 0]> (<["rr_interval" := VBool false]> ∅))).

Definition zero_bpm_text : list byte :=
  [x7b; x22; x74; x79; x70; x65; x22; x3a; x22; x48; x52; x22; x2c; x22;
   x74; x69; x6d; x65; x73; x74; x61; x6d; x70; x22; x3a; x30; x2c; x22;
   x62; x70; x6d; x22; x3a; x30; x2c; x22; x72; x72; x5f; x69; x6e; x74;
   x65; x72; x76; x61; x6c; x22; x3a; x66; x61; x6c; x73; x65; x7d].

Definition zero_bpm_lib : Py.lib :=
  Samples.lib_reading zero_bpm_text (Ok (VDict zero_bpm_event)).

Definition zero_bpm_message : SubscribeHr.Message :=
  {| SubscribeHr.data := zero_bpm_text |}.

(** An HR event whose [rr_interval] is a list of lists. *)
Definition nested_rr_event : gmap string val :=
  <["type" := VStr "HR"]> (<["timestamp" := VInt 1]> (
  <["bpm" := VInt 80]> (<["rr_interval" := VList [VList [VInt 700]]]> ∅))).

Definition nested_rr_text : list byte :=
  [x7b; x22; x74; x79; x70; x65; x22; x3a; x22; x48; x52; x22; x2c; x22;
   x74; x69; x6d; x65; x73; x74; x61; x6d; x70; x22; x3a; x31; x2c; x22;
   x62; x70; x6d; x22; x3a; x38; x30; x2c; x22; x72; x72; x5f; x69; x6e;
   x74; x65; x72; x76; x61; x6c; x22; x3a; x5b; x5b; x37; x30; x30; x5d;
   x5d; x7d].

Definition nested_rr_lib : Py.lib :=
  Samples.lib_reading nested_rr_text (Ok (VDict nested_rr_event)).

Definition nested_rr_message : SubscribeHr.Message :=
  {| SubscribeHr.data := nested_rr_text |}.

(** A generated frame, and the text that [json.dumps] writes for it:
    [{"type": "HR", "timestamp": 1766417260747938000, "bpm": 119,
      "rr_interval": 521, "energy": null}] *)
Definition frame0 : Producer.HrData :=
  {| Producer.hr_type := "HR";
     Producer.tstamp := 1766417260747938000;
     Producer.bpm := 119;
     Producer.rr_interval := 521;
     Producer.energy := None |}.

Definition frame0_text : list byte :=
  [x7b; x22; x74; x79; x70; x65; x22; x3a; x20; x22; x48; x52; x22; x2c;
   x20; x22; x74; x69; x6d; x65; x73; x74; x61; x6d; x70; x22; x3a; x20;
   x31; x37; x36; x36; x34; x31; x37; x32; x36; x30; x37; x34; x37; x39;
   x33; x38; x30; x30; x30; x2c; x20; x22; x62; x70; x6d; x22; x3a; x20;
   x31; x31; x39; x2c; x20; x22; x72; x72; x5f; x69; x6e; x74; x65; x72;
   x76; x61; x6c; x22; x3a; x20; x35; x32; x31; x2c; x20; x22; x65; x6e;
   x65; x72; x67; x79; x22; x3a; x20; x6e; x75; x6c; x6c; x7d].

(** A [json.dumps] that knows that frame, and refuses the rest. *)
Definition is_frame0 (m : Callback.MessageData) : bool :=
  match Callback.md_type m, Callback.md_timestamp m, Callback.md_bpm m,
        Callback.md_rr_interval m, Callback.md_energy m with
  | Callback.OStr s, Callback.OInt ts, Callback.OInt b, Callback.OInt rr,
    Callback.ONone =>
      String.eqb s "HR" && (ts =? 1766417260747938000) && (b =? 119)
      && (rr =? 521)
  | _, _, _, _, _ => false
  end.

Definition dumps_lib : Callback.lib :=
  {| Callback.json_dumps := fun m =>
       if is_frame0 m then Callback.Ret (string_of_list_byte frame0_text)
       else Callback.Exc Callback.TypeError |}.

(** The [json.loads] that reads that text back. *)
Definition loads_lib : Py.lib :=
  Samples.lib_reading frame0_text
    (Ok (VDict (Callback.json_of_message (Notions.message_of frame0)))).

(** Pub/Sub set up for a topic. *)
Definition topic0 : string := "projects/p/topics/hr".

Definition with_publisher : Callback.Globals :=
  {| Callback.pubsub_publisher := Some Callback.PublisherClient;
     Callback.pubsub_topic_path := Some topic0 |}.

(** A run of the test mode that hands that frame to the callback. *)
Definition one_frame : list Producer.Event :=
  [Producer.Callback frame0; Producer.Sleep Producer.lit_0_05].

(** A host with the Pub/Sub library and credentials in place, and a
    Polar strap in range. *)
Definition host0 : Startup.Host :=
  {| Startup.PUBSUB_AVAILABLE := true;
     Startup.os_path_exists := fun _ => false;
     Startup.publisher_fault := None;
     Startup.topic_path := fun project topic =>
       ("projects/" ++ project ++ "/topics/" ++ topic)%string;
     Startup.str_lower := fun s => s;
     Startup.discovered :=
       [{| Startup.address := "A0:9E:1A:00:00:01";
           Startup.name := Some "polar h10" |}] |}.

Definition test_with_pubsub : Startup.Args :=
  {| Startup.test := true;
     Startup.pubsub_project_id := Some "p";
     Startup.pubsub_topic_name := Some "hr";
     Startup.pubsub_credentials_path := None |}.

(** A Pub/Sub service on which nothing fails; a shutdown signal ends
    the wait. *)
Definition service0 : Command.Service :=
  {| Command.PUBSUB_AVAILABLE := true;
     Command.subscriber_fault := None;
     Command.subscription_path := fun project subscription =>
       ("projects/" ++ project ++ "/subscriptions/" ++ subscription)%string;
     Command.subscribe_fault := None;
     Command.signal_arrives := true;
     Command.wait_fault := None;
     Command.cleanup_fault := None |}.

(** The subscription is gone: the stream fails while the command
    waits, no signal arrives, the cleanup returns. *)
Definition service_lost : Command.Service :=
  {| Command.PUBSUB_AVAILABLE := true;
     Command.subscriber_fault := None;
     Command.subscription_path := Command.subscription_path service0;
     Command.subscribe_fault := None;
     Command.signal_arrives := false;
     Command.wait_fault := Some Command.NotFound;
     Command.cleanup_fault := None |}.

(** The client cannot be created for lack of permission. *)
Definition service_denied : Command.Service :=
  {| Command.PUBSUB_AVAILABLE := true;
     Command.subscriber_fault := Some Command.PermissionDenied;
     Command.subscription_path := Command.subscription_path service0;
     Command.subscribe_fault := None;
     Command.signal_arrives := false;
     Command.wait_fault := None;
     Command.cleanup_fault := None |}.

Definition settings0 : Command.Settings :=
  {| Command.PUBSUB_PROJECT_ID := Some "p";
     Command.PUBSUB_SUBSCRIPTION_NAME := Some "";
     Command.PUBSUB_CREDENTIALS_PATH := None |}.

Definition options0 : Command.Options :=
  {| Command.project_id := None;
     Command.subscription_name := Some "hr-sub";
     Command.credentials_path := None;
     Command.timeout := Some 30 |}.

(** A world whose table holds the three sample readings. *)
Definition stocked : SubscribeHr.World :=
  {| SubscribeHr.db := Samples.three_readings; SubscribeHr.trace := [] |}.

(** The storage is up, a second later. *)
Definition storage_up_later : Env :=
  {| Models.now := Samples.now0 + 1000000; Models.insert_fault := None |}.

End MoreSamples.

(* ================================================================== *)
(** * Properties of the consumer *)
(* ================================================================== *)

(** Sequences in [result], spelled out as matches. *)
Ltac unfold_result :=
  unfold mbind, mret, Py.result_bind, Py.result_ret in *.

Section ConsumerFacts.

Import SubscribeHr.

Variable L : Py.lib.
Variable env : Env.

Lemma decode_utf8_raises bs e :
  Py.decode_utf8 bs = Raise e -> e = UnicodeDecodeError.
Proof.
  unfold Py.decode_utf8. destruct (Py.utf8_valid bs); congruence.
Qed.

Ltac run_callback :=
  unfold run, message_callback, try_except, mbind, M_bind, stdout_write,
    lift, ack, nack, emit, after; simpl.

(** The payload is not UTF-8: the generic handler. *)
Lemma run_not_utf8 message w e :
  Py.decode_utf8 (data message) = Raise e ->
  run L env message w
  = after w (db w) [Stdout (ErrorProcessing UnicodeDecodeError); Nack].
Proof.
  intros H. pose proof (decode_utf8_raises _ _ H) as ->.
  run_callback. rewrite H. simpl. by rewrite <- app_assoc.
Qed.

(** [json.loads] raises: the handler is chosen by the class. *)
Lemma run_loads_raises message w text e :
  Py.decode_utf8 (data message) = Ok text ->
  Py.json_loads L text = Raise e ->
  run L env message w
  = after w (db w)
      (if Py.is_JSONDecodeError e
       then [Stdout (FailedToDecodeJSON e (data message)); Ack]
       else [Stdout (ErrorProcessing e); Nack]).
Proof.
  intros H1 H2. run_callback. rewrite H1. simpl. rewrite H2. simpl.
  destruct (Py.is_JSONDecodeError e); simpl; by rewrite <- app_assoc.
Qed.

(** The payload is JSON but no object: [data.get] raises. *)
Lemma run_not_dict message w text v :
  Py.decode_utf8 (data message) = Ok text ->
  Py.json_loads L text = Ok v ->
  (forall d, v <> VDict d) ->
  run L env message w
  = after w (db w) [Stdout (ErrorProcessing AttributeError); Nack].
Proof.
  intros H1 H2 Hv. run_callback. rewrite H1. simpl. rewrite H2. simpl.
  destruct v; simpl; try (by rewrite <- app_assoc).
  by destruct (Hv d).
Qed.

(** An object of another type: the line is written and the message
    acknowledged, unless the line cannot be written. *)
Lemma run_not_hr message w text d :
  Py.decode_utf8 (data message) = Ok text ->
  Py.json_loads L text = Ok (VDict d) ->
  Py.eq_str (Py.dict_get d "type") "HR" = false ->
  run L env message w
  = after w (db w)
      (if writable (IgnoringNonHR (Py.dict_get d "type"))
       then [Stdout (IgnoringNonHR (Py.dict_get d "type")); Ack]
       else [Stdout (ErrorProcessing UnicodeEncodeError); Nack]).
Proof.
  intros H1 H2 Ht. run_callback. rewrite H1. simpl. rewrite H2. simpl.
  rewrite Ht. simpl.
  destruct (match Py.dict_get d "type" with
            | VStr s => Py.encodable s
            | _ => true
            end); simpl; by rewrite <- app_assoc.
Qed.

(** An HR object without [timestamp] or without [bpm]. *)
Lemma run_invalid message w text d :
  Py.decode_utf8 (data message) = Ok text ->
  Py.json_loads L text = Ok (VDict d) ->
  Py.eq_str (Py.dict_get d "type") "HR" = true ->
  Py.is_none (Py.dict_get d "timestamp")
    || Py.is_none (Py.dict_get d "bpm") = true ->
  run L env message w
  = after w (db w) [Stdout (InvalidMessage (VDict d)); Ack].
Proof.
  intros H1 H2 Ht Hm. run_callback. rewrite H1. simpl. rewrite H2. simpl.
  rewrite Ht. simpl. rewrite Hm. simpl. by rewrite <- app_assoc.
Qed.

(** The write never raises [json.JSONDecodeError]. *)
Lemma int_not_json v e :
  Py.int L v = Raise e -> Py.is_JSONDecodeError e = false.
Proof.
  destruct v as [| b | z | f | s | l | d]; simpl;
    try discriminate; try (by intros [= <-]).
  - destruct f; simpl; try discriminate; by intros [= <-].
  - destruct (Py.int_of_str L s); simpl; try discriminate; by intros [= <-].
Qed.

Lemma float_not_json v e :
  Py.float_ L v = Raise e -> Py.is_JSONDecodeError e = false.
Proof.
  destruct v as [| b | z | f | s | l | d]; simpl;
    try discriminate; try (by intros [= <-]).
  - unfold Py.float_of_int.
    destruct (binary_normalize Py.prec Py.emax z 0 false);
      try discriminate; by intros [= <-].
  - destruct (Py.float_of_str L s); simpl; try discriminate; by intros [= <-].
Qed.

Lemma IntegerField_prep_not_json v e :
  Models.IntegerField_prep L v = Raise e -> Py.is_JSONDecodeError e = false.
Proof.
  unfold Models.IntegerField_prep. unfold_result.
  destruct v; try congruence;
    match goal with |- context [Py.int L ?v] =>
      destruct (Py.int L v) eqn:E; [congruence|] end;
    intros [= <-]; eauto using int_not_json.
Qed.

Lemma FloatField_prep_not_json v e :
  Models.FloatField_prep L v = Raise e -> Py.is_JSONDecodeError e = false.
Proof.
  unfold Models.FloatField_prep. unfold_result.
  destruct v; try congruence;
    match goal with |- context [Py.float_ L ?v] =>
      destruct (Py.float_ L v) eqn:E; [congruence|] end;
    intros [= <-]; eauto using float_not_json.
Qed.

Lemma not_null_not_json {A} (o : option A) e :
  Models.not_null o = Raise e -> Py.is_JSONDecodeError e = false.
Proof. destruct o; simpl; try discriminate; by intros [= <-]. Qed.

Lemma prepare_row_not_json db0 ts b rr en e :
  Models.prepare_row L env db0 ts b rr en = Raise e ->
  Py.is_JSONDecodeError e = false.
Proof.
  unfold Models.prepare_row. unfold_result.
  destruct (Models.IntegerField_prep L ts) eqn:E1;
    [| intros [= <-]; eauto using IntegerField_prep_not_json].
  destruct (Models.IntegerField_prep L b) eqn:E2;
    [| intros [= <-]; eauto using IntegerField_prep_not_json].
  destruct (Models.IntegerField_prep L rr) eqn:E3;
    [| intros [= <-]; eauto using IntegerField_prep_not_json].
  destruct (Models.FloatField_prep L en) eqn:E4;
    [| intros [= <-]; eauto using FloatField_prep_not_json].
  destruct (Models.not_null a) eqn:E5;
    [| intros [= <-]; eauto using not_null_not_json].
  destruct (Models.not_null a0) eqn:E6;
    [| intros [= <-]; eauto using not_null_not_json].
  destruct (Models.not_null a1) eqn:E7;
    [| intros [= <-]; eauto using not_null_not_json].
  congruence.
Qed.

Lemma objects_create_not_json db0 ts b rr en e :
  Models.objects_create L env db0 ts b rr en = Raise e ->
  Py.is_JSONDecodeError e = false.
Proof.
  unfold Models.objects_create. unfold_result.
  destruct (Models.prepare_row L env db0 ts b rr en) eqn:E;
    [| intros [= <-]; eauto using prepare_row_not_json].
  destruct (Models.insert_fault env) as [[]|]; simpl;
    try discriminate; by intros [= <-].
Qed.

(** A complete HR object: the outcome of the write decides. *)
Lemma run_valid message w text d :
  Py.decode_utf8 (data message) = Ok text ->
  Py.json_loads L text = Ok (VDict d) ->
  Py.eq_str (Py.dict_get d "type") "HR" = true ->
  Py.is_none (Py.dict_get d "timestamp")
    || Py.is_none (Py.dict_get d "bpm") = false ->
  run L env message w
  = match Models.objects_create L env (db w)
            (Py.dict_get d "timestamp") (Py.dict_get d "bpm")
            (rr_for_create (Py.dict_get d "rr_interval"))
            (Py.dict_get d "energy") with
    | Ok (r, db') =>
        after w db'
          [Insert r;
           Stdout (Saved (Py.dict_get d "bpm")
                         (rr_for_create (Py.dict_get d "rr_interval"))
                         (Models.id r));
           Ack]
    | Raise e => after w (db w) [Stdout (ErrorProcessing e); Nack]
    end.
Proof.
  intros H1 H2 Ht Hm. run_callback. rewrite H1. simpl. rewrite H2. simpl.
  rewrite Ht. simpl. rewrite Hm. simpl.
  unfold objects_create, rr_for_create.
  destruct (Models.objects_create _ _ _ _ _ _ _) as [[r db']|e] eqn:E; simpl.
  - by rewrite <- !app_assoc.
  - rewrite (objects_create_not_json _ _ _ _ _ _ E). simpl.
    by rewrite <- !app_assoc.
Qed.

End ConsumerFacts.

(** ** The comparisons of the callback, as equations on values *)

Lemma eq_str_true v s : Py.eq_str v s = true <-> v = VStr s.
Proof.
  destruct v; simpl; try (split; [discriminate | congruence]).
  rewrite String.eqb_eq. split; congruence.
Qed.

Lemma eq_str_false v s : Py.eq_str v s = false <-> v <> VStr s.
Proof.
  rewrite <- eq_str_true. destruct (Py.eq_str v s); split; congruence.
Qed.

Lemma is_none_true v : Py.is_none v = true <-> v = VNone.
Proof. destruct v; simpl; split; congruence. Qed.

Lemma is_none_false v : Py.is_none v = false <-> v <> VNone.
Proof. destruct v; simpl; split; congruence. Qed.

Lemma dict_get_missing (d : gmap string val) key :
  d !! key = None -> Py.dict_get d key = VNone.
Proof. unfold Py.dict_get. by intros ->. Qed.

Lemma dict_get_present (d : gmap string val) key v :
  d !! key = Some v -> Py.dict_get d key = v.
Proof. unfold Py.dict_get. by intros ->. Qed.

(** ** What [rr_for_create] makes of each shape of [rr_interval] *)

Lemma rr_for_create_first x rest :
  SubscribeHr.rr_for_create (VList (x :: rest)) = Py.or_ x (VInt 0).
Proof. reflexivity. Qed.

Lemma rr_for_create_first_int z rest :
  SubscribeHr.rr_for_create (VList (VInt z :: rest)) = VInt z.
Proof.
  rewrite rr_for_create_first. unfold Py.or_. simpl.
  destruct (Z.eqb_spec z 0); simpl; congruence.
Qed.

Lemma rr_for_create_empty : SubscribeHr.rr_for_create (VList []) = VInt 0.
Proof. reflexivity. Qed.

Lemma rr_for_create_none : SubscribeHr.rr_for_create VNone = VInt 0.
Proof. reflexivity. Qed.

Lemma rr_for_create_int z : SubscribeHr.rr_for_create (VInt z) = VInt z.
Proof.
  unfold SubscribeHr.rr_for_create, Py.or_. simpl.
  destruct (Z.eqb_spec z 0); simpl; congruence.
Qed.

(** ** Shapes of the traces the callback appends *)

Lemma ack_after_insert_saved r l :
  SubscribeHr.ack_only_after_insert
    [SubscribeHr.Insert r; SubscribeHr.Stdout l; SubscribeHr.Ack].
Proof.
  intros pre post E. exists r.
  destruct pre as [|a [|b [|c pre]]]; simplify_eq/=; auto.
Qed.

Lemma ack_after_insert_nacked l :
  SubscribeHr.ack_only_after_insert
    [SubscribeHr.Stdout l; SubscribeHr.Nack].
Proof.
  intros pre post E.
  destruct pre as [|a [|b pre]]; simplify_eq/=. by destruct pre.
Qed.

(** C1. A message that decodes and validates (a JSON object of type HR
    with a timestamp and a bpm) is acknowledged exactly once, and after
    the insert, when the write completes; when the write fails it is not
    acknowledged, it is negatively acknowledged once and the table is as
    before. Among these messages a negative acknowledgment therefore
    occurs exactly when the write fails, and an acknowledgment never
    comes before the write. *)
Theorem C1_ack_once_after_write_nack_on_write_failure
    (L : Py.lib) (env : Env) (message : SubscribeHr.Message)
    (w : SubscribeHr.World) (text : string) (d : gmap string val) :
  Py.decode_utf8 (SubscribeHr.data message) = Ok text ->
  Py.json_loads L text = Ok (VDict d) ->
  Py.dict_get d "type" = VStr "HR" ->
  Py.dict_get d "timestamp" <> VNone ->
  Py.dict_get d "bpm" <> VNone ->
  exists new,
    SubscribeHr.trace (SubscribeHr.run L env message w)
    = SubscribeHr.trace w ++ new
    /\ SubscribeHr.ack_only_after_insert new
    /\ match Models.objects_create L env (SubscribeHr.db w)
               (Py.dict_get d "timestamp") (Py.dict_get d "bpm")
               (SubscribeHr.rr_for_create (Py.dict_get d "rr_interval"))
               (Py.dict_get d "energy") with
       | Ok (r, db') =>
           SubscribeHr.db (SubscribeHr.run L env message w) = db'
           /\ In (SubscribeHr.Insert r) new
           /\ SubscribeHr.inserts new = 1%nat
           /\ SubscribeHr.acks new = 1%nat
           /\ SubscribeHr.nacks new = 0%nat
       | Raise e =>
           SubscribeHr.db (SubscribeHr.run L env message w) = SubscribeHr.db w
           /\ SubscribeHr.inserts new = 0%nat
           /\ SubscribeHr.acks new = 0%nat
           /\ SubscribeHr.nacks new = 1%nat
       end.
Proof.
  intros H1 H2 Ht Hts Hb.
  rewrite (run_valid L env message w text d H1 H2).
  - destruct (Models.objects_create _ _ _ _ _ _ _) as [[r db']|e].
    + eexists. split; [reflexivity|]. split; [apply ack_after_insert_saved|].
      simpl. auto.
    + eexists. split; [reflexivity|]. split; [apply ack_after_insert_nacked|].
      simpl. auto.
  - by apply eq_str_true.
  - apply orb_false_iff. split; by apply is_none_false.
Qed.

Lemma C1_witness :
  exists new,
    SubscribeHr.trace
      (SubscribeHr.run Samples.hr_lib
         Samples.storage_up Samples.hr_message Samples.fresh)
    = SubscribeHr.trace Samples.fresh ++ new
    /\ SubscribeHr.ack_only_after_insert new
    /\ match Models.objects_create
               Samples.hr_lib
               Samples.storage_up (SubscribeHr.db Samples.fresh)
               (Py.dict_get Samples.hr_event "timestamp")
               (Py.dict_get Samples.hr_event "bpm")
               (SubscribeHr.rr_for_create
                  (Py.dict_get Samples.hr_event "rr_interval"))
               (Py.dict_get Samples.hr_event "energy") with
       | Ok (r, db') =>
           SubscribeHr.db
             (SubscribeHr.run
                Samples.hr_lib
                Samples.storage_up Samples.hr_message Samples.fresh) = db'
           /\ In (SubscribeHr.Insert r) new
           /\ SubscribeHr.inserts new = 1%nat
           /\ SubscribeHr.acks new = 1%nat
           /\ SubscribeHr.nacks new = 0%nat
       | Raise e =>
           SubscribeHr.db
             (SubscribeHr.run
                Samples.hr_lib
                Samples.storage_up Samples.hr_message Samples.fresh)
           = SubscribeHr.db Samples.fresh
           /\ SubscribeHr.inserts new = 0%nat
           /\ SubscribeHr.acks new = 0%nat
           /\ SubscribeHr.nacks new = 1%nat
       end.
Proof.
  apply (C1_ack_once_after_write_nack_on_write_failure
           Samples.hr_lib
           Samples.storage_up Samples.hr_message Samples.fresh
           (string_of_list_byte Samples.hr_text) Samples.hr_event).
  - reflexivity.
  - reflexivity.
  - reflexivity.
  - vm_compute. discriminate.
  - vm_compute. discriminate.
Defined.

(** C2. For an HR message whose timestamp and bpm the integer columns
    accept, whose energy the float column accepts, and with a storage
    that takes the write, the reading written carries as [rr_interval]
    one scalar: the first element when the field arrives as a non-empty
    sequence of integers, 0 when it arrives as the empty sequence, 0
    when it is missing or null, and the number itself when it arrives
    as one integer. In each case the message is stored and acknowledged:
    nothing is raised. *)
Theorem C2_rr_interval_normalized_to_scalar
    (L : Py.lib) (env : Env) (message : SubscribeHr.Message)
    (w : SubscribeHr.World) (text : string) (d : gmap string val)
    (ts b scalar : Z) (en : option Py.float) :
  Py.decode_utf8 (SubscribeHr.data message) = Ok text ->
  Py.json_loads L text = Ok (VDict d) ->
  Py.dict_get d "type" = VStr "HR" ->
  Models.IntegerField_prep L (Py.dict_get d "timestamp") = Ok (Some ts) ->
  Models.IntegerField_prep L (Py.dict_get d "bpm") = Ok (Some b) ->
  Models.FloatField_prep L (Py.dict_get d "energy") = Ok en ->
  Models.insert_fault env = None ->
  (exists rest, d !! "rr_interval" = Some (VList (VInt scalar :: rest)))
  \/ (d !! "rr_interval" = Some (VList []) /\ scalar = 0)
  \/ (d !! "rr_interval" = None /\ scalar = 0)
  \/ (d !! "rr_interval" = Some VNone /\ scalar = 0)
  \/ d !! "rr_interval" = Some (VInt scalar) ->
  let r :=
    {| Models.id := Models.next_id (SubscribeHr.db w);
       Models.sensor_timestamp := ts;
       Models.bpm := b;
       Models.rr_interval := scalar;
       Models.energy := en;
       Models.created_at := Models.now env |} in
  SubscribeHr.run L env message w
  = SubscribeHr.after w
      {| Models.rows := Models.rows (SubscribeHr.db w) ++ [r];
         Models.next_id := Models.next_id (SubscribeHr.db w) + 1 |}
      [SubscribeHr.Insert r;
       SubscribeHr.Stdout
         (SubscribeHr.Saved (Py.dict_get d "bpm") (VInt scalar) (Models.id r));
       SubscribeHr.Ack].
Proof.
  intros H1 H2 Ht Hts Hb Hen Hf Hrr r.
  assert (SubscribeHr.rr_for_create (Py.dict_get d "rr_interval")
          = VInt scalar) as Hn.
  { destruct Hrr as [[rest E]|[[E ->]|[[E ->]|[[E ->]|E]]]].
    - rewrite (dict_get_present _ _ _ E). apply rr_for_create_first_int.
    - by rewrite (dict_get_present _ _ _ E).
    - by rewrite (dict_get_missing _ _ E).
    - by rewrite (dict_get_present _ _ _ E).
    - rewrite (dict_get_present _ _ _ E). apply rr_for_create_int. }
  rewrite (run_valid L env message w text d H1 H2).
  - rewrite Hn.
    unfold Models.objects_create, Models.prepare_row.
    rewrite Hts, Hb, Hen, Hf. reflexivity.
  - by apply eq_str_true.
  - apply orb_false_iff. split; apply is_none_false; intros E;
      rewrite E in *; discriminate.
Qed.

Lemma C2_witness :
  let r :=
    {| Models.id := 1;
       Models.sensor_timestamp := 1766417260747938000;
       Models.bpm := 119;
       Models.rr_interval := 700;
       Models.energy := None;
       Models.created_at := Samples.now0 |} in
  SubscribeHr.run Samples.hr_lib
    Samples.storage_up Samples.hr_message Samples.fresh
  = SubscribeHr.after Samples.fresh
      {| Models.rows := [r]; Models.next_id := 2 |}
      [SubscribeHr.Insert r;
       SubscribeHr.Stdout (SubscribeHr.Saved (VInt 119) (VInt 700) 1);
       SubscribeHr.Ack].
Proof.
  apply (C2_rr_interval_normalized_to_scalar
           Samples.hr_lib
           Samples.storage_up Samples.hr_message Samples.fresh
           (string_of_list_byte Samples.hr_text) Samples.hr_event
           1766417260747938000 119 700 None).
  - reflexivity.
  - reflexivity.
  - reflexivity.
  - reflexivity.
  - reflexivity.
  - reflexivity.
  - reflexivity.
  - left. exists [VInt 650]. reflexivity.
Defined.

(** [rr_interval: []] is stored as 0, and so is a missing
    [rr_interval]. *)
Example empty_rr_interval_stored_as_zero :
  map Models.rr_interval
    (Models.rows
       (SubscribeHr.db
          (SubscribeHr.run Samples.empty_rr_lib Samples.storage_up
             Samples.empty_rr_message Samples.fresh)))
  = [0].
Proof. reflexivity. Qed.

Example missing_rr_interval_stored_as_zero :
  map Models.rr_interval
    (Models.rows
       (SubscribeHr.db
          (SubscribeHr.run Samples.no_rr_lib Samples.storage_up
             Samples.no_rr_message Samples.fresh)))
  = [0].
Proof. reflexivity. Qed.

(** The same HR event when the storage is down: no acknowledgment, one
    negative acknowledgment, nothing stored. *)
Example write_failure_is_nacked :
  SubscribeHr.run Samples.hr_lib Samples.storage_down Samples.hr_message
    Samples.fresh
  = SubscribeHr.after Samples.fresh Samples.empty_db
      [SubscribeHr.Stdout (SubscribeHr.ErrorProcessing OperationalError);
       SubscribeHr.Nack].
Proof. reflexivity. Qed.

(** C3. A message that parses as a JSON object of type HR but has no
    timestamp, or no bpm, takes the branch of the invalid message (the
    specification's ValidationError, which is not its DecodeError): it
    is acknowledged once, never negatively, and nothing is inserted; the
    table is as before. *)
Theorem C3_missing_field_acked_not_persisted
    (L : Py.lib) (env : Env) (message : SubscribeHr.Message)
    (w : SubscribeHr.World) (text : string) (d : gmap string val) :
  Py.decode_utf8 (SubscribeHr.data message) = Ok text ->
  Py.json_loads L text = Ok (VDict d) ->
  Py.dict_get d "type" = VStr "HR" ->
  d !! "timestamp" = None \/ d !! "bpm" = None ->
  exists new,
    SubscribeHr.run L env message w = SubscribeHr.after w (SubscribeHr.db w) new
    /\ SubscribeHr.classes new = [SubscribeHr.ValidationError]
    /\ SubscribeHr.ValidationError <> SubscribeHr.DecodeError
    /\ SubscribeHr.acks new = 1%nat
    /\ SubscribeHr.nacks new = 0%nat
    /\ SubscribeHr.inserts new = 0%nat.
Proof.
  intros H1 H2 Ht Hm.
  exists [SubscribeHr.Stdout (SubscribeHr.InvalidMessage (VDict d));
          SubscribeHr.Ack].
  split; [| by repeat split].
  apply (run_invalid L env message w text d H1 H2).
  - by apply eq_str_true.
  - apply orb_true_iff.
    destruct Hm as [E|E]; [left|right];
      by rewrite (dict_get_missing _ _ E).
Qed.

Lemma C3_witness :
  exists new,
    SubscribeHr.run
      Samples.no_timestamp_lib
      Samples.storage_up Samples.no_timestamp_message Samples.fresh
    = SubscribeHr.after Samples.fresh (SubscribeHr.db Samples.fresh) new
    /\ SubscribeHr.classes new = [SubscribeHr.ValidationError]
    /\ SubscribeHr.ValidationError <> SubscribeHr.DecodeError
    /\ SubscribeHr.acks new = 1%nat
    /\ SubscribeHr.nacks new = 0%nat
    /\ SubscribeHr.inserts new = 0%nat.
Proof.
  apply (C3_missing_field_acked_not_persisted
           Samples.no_timestamp_lib
           Samples.storage_up Samples.no_timestamp_message Samples.fresh
           (string_of_list_byte Samples.no_timestamp_text)
           Samples.hr_without_timestamp).
  - reflexivity.
  - reflexivity.
  - reflexivity.
  - left. reflexivity.
Defined.

(** C4, at the payload [{"type": "\ud800"}]. The payload is JSON, an
    object whose type is not HR, so the callback takes the branch of
    the ignored message; but the line it writes there holds the type
    as it is, the stream cannot encode it, and [self.stdout.write]
    raises [UnicodeEncodeError] before [message.ack()] is reached. The
    generic handler then reports the error and negatively acknowledges
    the message: it is not acknowledged, whatever the storage and the
    world are. *)
Theorem C4_unwritable_type_is_nacked (env : Env) (w : SubscribeHr.World) :
  SubscribeHr.run Samples.surrogate_lib env Samples.surrogate_message w
  = SubscribeHr.after w (SubscribeHr.db w)
      [SubscribeHr.Stdout (SubscribeHr.ErrorProcessing UnicodeEncodeError);
       SubscribeHr.Nack].
Proof.
  by rewrite (run_not_hr Samples.surrogate_lib env Samples.surrogate_message
                w (string_of_list_byte Samples.surrogate_text)
                Samples.surrogate_event).
Qed.

(** A message that parses as a JSON object whose type is not the
    string HR (an absent type included) and can be written to the
    stream, which is the case of every type that is not a [str] and of
    every [str] that UTF-8 encodes, takes the branch of the ignored
    message, which is neither the stored one nor one of the two error
    branches: it is acknowledged once, never negatively, and nothing is
    inserted; the table is as before. *)
Theorem writable_other_type_ignored_and_acked
    (L : Py.lib) (env : Env) (message : SubscribeHr.Message)
    (w : SubscribeHr.World) (text : string) (d : gmap string val) :
  Py.decode_utf8 (SubscribeHr.data message) = Ok text ->
  Py.json_loads L text = Ok (VDict d) ->
  Py.dict_get d "type" <> VStr "HR" ->
  (forall s, Py.dict_get d "type" = VStr s -> Py.encodable s = true) ->
  exists new,
    SubscribeHr.run L env message w = SubscribeHr.after w (SubscribeHr.db w) new
    /\ SubscribeHr.classes new = [SubscribeHr.Ignored]
    /\ SubscribeHr.Ignored <> SubscribeHr.Persisted
    /\ SubscribeHr.Ignored <> SubscribeHr.ValidationError
    /\ SubscribeHr.Ignored <> SubscribeHr.DecodeError
    /\ SubscribeHr.acks new = 1%nat
    /\ SubscribeHr.nacks new = 0%nat
    /\ SubscribeHr.inserts new = 0%nat.
Proof.
  intros H1 H2 Ht Hs.
  exists [SubscribeHr.Stdout (SubscribeHr.IgnoringNonHR (Py.dict_get d "type"));
          SubscribeHr.Ack].
  split; [| by repeat split].
  rewrite (run_not_hr L env message w text d H1 H2) by by apply eq_str_false.
  assert (SubscribeHr.writable
            (SubscribeHr.IgnoringNonHR (Py.dict_get d "type")) = true) as ->;
    [|done].
  simpl. destruct (Py.dict_get d "type"); try done. by apply Hs.
Qed.

Lemma writable_other_type_witness :
  exists new,
    SubscribeHr.run Samples.acc_lib
      Samples.storage_up Samples.acc_message Samples.fresh
    = SubscribeHr.after Samples.fresh (SubscribeHr.db Samples.fresh) new
    /\ SubscribeHr.classes new = [SubscribeHr.Ignored]
    /\ SubscribeHr.Ignored <> SubscribeHr.Persisted
    /\ SubscribeHr.Ignored <> SubscribeHr.ValidationError
    /\ SubscribeHr.Ignored <> SubscribeHr.DecodeError
    /\ SubscribeHr.acks new = 1%nat
    /\ SubscribeHr.nacks new = 0%nat
    /\ SubscribeHr.inserts new = 0%nat.
Proof.
  apply (writable_other_type_ignored_and_acked
           Samples.acc_lib
           Samples.storage_up Samples.acc_message Samples.fresh
           (string_of_list_byte Samples.acc_text) Samples.acc_event).
  - reflexivity.
  - reflexivity.
  - vm_compute. discriminate.
  - intros s [= <-]. reflexivity.
Defined.

(** The other side: whenever the type of a JSON object is a [str] that
    the stream cannot encode, the line of the ignored message cannot
    be written, and the message is reported as an error and negatively
    acknowledged; nothing is stored. *)
Theorem unwritable_type_is_nacked
    (L : Py.lib) (env : Env) (message : SubscribeHr.Message)
    (w : SubscribeHr.World) (text : string) (d : gmap string val)
    (s : string) :
  Py.decode_utf8 (SubscribeHr.data message) = Ok text ->
  Py.json_loads L text = Ok (VDict d) ->
  Py.dict_get d "type" = VStr s ->
  Py.encodable s = false ->
  SubscribeHr.run L env message w
  = SubscribeHr.after w (SubscribeHr.db w)
      [SubscribeHr.Stdout (SubscribeHr.ErrorProcessing UnicodeEncodeError);
       SubscribeHr.Nack].
Proof.
  intros H1 H2 Ht Hs.
  rewrite (run_not_hr L env message w text d H1 H2).
  - rewrite Ht. simpl. by rewrite Hs.
  - rewrite Ht. simpl. apply String.eqb_neq. intros ->. discriminate.
Qed.

Lemma unwritable_type_witness :
  SubscribeHr.run Samples.surrogate_lib Samples.storage_up
    Samples.surrogate_message Samples.fresh
  = SubscribeHr.after Samples.fresh (SubscribeHr.db Samples.fresh)
      [SubscribeHr.Stdout (SubscribeHr.ErrorProcessing UnicodeEncodeError);
       SubscribeHr.Nack].
Proof.
  apply (unwritable_type_is_nacked Samples.surrogate_lib Samples.storage_up
           Samples.surrogate_message Samples.fresh
           (string_of_list_byte Samples.surrogate_text)
           Samples.surrogate_event (string_of_list_byte [xed; xa0; x80]));
    reflexivity.
Defined.

(** C5, at the payload [b'\xff']. The bytes are not UTF-8, so they are
    not JSON; [decode] raises [UnicodeDecodeError], which the handler of
    [json.JSONDecodeError] does not catch: the message is negatively
    acknowledged, not acknowledged, whatever the library, the storage
    and the world are. *)
Theorem C5_not_utf8_payload_is_nacked
    (L : Py.lib) (env : Env) (w : SubscribeHr.World) :
  SubscribeHr.run L env Samples.not_utf8_message w
  = SubscribeHr.after w (SubscribeHr.db w)
      [SubscribeHr.Stdout (SubscribeHr.ErrorProcessing UnicodeDecodeError);
       SubscribeHr.Nack].
Proof. by apply (run_not_utf8 L env _ w UnicodeDecodeError). Qed.

(** The payload on which [json.loads] raises [json.JSONDecodeError] is
    acknowledged and dropped: the branch of the decode error, one
    acknowledgment, no insert. *)
Theorem json_decode_error_acked_and_dropped
    (L : Py.lib) (env : Env) (message : SubscribeHr.Message)
    (w : SubscribeHr.World) (text : string) :
  Py.decode_utf8 (SubscribeHr.data message) = Ok text ->
  Py.json_loads L text = Raise JSONDecodeError ->
  exists new,
    SubscribeHr.run L env message w = SubscribeHr.after w (SubscribeHr.db w) new
    /\ SubscribeHr.classes new = [SubscribeHr.DecodeError]
    /\ SubscribeHr.acks new = 1%nat
    /\ SubscribeHr.nacks new = 0%nat
    /\ SubscribeHr.inserts new = 0%nat.
Proof.
  intros H1 H2. eexists. split.
  - apply (run_loads_raises L env message w text _ H1 H2).
  - by repeat split.
Qed.

Lemma json_decode_error_witness :
  exists new,
    SubscribeHr.run Samples.broken_lib
      Samples.storage_up Samples.broken_message Samples.fresh
    = SubscribeHr.after Samples.fresh (SubscribeHr.db Samples.fresh) new
    /\ SubscribeHr.classes new = [SubscribeHr.DecodeError]
    /\ SubscribeHr.acks new = 1%nat
    /\ SubscribeHr.nacks new = 0%nat
    /\ SubscribeHr.inserts new = 0%nat.
Proof.
  apply (json_decode_error_acked_and_dropped
           Samples.broken_lib
           Samples.storage_up Samples.broken_message Samples.fresh
           (string_of_list_byte Samples.broken_text)).
  - reflexivity.
  - reflexivity.
Defined.

(** C10. A message whose payload is JSON but not an object (a number, a
    string, an array, a boolean, null) is negatively acknowledged and
    not acknowledged: [data.get] raises [AttributeError], which reaches
    the generic handler and not the one of the decode error. Nothing is
    inserted. *)
Theorem C10_non_object_json_is_nacked
    (L : Py.lib) (env : Env) (message : SubscribeHr.Message)
    (w : SubscribeHr.World) (text : string) (v : val) :
  Py.decode_utf8 (SubscribeHr.data message) = Ok text ->
  Py.json_loads L text = Ok v ->
  (forall d, v <> VDict d) ->
  exists new,
    SubscribeHr.run L env message w = SubscribeHr.after w (SubscribeHr.db w) new
    /\ new = [SubscribeHr.Stdout (SubscribeHr.ErrorProcessing AttributeError);
              SubscribeHr.Nack]
    /\ SubscribeHr.classes new = [SubscribeHr.ProcessingError]
    /\ SubscribeHr.acks new = 0%nat
    /\ SubscribeHr.nacks new = 1%nat
    /\ SubscribeHr.inserts new = 0%nat.
Proof.
  intros H1 H2 Hv. eexists. split.
  - apply (run_not_dict L env message w text v H1 H2 Hv).
  - by repeat split.
Qed.

Lemma C10_witness :
  exists new,
    SubscribeHr.run Samples.number_lib
      Samples.storage_up Samples.number_message Samples.fresh
    = SubscribeHr.after Samples.fresh (SubscribeHr.db Samples.fresh) new
    /\ new = [SubscribeHr.Stdout (SubscribeHr.ErrorProcessing AttributeError);
              SubscribeHr.Nack]
    /\ SubscribeHr.classes new = [SubscribeHr.ProcessingError]
    /\ SubscribeHr.acks new = 0%nat
    /\ SubscribeHr.nacks new = 1%nat
    /\ SubscribeHr.inserts new = 0%nat.
Proof.
  apply (C10_non_object_json_is_nacked
           Samples.number_lib
           Samples.storage_up Samples.number_message Samples.fresh
           (string_of_list_byte Samples.number_text) (VInt 42)).
  - reflexivity.
  - reflexivity.
  - discriminate.
Defined.

Ltac verdict :=
  repeat split; intros;
  first [done | (vm_compute; lia) | (exfalso; vm_compute in *; lia)].

(** ** One verdict per message

    Whatever the payload, the library, the storage and the world, the
    callback ends with exactly one verdict, an acknowledgment or a
    negative one, never both and never none; it inserts at most one
    row; and a message that is negatively acknowledged has left the
    table as it was. *)
Theorem every_message_gets_one_verdict
    (L : Py.lib) (env : Env) (message : SubscribeHr.Message)
    (w : SubscribeHr.World) :
  exists db' new,
    SubscribeHr.run L env message w = SubscribeHr.after w db' new
    /\ (SubscribeHr.acks new + SubscribeHr.nacks new = 1)%nat
    /\ (SubscribeHr.inserts new <= 1)%nat
    /\ (SubscribeHr.nacks new = 1%nat ->
        db' = SubscribeHr.db w /\ SubscribeHr.inserts new = 0%nat).
Proof.
  assert (forall db' new,
    (SubscribeHr.acks new + SubscribeHr.nacks new = 1)%nat
    /\ (SubscribeHr.inserts new <= 1)%nat
    /\ (SubscribeHr.nacks new = 1%nat ->
        db' = SubscribeHr.db w /\ SubscribeHr.inserts new = 0%nat) ->
    exists db'' new',
      SubscribeHr.after w db' new = SubscribeHr.after w db'' new'
      /\ (SubscribeHr.acks new' + SubscribeHr.nacks new' = 1)%nat
      /\ (SubscribeHr.inserts new' <= 1)%nat
      /\ (SubscribeHr.nacks new' = 1%nat ->
          db'' = SubscribeHr.db w /\ SubscribeHr.inserts new' = 0%nat))
    as Hclose by (intros db' new H; by exists db', new).
  destruct (Py.decode_utf8 (SubscribeHr.data message)) as [text|e] eqn:E1.
  2: { rewrite (run_not_utf8 L env message w e E1).
       apply Hclose. simpl. verdict. }
  destruct (Py.json_loads L text) as [v|e] eqn:E2.
  2: { rewrite (run_loads_raises L env message w text e E1 E2).
       apply Hclose.
       destruct (Py.is_JSONDecodeError e); simpl; verdict. }
  destruct v as [| b | z | f | s | l | d];
    try (rewrite (run_not_dict L env message w text _ E1 E2) by discriminate;
         apply Hclose; simpl; verdict).
  destruct (Py.eq_str (Py.dict_get d "type") "HR") eqn:Et.
  2: { rewrite (run_not_hr L env message w text d E1 E2 Et).
       apply Hclose.
       destruct (SubscribeHr.writable _); simpl; verdict. }
  destruct (Py.is_none (Py.dict_get d "timestamp")
            || Py.is_none (Py.dict_get d "bpm")) eqn:Em.
  { rewrite (run_invalid L env message w text d E1 E2 Et Em).
    apply Hclose. simpl. verdict. }
  rewrite (run_valid L env message w text d E1 E2 Et Em).
  destruct (Models.objects_create _ _ _ _ _ _ _) as [[r db']|e];
    apply Hclose; simpl; verdict.
Qed.

(* ================================================================== *)
(** * Properties of the query service *)
(* ================================================================== *)

Section QueryFacts.

Import Views.

#[local] Instance newer_first_total : Total newer_first.
Proof. intros a b. unfold newer_first. lia. Qed.

#[local] Instance newer_first_trans : Transitive newer_first.
Proof. intros a b c. unfold newer_first. lia. Qed.

Lemma order_by_sorted qs :
  StronglySorted newer_first (order_by_created_at_desc qs).
Proof. apply StronglySorted_merge_sort; apply _. Qed.

Lemma order_by_perm qs : order_by_created_at_desc qs ≡ₚ qs.
Proof. apply merge_sort_Permutation. Qed.

Lemma first_of_sorted_is_newest qs r :
  first (order_by_created_at_desc qs) = Some r ->
  r ∈ qs /\ forall r', r' ∈ qs -> Models.created_at r' <= Models.created_at r.
Proof.
  intros Hf. pose proof (order_by_sorted qs) as Hs.
  pose proof (order_by_perm qs) as Hp.
  destruct (order_by_created_at_desc qs) as [|x l]; simplify_eq/=.
  split.
  - rewrite <- Hp. by left.
  - intros r' Hr'. rewrite <- Hp in Hr'.
    apply StronglySorted_inv in Hs as [_ Hall].
    apply elem_of_cons in Hr' as [->|Hin]; [lia|].
    rewrite Forall_forall in Hall. by apply Hall.
Qed.

Lemma first_of_sorted_none qs :
  first (order_by_created_at_desc qs) = None -> qs = [].
Proof.
  intros Hf. pose proof (order_by_perm qs) as Hp.
  destruct (order_by_created_at_desc qs); simplify_eq/=.
  by apply Permutation_nil_l in Hp.
Qed.

Lemma fold_min_least (x : Z) xs :
  let m := fold_right Z.min x xs in
  (m = x \/ In m xs) /\ m <= x /\ forall y, In y xs -> m <= y.
Proof.
  induction xs as [|a xs IH]; simpl.
  - split; [by left|]. split; [lia|]. by intros y [].
  - destruct IH as ([E|E] & Hx & Hall);
      destruct (Z.min_spec a (fold_right Z.min x xs)) as [[? ->]|[? ->]];
      (split; [auto|]); (split; [lia|]);
      intros y [<-|Hy]; try lia; specialize (Hall y Hy); lia.
Qed.

Lemma fold_max_greatest (x : Z) xs :
  let m := fold_right Z.max x xs in
  (m = x \/ In m xs) /\ x <= m /\ forall y, In y xs -> y <= m.
Proof.
  induction xs as [|a xs IH]; simpl.
  - split; [by left|]. split; [lia|]. by intros y [].
  - destruct IH as ([E|E] & Hx & Hall);
      destruct (Z.max_spec a (fold_right Z.max x xs)) as [[? ->]|[? ->]];
      (split; [auto|]); (split; [lia|]);
      intros y [<-|Hy]; try lia; specialize (Hall y Hy); lia.
Qed.

Lemma Min_least {A} (field : A -> Z) qs : least_of field qs (Min field qs).
Proof.
  destruct qs as [|r qs]; simpl; [done|].
  destruct (fold_min_least (field r) (map field qs)) as (Hin & Hle & Hall).
  split.
  - destruct Hin as [E|Hin].
    + exists r. split; [by left | done].
    + apply in_map_iff in Hin as (r' & E & Hin).
      exists r'. split; [right; by apply list_elem_of_In | done].
  - intros r' [->|Hr']%elem_of_cons; [done|].
    apply Hall, in_map. by apply list_elem_of_In.
Qed.

Lemma Max_greatest {A} (field : A -> Z) qs :
  greatest_of field qs (Max field qs).
Proof.
  destruct qs as [|r qs]; simpl; [done|].
  destruct (fold_max_greatest (field r) (map field qs)) as (Hin & Hle & Hall).
  split.
  - destruct Hin as [E|Hin].
    + exists r. split; [by left | done].
    + apply in_map_iff in Hin as (r' & E & Hin).
      exists r'. split; [right; by apply list_elem_of_In | done].
  - intros r' [->|Hr']%elem_of_cons; [done|].
    apply Hall, in_map. by apply list_elem_of_In.
Qed.

(** Skipping [round] on a mean that tests false changes nothing: such a
    mean is a zero, and [round] of a zero is that zero. *)
Lemma round_if_truthy_rounds v :
  round_if_truthy v = Py.round1 <$> v.
Proof. destruct v as [[]|]; reflexivity. Qed.

End QueryFacts.

(** ** [get_queryset] by case of the [minutes] parameter *)

Lemma get_queryset_window L now db request s w cutoff_time :
  Views.query_params request !! "minutes" = Some s ->
  s <> "" ->
  Py.int_of_str L s = Some w ->
  Py.timedelta_minutes w = Ok (w * Py.us_per_minute) ->
  Py.datetime_sub now (w * Py.us_per_minute) = Ok cutoff_time ->
  Views.get_queryset L now db request
  = Ok (Views.order_by_created_at_desc
          (Views.filter_created_at_gte cutoff_time (Models.rows db))).
Proof.
  intros Hq Hs Hi Htd Hsub. unfold Views.get_queryset. rewrite Hq.
  apply String.eqb_neq in Hs. rewrite Hs. simpl.
  rewrite Hi. unfold_result. simpl. rewrite Htd, Hsub. reflexivity.
Qed.

Lemma get_queryset_not_an_int L now db request s :
  Views.query_params request !! "minutes" = Some s ->
  Py.int_of_str L s = None ->
  Views.get_queryset L now db request
  = Ok (Views.order_by_created_at_desc (Models.rows db)).
Proof.
  intros Hq Hi. unfold Views.get_queryset. rewrite Hq.
  destruct (negb (s =? "")%string); [|done].
  by rewrite Hi.
Qed.

Lemma get_queryset_no_parameter L now db request :
  Views.query_params request !! "minutes" = None ->
  Views.get_queryset L now db request
  = Ok (Views.order_by_created_at_desc (Models.rows db)).
Proof. intros Hq. unfold Views.get_queryset. by rewrite Hq. Qed.

Lemma get_queryset_sorted L now db request qs :
  Views.get_queryset L now db request = Ok qs ->
  StronglySorted Views.newer_first qs.
Proof.
  unfold Views.get_queryset. unfold_result.
  destruct (match Views.query_params request !! "minutes" with
            | Some _ => _ | None => _ end); [|done].
  intros [= <-]. apply order_by_sorted.
Qed.

Lemma timedelta_minutes_in_calendar now w :
  0 < w ->
  now <= Py.datetime_max ->
  Py.datetime_min <= now - w * Py.us_per_minute ->
  Py.timedelta_minutes w = Ok (w * Py.us_per_minute)
  /\ Py.datetime_sub now (w * Py.us_per_minute)
     = Ok (now - w * Py.us_per_minute).
Proof.
  unfold Py.timedelta_minutes, Py.datetime_sub, Py.datetime_max,
    Py.datetime_min, Py.us_per_minute, Py.us_per_day, Py.timedelta_max_days.
  intros Hw Hnow Hmin. split.
  - assert (0 <= w * 60000000 / 86400000000 <= 999999999) as [H1 H2].
    { split.
      - apply Z.div_pos; lia.
      - apply Z.div_le_upper_bound; lia. }
    match goal with |- (if ?c then _ else _) = _ =>
      replace c with true; [done|] end.
    symmetry. apply andb_true_iff. split; apply Z.leb_le; lia.
  - match goal with |- (if ?c then _ else _) = _ =>
      replace c with true; [done|] end.
    symmetry. apply andb_true_iff. split; apply Z.leb_le; lia.
Qed.

(** C6, at [?minutes=2000000000] on 2025-11-04. The window is a positive
    integer, the cutoff would lie before the year 1, and
    [timezone.now() - timedelta(minutes=minutes)] raises [OverflowError],
    which [except ValueError] does not catch: the request fails instead
    of listing the readings, whatever the table holds. *)
Theorem C6_window_before_year_one_raises (db : Db) :
  Views.get_queryset Samples.query_lib
    Samples.now0 db (Samples.request_minutes "2000000000")
  = Raise OverflowError.
Proof. reflexivity. Qed.

(** Any positive window that reaches before the year 1 makes [list]
    raise [OverflowError], from [timedelta] or from the subtraction. *)
Lemma list_window_before_calendar_raises
    (L : Py.lib) (now : Py.datetime) (db : Db) (request : Views.Request)
    (s : string) (w : Z) :
  Views.query_params request !! "minutes" = Some s ->
  s <> "" ->
  Py.int_of_str L s = Some w ->
  now - w * Py.us_per_minute < Py.datetime_min ->
  Views.get_queryset L now db request = Raise OverflowError.
Proof.
  intros Hq Hs Hi Hlt. unfold Views.get_queryset. rewrite Hq.
  apply String.eqb_neq in Hs. rewrite Hs. simpl. rewrite Hi.
  unfold_result. simpl.
  destruct (Py.timedelta_minutes w) as [td|e] eqn:Etd.
  - unfold Py.timedelta_minutes in Etd.
    destruct (_ && _) in Etd; [|discriminate].
    injection Etd as <-. unfold Py.datetime_sub.
    destruct (Z.leb_spec Py.datetime_min (now - w * Py.us_per_minute));
      [lia | reflexivity].
  - unfold Py.timedelta_minutes in Etd.
    destruct (_ && _) in Etd; [discriminate|].
    by injection Etd as <-.
Qed.

(** While the cutoff is a date of the calendar, [list] with a positive
    integer window of [w] minutes returns exactly the readings with
    [created_at >= now - w minutes], newest first. *)
Theorem list_window_keeps_recent_readings
    (L : Py.lib) (now : Py.datetime) (db : Db) (request : Views.Request)
    (s : string) (w : Z) :
  Views.query_params request !! "minutes" = Some s ->
  s <> "" ->
  Py.int_of_str L s = Some w ->
  0 < w ->
  now <= Py.datetime_max ->
  Py.datetime_min <= now - w * Py.us_per_minute ->
  exists qs,
    Views.get_queryset L now db request = Ok qs
    /\ qs ≡ₚ filter (fun r => now - w * Py.us_per_minute <= Models.created_at r)
                    (Models.rows db)
    /\ (forall r, r ∈ qs <->
                  r ∈ Models.rows db
                  /\ now - w * Py.us_per_minute <= Models.created_at r)
    /\ StronglySorted Views.newer_first qs.
Proof.
  intros Hq Hs Hi Hw Hnow Hmin.
  destruct (timedelta_minutes_in_calendar now w Hw Hnow Hmin) as [Htd Hsub].
  rewrite (get_queryset_window L now db request s w _ Hq Hs Hi Htd Hsub).
  eexists. split; [reflexivity|]. split; [apply order_by_perm|].
  split; [| apply order_by_sorted].
  intros r. rewrite order_by_perm. unfold Views.filter_created_at_gte.
  rewrite list_elem_of_filter. tauto.
Qed.

Lemma list_window_witness :
  exists qs,
    Views.get_queryset Samples.query_lib
      Samples.now0 Samples.three_readings (Samples.request_minutes "5") = Ok qs
    /\ qs ≡ₚ filter (fun r => Samples.now0 - 5 * Py.us_per_minute
                              <= Models.created_at r)
                    (Models.rows Samples.three_readings)
    /\ (forall r, r ∈ qs <->
                  r ∈ Models.rows Samples.three_readings
                  /\ Samples.now0 - 5 * Py.us_per_minute <= Models.created_at r)
    /\ StronglySorted Views.newer_first qs.
Proof.
  apply (list_window_keeps_recent_readings
           Samples.query_lib
           Samples.now0 Samples.three_readings
           (Samples.request_minutes "5") "5" 5).
  - reflexivity.
  - discriminate.
  - reflexivity.
  - lia.
  - vm_compute. discriminate.
  - vm_compute. discriminate.
Defined.

(** With [minutes=5], a reading stored 10 minutes ago is left out and
    one stored 1 minute ago is listed. *)
Example list_five_minutes :
  Views.get_queryset Samples.query_lib
    Samples.now0 Samples.three_readings (Samples.request_minutes "5")
  = Ok [Samples.reading 2 1 119; Samples.reading 3 2 90].
Proof. reflexivity. Qed.

(** A [minutes] value that [int] does not read is ignored: every reading
    is listed, newest first, and nothing is raised. *)
Theorem list_ignores_non_numeric_window
    (L : Py.lib) (now : Py.datetime) (db : Db) (request : Views.Request)
    (s : string) :
  Views.query_params request !! "minutes" = Some s ->
  Py.int_of_str L s = None ->
  exists qs,
    Views.get_queryset L now db request = Ok qs
    /\ qs ≡ₚ Models.rows db
    /\ StronglySorted Views.newer_first qs.
Proof.
  intros Hq Hi. rewrite (get_queryset_not_an_int L now db request s Hq Hi).
  eexists. split; [reflexivity|].
  split; [apply order_by_perm | apply order_by_sorted].
Qed.

Lemma list_ignores_non_numeric_witness :
  exists qs,
    Views.get_queryset Samples.query_lib
      Samples.now0 Samples.three_readings (Samples.request_minutes "abc")
    = Ok qs
    /\ qs ≡ₚ Models.rows Samples.three_readings
    /\ StronglySorted Views.newer_first qs.
Proof.
  apply (list_ignores_non_numeric_window
           Samples.query_lib
           Samples.now0 Samples.three_readings
           (Samples.request_minutes "abc") "abc").
  - reflexivity.
  - reflexivity.
Defined.

(** Whenever [list] returns, its result is in descending order of
    [created_at]. *)
Theorem list_result_is_newest_first
    (L : Py.lib) (now : Py.datetime) (db : Db) (request : Views.Request)
    (qs : list HeartRateReading) :
  Views.get_queryset L now db request = Ok qs ->
  StronglySorted Views.newer_first qs.
Proof. apply get_queryset_sorted. Qed.

Lemma list_result_is_newest_first_witness :
  StronglySorted Views.newer_first
    [Samples.reading 2 1 119; Samples.reading 3 2 90; Samples.reading 1 10 80].
Proof.
  apply (list_result_is_newest_first
           Samples.query_lib
           Samples.now0 Samples.three_readings
           {| Views.query_params := ∅ |}).
  reflexivity.
Defined.

(** ** [round(f, 1)] rounds to a nearest tenth *)

(** [half_even_tenths m e] is an integer nearest to ten times
    [m * 2^e]: it is that product when [e] is not negative, and
    otherwise it differs from it by at most one half. *)
Lemma half_even_tenths_nearest (m : positive) (e : Z) :
  let k := Py.half_even_tenths m e in
  if 0 <=? e then k = 10 * Zpos m * 2 ^ e
  else Z.abs (2 * (10 * Zpos m) - 2 * k * 2 ^ (- e)) <= 2 ^ (- e).
Proof.
  unfold Py.half_even_tenths.
  destruct (Z.leb_spec 0 e) as [He|He]; simpl.
  - by rewrite Z.shiftl_mul_pow2.
  - rewrite Z.shiftl_1_l.
    assert (0 < 2 ^ (- e)) as Hden by (apply Z.pow_pos_nonneg; lia).
    pose proof (Z.div_mod (10 * Zpos m) (2 ^ (- e)) ltac:(lia)) as Hdm.
    pose proof (Z.mod_pos_bound (10 * Zpos m) (2 ^ (- e)) Hden) as Hr.
    set (den := 2 ^ (- e)) in *.
    set (q := 10 * Z.pos m / den) in *.
    set (r := (10 * Z.pos m) mod den) in *.
    destruct (Z.compare_spec (2 * r) den) as [Heq|Hlt|Hgt].
    + destruct (Z.even q); nia.
    + nia.
    + nia.
Qed.

(** [round1] leaves zeros, infinities and NaN alone, and sends a finite
    float to the float nearest to [k / 10], [k] being the integer of
    the lemma above, with the sign kept. *)
Lemma round1_finite (s : bool) (m : positive) (e : Z) :
  Py.round1 (S754_finite s m e)
  = match Py.half_even_tenths m e with
    | Zpos k =>
        SFdiv Py.prec Py.emax (S754_finite s k 0) (S754_finite false 10 0)
    | _ => S754_zero s
    end.
Proof. reflexivity. Qed.

(** Python's [round(80.35, 1)] is 80.3 and [round(80.25, 1)] is 80.2:
    the first float lies below 80.35, the second is a tie and goes to
    the even tenth. *)
Example round1_80_35 : Py.round1 (Py.truediv 8035 100) = Py.truediv 803 10.
Proof. reflexivity. Qed.

Example round1_80_25 : Py.round1 (Py.truediv 8025 100) = Py.truediv 802 10.
Proof. reflexivity. Qed.

(** ** Division in binary64 is accurate *)

Section FloatFacts.

Import Rounding Spec.

Ltac gen_pow :=
  repeat match goal with
         | |- context [?b ^ ?e] =>
             let x := fresh "pw" in
             try (let H := fresh "Hpw" in
                  assert (0 < b ^ e) as H by (apply Z.pow_pos_nonneg; lia));
             set (x := b ^ e) in *; clearbody x
         | H0 : context [?b ^ ?e] |- _ =>
             let x := fresh "pw" in
             try (let H := fresh "Hpw" in
                  assert (0 < b ^ e) as H by (apply Z.pow_pos_nonneg; lia));
             set (x := b ^ e) in *; clearbody x
         end.

Lemma digits2_pos_bounds (p : positive) :
  2 ^ (Zpos (digits2_pos p) - 1) <= Zpos p < 2 ^ Zpos (digits2_pos p).
Proof.
  induction p as [p IH|p IH|]; simpl digits2_pos.
  - rewrite Pos2Z.inj_succ. change (Z.pos p~1) with (2 * Z.pos p + 1).
    replace (Z.succ (Zpos (digits2_pos p)) - 1)
      with (Z.succ (Zpos (digits2_pos p) - 1)) by lia.
    rewrite !Z.pow_succ_r by lia. gen_pow. lia.
  - rewrite Pos2Z.inj_succ. change (Z.pos p~0) with (2 * Z.pos p).
    replace (Z.succ (Zpos (digits2_pos p)) - 1)
      with (Z.succ (Zpos (digits2_pos p) - 1)) by lia.
    rewrite !Z.pow_succ_r by lia. gen_pow. lia.
  - simpl. lia.
Qed.

Lemma Zdigits2_bounds (m : Z) :
  0 < m -> 2 ^ (Zdigits2 m - 1) <= m < 2 ^ Zdigits2 m.
Proof. destruct m as [|p|p]; try lia. intros _. apply digits2_pos_bounds. Qed.

Lemma Zdigits2_nonneg m : 0 <= Zdigits2 m.
Proof. destruct m; simpl; lia. Qed.

Lemma Zdigits2_le (m : Z) (d : Z) :
  0 <= d -> 0 <= m < 2 ^ d -> Zdigits2 m <= d.
Proof.
  intros Hd [H0 H1]. destruct (Z.eq_dec m 0) as [->|Hm]; [simpl; lia|].
  destruct (Zdigits2_bounds m ltac:(lia)) as [Hlo _].
  destruct (Z.le_gt_cases (Zdigits2 m) d) as [|Hgt]; [done || assumption|].
  exfalso. assert (2 ^ d <= 2 ^ (Zdigits2 m - 1)) by (apply Z.pow_le_mono_r; lia).
  lia.
Qed.

Lemma Zdigits2_ge (m : Z) (d : Z) :
  2 ^ d <= m -> 0 <= d -> d + 1 <= Zdigits2 m.
Proof.
  intros H Hd.
  assert (0 < m) by (pose proof (Z.pow_pos_nonneg 2 d); lia).
  destruct (Zdigits2_bounds m ltac:(lia)) as [_ Hhi].
  destruct (Z.le_gt_cases (d + 1) (Zdigits2 m)) as [|Hgt]; [assumption|].
  exfalso. assert (2 ^ Zdigits2 m <= 2 ^ d).
  { apply Z.pow_le_mono_r; [lia|]. lia. }
  lia.
Qed.

Lemma located_bounds m l N D :
  0 < D -> located m l N D -> m * D <= N < (m + 1) * D.
Proof. destruct l as [|[]]; simpl; nia. Qed.

Lemma loc_of_shr_record_of_loc m l :
  loc_of_shr_record (shr_record_of_loc m l) = l /\ shr_m (shr_record_of_loc m l) = m.
Proof. by destruct l as [|[]]. Qed.

Lemma new_location_located (b r q : Z) :
  0 < b -> 0 <= r < b -> located q (new_location b r) (q * b + r) b.
Proof.
  intros Hb Hr. unfold new_location.
  destruct (Z.even b) eqn:Ev.
  - unfold new_location_even. destruct (Z.eqb_spec r 0) as [->|Hr0]; simpl; [lia|].
    destruct (Z.compare_spec (2 * r) b); simpl; nia.
  - unfold new_location_odd. destruct (Z.eqb_spec r 0) as [->|Hr0]; simpl; [lia|].
    assert (Z.odd b = true) as Ho by (rewrite <- Z.negb_even, Ev; reflexivity).
    apply Z.odd_spec in Ho as [c Hc].
    destruct (Z.compare_spec (2 * r + 1) b); simpl; nia.
Qed.

Lemma shr_1_located mrs N D :
  0 < D -> located_rec mrs N D -> located_rec (shr_1 mrs) N (2 * D).
Proof.
  intros HD [Hm Hl]. destruct mrs as [m r s]. unfold located_rec.
  cbn [shr_m] in Hm.
  destruct m as [|p|p]; [| |lia].
  - destruct r, s;
      cbn [shr_1 shr_m shr_r shr_s loc_of_shr_record located orb] in *;
      (split; [lia|]); lia.
  - destruct p as [p|p|]; destruct r, s;
      cbn [shr_1 shr_m shr_r shr_s loc_of_shr_record located orb] in *;
      (split; [lia|]);
      try change (Z.pos p~1) with (2 * Z.pos p + 1) in Hl;
      try change (Z.pos p~0) with (2 * Z.pos p) in Hl; nia.
Qed.

Lemma iter_pos_shr_1_located p : forall mrs N D,
  0 < D -> located_rec mrs N D ->
  located_rec (SpecFloat.iter_pos shr_1 p mrs) N (2 ^ Zpos p * D).
Proof.
  induction p as [p IH|p IH|]; intros mrs N D HD H; cbn [SpecFloat.iter_pos].
  - change (Z.pos p~1) with (2 * Z.pos p + 1).
    replace (2 ^ (2 * Zpos p + 1) * D)
      with (2 ^ Zpos p * (2 ^ Zpos p * (2 * D))).
    2: { replace (2 * Z.pos p + 1) with (Z.pos p + Z.pos p + 1) by lia.
         rewrite !Z.pow_add_r by lia. change (2 ^ 1) with 2. ring. }
    assert (0 < 2 ^ Z.pos p) by (apply Z.pow_pos_nonneg; lia).
    apply IH; [nia|]. apply IH; [lia|]. by apply shr_1_located.
  - change (Z.pos p~0) with (2 * Z.pos p).
    replace (2 ^ (2 * Zpos p) * D) with (2 ^ Zpos p * (2 ^ Zpos p * D)).
    2: { replace (2 * Z.pos p) with (Z.pos p + Z.pos p) by lia.
         rewrite !Z.pow_add_r by lia. ring. }
    assert (0 < 2 ^ Z.pos p) by (apply Z.pow_pos_nonneg; lia).
    apply IH; [nia|]. by apply IH.
  - change (2 ^ 1) with 2. by apply shr_1_located.
Qed.

(** [shr]: the shift is by [Z.max n 0] places. *)
Lemma shr_located mrs e n N D :
  0 < D -> located_rec mrs N D ->
  located_rec (fst (shr mrs e n)) N (2 ^ Z.max n 0 * D)
  /\ snd (shr mrs e n) = e + Z.max n 0.
Proof.
  intros HD H. destruct n as [|p|p]; unfold shr; cbn [fst snd].
  - change (Z.max 0 0) with 0. change (2 ^ 0) with 1.
    split; [|lia]. by replace (1 * D) with D by lia.
  - rewrite Z.max_l by lia. split; [|done]. by apply iter_pos_shr_1_located.
  - rewrite Z.max_r by lia. change (2 ^ 0) with 1.
    split; [|lia]. by replace (1 * D) with D by lia.
Qed.

Lemma fexp_eq e : fexp Py.prec Py.emax e = Z.max (e - 53) emin.
Proof. reflexivity. Qed.

(** Rounding to nearest, ties to even, of a located number. *)
Lemma round_nearest_even_located m l N D :
  0 < D -> located m l N D ->
  m <= round_nearest_even m l <= m + 1
  /\ Z.abs (2 * (round_nearest_even m l * D - N)) <= D.
Proof.
  intros HD H. destruct l as [|[]]; cbn [round_nearest_even located] in *;
    try destruct (Z.even m); split; try lia; nia.
Qed.

Lemma binary_round_aux_core sx mx ex lx :
  binary_round_aux Py.prec Py.emax sx mx ex lx
  = match fst (round_core mx ex lx) with
    | Z0 => S754_zero sx
    | Zpos m =>
        if snd (round_core mx ex lx) <=? Py.emax - Py.prec
        then S754_finite sx m (snd (round_core mx ex lx))
        else S754_infinity sx
    | Zneg _ => S754_nan
    end.
Proof.
  unfold binary_round_aux, round_core.
  destruct (shr_fexp Py.prec Py.emax mx ex lx) as [mrs' e'].
  destruct (shr_fexp Py.prec Py.emax _ e' loc_Exact) as [mrs'' e'']. reflexivity.
Qed.

Lemma round_core_spec mx ex lx N D :
  0 < D -> 0 <= mx -> located mx lx N D -> emin <= ex ->
  let m2 := fst (round_core mx ex lx) in
  let e2 := snd (round_core mx ex lx) in
  0 <= m2 <= 2 ^ 53
  /\ (exists E, 0 <= E /\ e2 = ex + E
                /\ Z.abs (2 * (m2 * 2 ^ E * D - N)) <= 2 ^ E * D)
  /\ e2 <= Z.max (fexp Py.prec Py.emax (Zdigits2 mx + ex)) ex + 1
  /\ (1 <= mx -> emin <= Zdigits2 mx + ex - 53 -> 1 <= m2).
Proof.
  intros HD Hmx Hloc Hex. unfold round_core, shr_fexp.
  set (dq := Zdigits2 mx).
  set (n1 := fexp Py.prec Py.emax (dq + ex) - ex).
  destruct (loc_of_shr_record_of_loc mx lx) as [Hl0 Hm0].
  assert (located_rec (shr_record_of_loc mx lx) N D) as Hrec
    by (split; [by rewrite Hm0 | by rewrite Hl0, Hm0]).
  destruct (shr_located _ ex n1 N D HD Hrec) as [[Hm1 Hl1] He1].
  destruct (shr (shr_record_of_loc mx lx) ex n1) as [mrs1 e1].
  cbn [fst snd] in Hm1, Hl1, He1.
  set (k1 := Z.max n1 0) in *. set (m1 := shr_m mrs1) in *.
  assert (0 <= k1) as Hk1 by lia.
  assert (0 < 2 ^ k1) as Hp1 by (apply Z.pow_pos_nonneg; lia).
  set (D1 := 2 ^ k1 * D) in *.
  assert (0 < D1) as HD1 by (unfold D1; nia).
  pose proof (located_bounds _ _ _ _ HD Hloc) as Hb0.
  pose proof (located_bounds _ _ _ _ HD1 Hl1) as Hb1.
  assert (m1 * 2 ^ k1 <= mx < (m1 + 1) * 2 ^ k1) as Hshift
    by (unfold D1 in Hb1; nia).
  assert (dq - 53 <= k1) as Hdk.
  { unfold k1, n1. rewrite fexp_eq. lia. }
  assert (m1 < 2 ^ 53) as Hm1lt.
  { destruct (Z.eq_dec mx 0) as [E0|Hne]; [nia|].
    destruct (Zdigits2_bounds mx ltac:(lia)) as [_ Hhi]. fold dq in Hhi.
    assert (2 ^ dq <= 2 ^ (53 + k1)) as Hle
      by (apply Z.pow_le_mono_r; lia).
    rewrite Z.pow_add_r in Hle by lia. nia. }
  destruct (round_nearest_even_located m1 _ N D1 HD1 Hl1) as [Hrne Hacc].
  set (m' := round_nearest_even m1 (loc_of_shr_record mrs1)) in *.
  assert (emin <= e1) as He1min by lia.
  destruct (Z.eq_dec m' (2 ^ 53)) as [Etop|Hntop].
  - (* the mantissa overflowed: one more shift, exact *)
    assert (Zdigits2 m' = 54) as Hd by (rewrite Etop; reflexivity).
    rewrite Hd.
    assert (fexp Py.prec Py.emax (54 + e1) - e1 = 1) as ->
      by (rewrite fexp_eq; lia).
    assert (located_rec (shr_record_of_loc m' loc_Exact) m' 1) as Hrec2
      by (split; simpl; lia).
    destruct (shr_located _ e1 1 m' 1 ltac:(lia) Hrec2) as [[Hm2 Hl2] He2].
    destruct (shr (shr_record_of_loc m' loc_Exact) e1 1) as [mrs2 e2].
    cbn [fst snd] in *. change (Z.max 1 0) with 1 in *.
    change (2 ^ 1 * 1) with 2 in Hl2.
    assert (0 < 2) as Htwo by lia.
    pose proof (located_bounds _ _ _ _ Htwo Hl2) as Hb2.
    assert (shr_m mrs2 = 2 ^ 52) as Em2.
    { rewrite Etop in Hb2. change (2 ^ 53) with 9007199254740992 in Hb2.
      change (2 ^ 52) with 4503599627370496. lia. }
    rewrite Em2.
    split; [split; [by apply Z.pow_nonneg | by apply Z.pow_le_mono_r]|].
    split.
    + exists (k1 + 1). split; [lia|]. split; [lia|].
      rewrite Z.pow_add_r by lia. change (2 ^ 1) with 2.
      replace (2 ^ 52 * (2 ^ k1 * 2) * D) with (m' * D1).
      2: { rewrite Etop. unfold D1. change (2 ^ 53) with (2 ^ 52 * 2). ring. }
      fold D1. replace (2 ^ k1 * 2 * D) with (2 * D1) by (unfold D1; ring). lia.
    + split.
      * unfold k1, n1 in He1. fold dq. lia.
      * intros _ _. change (2 ^ 52) with 4503599627370496. lia.
  - (* no second shift *)
    assert (0 <= m' < 2 ^ 53) as Hm' by lia.
    pose proof (Zdigits2_le m' 53 ltac:(lia) Hm') as Hd.
    pose proof (Zdigits2_nonneg m') as Hd0.
    assert (fexp Py.prec Py.emax (Zdigits2 m' + e1) - e1 <= 0) as Hn2
      by (rewrite fexp_eq; lia).
    assert (shr (shr_record_of_loc m' loc_Exact) e1
              (fexp Py.prec Py.emax (Zdigits2 m' + e1) - e1)
            = (shr_record_of_loc m' loc_Exact, e1)) as ->.
    { unfold shr.
      destruct (fexp Py.prec Py.emax (Zdigits2 m' + e1) - e1);
        [done|lia|done]. }
    cbn [fst snd shr_record_of_loc shr_m].
    split; [lia|]. split.
    + exists k1. split; [lia|]. split; [lia|]. fold D1.
      replace (m' * 2 ^ k1 * D) with (m' * D1) by (unfold D1; ring). lia.
    + split.
      * unfold k1, n1 in He1. fold dq. lia.
      * intros H1 Hnc. fold dq in Hnc.
        assert (1 <= m1); [|lia].
        destruct (Zdigits2_bounds mx ltac:(lia)) as [Hlo _]. fold dq in Hlo.
        assert (k1 = Z.max (dq - 53) 0) as Ek
          by (unfold k1, n1; rewrite fexp_eq; lia).
        destruct (Z.le_gt_cases dq 53) as [Hsmall|Hbig].
        -- assert (k1 = 0) as E0 by lia. rewrite E0 in Hshift.
           change (2 ^ 0) with 1 in Hshift. lia.
        -- assert (k1 = dq - 53) as E0 by lia.
           assert (2 ^ (dq - 1) = 2 ^ 52 * 2 ^ k1) as Esplit.
           { rewrite <- Z.pow_add_r by lia. f_equal. lia. }
           rewrite Esplit in Hlo. change (2 ^ 52) with 4503599627370496 in Hlo.
           nia.
Qed.

(** Division of a signed integer by a positive one, both below
    [2 ^ 1000]: the quotient is finite, has the sign of the dividend
    and lies within half a unit in the last place of the exact
    quotient. With [e = E - S], the last line reads
    [|m * 2^e - a / b| <= 2^e / 2]. *)
Lemma SFdiv_int_accurate (s : bool) (a b : positive) :
  Zpos a < 2 ^ 1000 -> Zpos b < 2 ^ 1000 ->
  exists m e E S,
    SFdiv Py.prec Py.emax (S754_finite s a 0) (S754_finite false b 0)
    = S754_finite s m e
    /\ 0 <= E /\ 0 <= S /\ e = E - S
    /\ Z.abs (2 * (Zpos m * 2 ^ E * Zpos b - Zpos a * 2 ^ S))
       <= 2 ^ E * Zpos b.
Proof.
  intros Ha Hb. unfold SFdiv, SFdiv_core_binary.
  cbn [Zdigits2 xorb]. rewrite xorb_false_r.
  set (d1 := Zpos (digits2_pos a)). set (d2 := Zpos (digits2_pos b)).
  destruct (digits2_pos_bounds a) as [Ha1 Ha2]. fold d1 in Ha1, Ha2.
  destruct (digits2_pos_bounds b) as [Hb1 Hb2]. fold d2 in Hb1, Hb2.
  assert (1 <= d1 <= 1000) as Hd1.
  { split; [unfold d1; lia|].
    destruct (Z.le_gt_cases d1 1000) as [|Hgt]; [done|exfalso].
    assert (2 ^ 1000 <= 2 ^ (d1 - 1)) by (apply Z.pow_le_mono_r; lia). lia. }
  assert (1 <= d2 <= 1000) as Hd2.
  { split; [unfold d2; lia|].
    destruct (Z.le_gt_cases d2 1000) as [|Hgt]; [done|exfalso].
    assert (2 ^ 1000 <= 2 ^ (d2 - 1)) by (apply Z.pow_le_mono_r; lia). lia. }
  replace (d1 + 0 - (d2 + 0)) with (d1 - d2) by lia.
  change (0 - 0) with 0.
  set (e' := Z.min (fexp Py.prec Py.emax (d1 - d2)) 0).
  set (S := - e').
  assert (e' = Z.min (d1 - d2 - 53) 0) as Ee'.
  { unfold e'. rewrite fexp_eq. unfold emin. lia. }
  assert (0 <= S) as HS by (unfold S; lia).
  replace (0 - e') with S by (unfold S; lia).
  assert (match S with
          | 0 => Z.pos a
          | Z.pos _ => Z.shiftl (Z.pos a) S
          | Z.neg _ => 0
          end = Zpos a * 2 ^ S) as ->.
  { destruct S as [|p|p] eqn:ES; [change (2 ^ 0) with 1; lia| |lia].
    by rewrite Z.shiftl_mul_pow2. }
  assert (0 < 2 ^ S) as HpS by (apply Z.pow_pos_nonneg; lia).
  pose proof (Z_div_mod (Zpos a * 2 ^ S) (Zpos b) ltac:(lia)) as Hdm.
  destruct (Z.div_eucl (Zpos a * 2 ^ S) (Zpos b)) as [q r].
  destruct Hdm as [Hq Hr].
  assert (0 <= q) as Hq0 by nia.
  pose proof (new_location_located (Zpos b) r q ltac:(lia) Hr) as Hloc.
  replace (q * Zpos b + r) with (Zpos a * 2 ^ S) in Hloc by lia.
  assert (emin <= e') as Hemin by (unfold emin; lia).
  destruct (round_core_spec q e' (new_location (Zpos b) r)
              (Zpos a * 2 ^ S) (Zpos b) ltac:(lia) Hq0 Hloc Hemin)
    as (Hm2 & (E & HE & He2 & Hacc) & Hup & Hlow).
  rewrite binary_round_aux_core.
  set (m2 := fst (round_core q e' (new_location (Zpos b) r))) in *.
  set (e2 := snd (round_core q e' (new_location (Zpos b) r))) in *.
  (* the quotient has at least 53 bits *)
  assert (53 - d1 + d2 <= S) as HSlow by (unfold S; lia).
  assert (2 ^ (d1 - 1 + S - d2) <= q) as Hqlow.
  { assert (2 ^ (d1 - 1 + S) = 2 ^ (d1 - 1 + S - d2) * 2 ^ d2) as Esplit.
    { rewrite <- Z.pow_add_r by lia. f_equal. lia. }
    assert (2 ^ (d1 - 1 + S) = 2 ^ (d1 - 1) * 2 ^ S) as Esplit2
      by (rewrite <- Z.pow_add_r by lia; f_equal; lia).
    assert (0 < 2 ^ (d1 - 1 + S - d2)) by (apply Z.pow_pos_nonneg; lia).
    destruct (Z.le_gt_cases (2 ^ (d1 - 1 + S - d2)) q) as [|Hgt];
      [done|exfalso].
    assert (Zpos b * (q + 1) <= Zpos b * 2 ^ (d1 - 1 + S - d2))
      by (apply Z.mul_le_mono_nonneg_l; lia).
    assert (Zpos b * 2 ^ (d1 - 1 + S - d2)
            < 2 ^ d2 * 2 ^ (d1 - 1 + S - d2))
      by (apply Z.mul_lt_mono_pos_r; lia).
    assert (2 ^ (d1 - 1) * 2 ^ S <= Zpos a * 2 ^ S)
      by (apply Z.mul_le_mono_nonneg_r; lia).
    lia. }
  assert (q < 2 ^ (d1 + S)) as Hqup.
  { rewrite Z.pow_add_r by lia.
    assert (Zpos a * 2 ^ S < 2 ^ d1 * 2 ^ S)
      by (apply Z.mul_lt_mono_pos_r; lia).
    assert (1 * q <= Zpos b * q) by (apply Z.mul_le_mono_nonneg_r; lia).
    lia. }
  assert (1 <= q).
  { assert (0 < 2 ^ (d1 - 1 + S - d2)) by (apply Z.pow_pos_nonneg; lia). lia. }
  pose proof (Zdigits2_ge q (d1 - 1 + S - d2) Hqlow ltac:(lia)) as Hdq1.
  pose proof (Zdigits2_le q (d1 + S) ltac:(lia) ltac:(lia)) as Hdq2.
  assert (1 <= m2) as Hm2pos by (apply Hlow; unfold emin; lia).
  assert (e2 <= Py.emax - Py.prec) as He2max.
  { rewrite fexp_eq in Hup. unfold emin, Py.emax, Py.prec in *. lia. }
  destruct m2 as [|m|m] eqn:Em2; [lia| |lia].
  apply Z.leb_le in He2max. rewrite He2max.
  exists m, e2, E, S. repeat split; try done. unfold S; lia.
Qed.

Lemma Qpower_2_pos (e : Z) : (0 < 2 ^ e)%Q.
Proof. apply Qpower_0_lt. reflexivity. Qed.

Lemma Qpower_2_inject (n : Z) : 0 <= n -> (2 ^ n == inject_Z (2 ^ n))%Q.
Proof. intros Hn. by rewrite Zpower_Qpower. Qed.

Lemma Qpower_2_minus (E S : Z) :
  0 <= E -> 0 <= S ->
  (2 ^ (E - S) == inject_Z (2 ^ E) / inject_Z (2 ^ S))%Q.
Proof.
  intros HE HS. rewrite Qpower_minus by done.
  by rewrite !Qpower_2_inject.
Qed.

Ltac push_inject H :=
  unfold Z.sub in H;
  repeat (rewrite inject_Z_opp in H || rewrite inject_Z_mult in H
          || rewrite inject_Z_plus in H).

Lemma half_ulp_bridge (m a b : positive) (E S : Z) :
  0 <= E -> 0 <= S ->
  Z.abs (2 * (Zpos m * 2 ^ E * Zpos b - Zpos a * 2 ^ S)) <= 2 ^ E * Zpos b ->
  (Qabs (inject_Z (Zpos m) * 2 ^ (E - S) - inject_Z (Zpos a) / inject_Z (Zpos b))
   <= 2 ^ (E - S) / 2)%Q.
Proof.
  intros HE HS Habs. rewrite Qpower_2_minus by done.
  assert (0 < 2 ^ E) as HpE by (apply Z.pow_pos_nonneg; lia).
  assert (0 < 2 ^ S) as HpS by (apply Z.pow_pos_nonneg; lia).
  set (P := 2 ^ E) in *. set (T := 2 ^ S) in *.
  apply Z.abs_le in Habs as [Hlo Hhi].
  rewrite Zle_Qle in Hlo, Hhi.
  push_inject Hlo. push_inject Hhi.
  assert (0 < inject_Z P)%Q as HP by (by rewrite <- (Zlt_Qlt 0)).
  assert (0 < inject_Z T)%Q as HT by (by rewrite <- (Zlt_Qlt 0)).
  assert (0 < inject_Z (Zpos b))%Q as HB by (by rewrite <- (Zlt_Qlt 0)).
  set (qm := inject_Z (Zpos m)) in *. set (qa := inject_Z (Zpos a)) in *.
  set (qb := inject_Z (Zpos b)) in *. set (qP := inject_Z P) in *.
  set (qT := inject_Z T) in *.
  apply Qabs_Qle_condition.
  assert (qm * (qP / qT) - qa / qb
          == (qm * qP * qb - qa * qT) / (qT * qb))%Q as ->
    by (field; split; lra).
  assert (0 < qT * qb)%Q as HTB by (apply Qmult_lt_0_compat; assumption).
  assert (qP / qT / 2 == (qP * qb / 2) / (qT * qb))%Q as ->
    by (field; split; lra).
  assert (- (qP * qb / 2 / (qT * qb)) == (- (qP * qb / 2)) / (qT * qb))%Q as ->
    by (field; split; lra).
  split; apply Qmult_le_compat_r;
    try (apply Qlt_le_weak, Qinv_lt_0_compat; assumption).
  - change (inject_Z 2) with 2%Q in *. unfold Qdiv.
    change (/ 2)%Q with (1 # 2)%Q. lra.
  - change (inject_Z 2) with 2%Q in *. unfold Qdiv.
    change (/ 2)%Q with (1 # 2)%Q. lra.
Qed.

Lemma inject_signed s m :
  inject_Z (signed s m)
  = (if s then - inject_Z (Zpos m) else inject_Z (Zpos m))%Q.
Proof. by destruct s. Qed.

Lemma SFdiv_is_double (s : bool) (a b : positive) :
  Zpos a < 2 ^ 1000 -> Zpos b < 2 ^ 1000 ->
  is_double_for
    (SFdiv Py.prec Py.emax (S754_finite s a 0) (S754_finite false b 0))
    (inject_Z (signed s a) / inject_Z (Zpos b)).
Proof.
  intros Ha Hb.
  destruct (SFdiv_int_accurate s a b Ha Hb)
    as (m & e & E & S & -> & HE & HS & -> & Hacc).
  pose proof (half_ulp_bridge m a b E S HE HS Hacc) as H.
  unfold is_double_for. rewrite !inject_signed. destruct s; [|exact H].
  rewrite <- Qabs_opp.
  assert (- (- inject_Z (Z.pos m) * 2 ^ (E - S)
             - - inject_Z (Z.pos a) / inject_Z (Z.pos b))
          == inject_Z (Z.pos m) * 2 ^ (E - S)
             - inject_Z (Z.pos a) / inject_Z (Z.pos b))%Q as ->; [|exact H].
  field. apply Qnot_eq_sym, Qlt_not_eq. by rewrite <- (Zlt_Qlt 0).
Qed.

Lemma half_even_tenths_nonneg m e : 0 <= Py.half_even_tenths m e.
Proof.
  unfold Py.half_even_tenths. destruct (Z.leb_spec 0 e) as [He|He].
  - rewrite Z.shiftl_mul_pow2 by lia.
    assert (0 < 2 ^ e) by (apply Z.pow_pos_nonneg; lia). nia.
  - cbv zeta. rewrite Z.shiftl_1_l.
    assert (0 < 2 ^ (- e)) as Hden by (apply Z.pow_pos_nonneg; lia).
    assert (0 <= 10 * Z.pos m / 2 ^ (- e)) by (apply Z.div_pos; lia).
    destruct (_ ?= _); try destruct (Z.even _); lia.
Qed.

(** [Py.half_even_tenths m e] tenths is a decimal nearest to [m * 2^e]. *)
Lemma half_even_tenths_Q (m : positive) (e : Z) :
  (Qabs (inject_Z (Zpos m) * 2 ^ e - inject_Z (Py.half_even_tenths m e) / 10)
   <= 1 # 20)%Q.
Proof.
  pose proof (half_even_tenths_nearest m e) as H. cbv zeta in H.
  set (k := Py.half_even_tenths m e) in *. clearbody k.
  destruct (Z.leb_spec 0 e) as [He|He].
  - rewrite H, Qpower_2_inject by done.
    rewrite !inject_Z_mult.
    assert (inject_Z (Z.pos m) * inject_Z (2 ^ e)
            - inject_Z 10 * inject_Z (Z.pos m) * inject_Z (2 ^ e) / 10
            == 0)%Q as -> by (change (inject_Z 10) with 10%Q; field).
    done.
  - replace e with (- (- e)) at 1 by lia.
    rewrite Qpower_opp, Qpower_2_inject by lia.
    assert (0 < 2 ^ (- e)) as HpT by (apply Z.pow_pos_nonneg; lia).
    set (T := 2 ^ (- e)) in *.
    apply Z.abs_le in H as [Hlo Hhi].
    rewrite Zle_Qle in Hlo, Hhi. push_inject Hlo. push_inject Hhi.
    assert (0 < inject_Z T)%Q as HT by (by rewrite <- (Zlt_Qlt 0)).
    change (inject_Z 2) with 2%Q in *. change (inject_Z 10) with 10%Q in *.
    set (qm := inject_Z (Zpos m)) in *. set (qk := inject_Z k) in *.
    set (qT := inject_Z T) in *. clearbody qm qk qT.
    apply Qabs_Qle_condition.
    assert (qm * / qT - qk / 10 == (10 * qm - qk * qT) * (1 # 10) / qT)%Q
      as -> by (field; lra).
    split.
    + apply Qle_shift_div_l; [done|]. lra.
    + apply Qle_shift_div_r; [done|]. lra.
Qed.

(** [round(f, 1)] of a float of at most 64-bit magnitude: the double
    for a decimal [k / 10] that is nearest to the value of [f]. *)
Lemma round1_to_one_decimal (f : spec_float) (v : Q) :
  value f = Some v ->
  (Qabs v <= two64)%Q ->
  exists k : Z,
    is_double_for (Py.round1 f) (inject_Z k / 10)
    /\ (Qabs (v - inject_Z k / 10) <= 1 # 20)%Q.
Proof.
  destruct f as [s|s| |s m e]; try discriminate.
  - intros [= <-] _. exists 0. split; [reflexivity|]. done.
  - cbn [value]. intros [= <-] Hv.
    pose proof (half_even_tenths_Q m e) as Hk.
    pose proof (half_even_tenths_nonneg m e) as Hk0.
    assert (Qabs (inject_Z (Z.pos m) * 2 ^ e) <= two64)%Q as Hm.
    { rewrite inject_signed in Hv. destruct s; [|done].
      rewrite <- Qabs_opp in Hv.
      assert (- (- inject_Z (Z.pos m) * 2 ^ e)
              == inject_Z (Z.pos m) * 2 ^ e)%Q as E by ring.
      by rewrite E in Hv. }
    unfold Py.round1. destruct (Py.half_even_tenths m e) as [|p|p] eqn:Ek; [| |lia].
    + exists 0. split; [reflexivity|].
      rewrite inject_signed. destruct s; [|done].
      rewrite <- Qabs_opp.
      assert (- (- inject_Z (Z.pos m) * 2 ^ e - inject_Z 0 / 10)
              == inject_Z (Z.pos m) * 2 ^ e - inject_Z 0 / 10)%Q as -> by field.
      done.
    + exists (signed s p). split.
      * apply SFdiv_is_double; [|reflexivity].
        apply Qabs_Qle_condition in Hk as [Hk1 Hk2].
        apply Qabs_Qle_condition in Hm as [Hm1 Hm2].
        rewrite Zlt_Qlt.
        assert (inject_Z (Z.pos p) <= 10 * two64 + 1)%Q as Hp.
        { unfold Qdiv in Hk1. change (/ 10)%Q with (1 # 10)%Q in Hk1.
          set (x := (inject_Z (Z.pos m) * 2 ^ e)%Q) in *. clearbody x.
          set (y := inject_Z (Z.pos p)) in *. clearbody y. lra. }
        eapply Qle_lt_trans; [exact Hp|]. reflexivity.
      * rewrite !inject_signed. destruct s; [|done].
        rewrite <- Qabs_opp.
        assert (- (- inject_Z (Z.pos m) * 2 ^ e - - inject_Z (Z.pos p) / 10)
                == inject_Z (Z.pos m) * 2 ^ e - inject_Z (Z.pos p) / 10)%Q
          as -> by field.
        done.
Qed.


End FloatFacts.

(** What [stats] reports for a column, given what the database owes. *)
Lemma Avg_reported {A} (L : Py.lib) (tol : Q) (field : A -> Z) (qs : list A) :
  (qs <> [] ->
   Spec.database_mean tol (map field qs) (Py.db_avg L (map field qs))) ->
  Spec.reported_mean tol (map field qs) (Py.round1 <$> Views.Avg L field qs).
Proof.
  destruct qs as [|x qs]; [done|]. intros H.
  destruct (H ltac:(done)) as (v & Hv & Hmag & Htol).
  destruct (round1_to_one_decimal _ v Hv Hmag) as (k & Hd & Hk).
  cbn [map Spec.reported_mean Views.Avg fmap option_fmap option_map].
  exists (Py.round1 (Py.db_avg L (field x :: map field qs))), k.
  split; [done|]. split; [done|].
  cbn [map] in Htol.
  set (mu := Spec.mean (field x :: map field qs)) in *. clearbody mu.
  set (d := (inject_Z k / 10)%Q) in *. clearbody d.
  apply Qabs_Qle_condition in Htol as [? ?].
  apply Qabs_Qle_condition in Hk as [? ?].
  apply Qabs_Qle_condition. split; lra.
Qed.

(** C7. [stats] aggregates the very queryset that [list] returns for the
    same request, and fails when [list] fails. The count is the number
    of readings listed; the least and the greatest bpm and the earliest
    and the latest [created_at] are attained bounds. Each of the two
    means is reported as the double for a decimal with one place,
    [k / 10], that lies within one twentieth of what the database
    returned as the average, hence within one twentieth and the
    tolerance of the database of the mean itself. On an empty queryset
    the count is 0 and every other field is null. *)
Theorem C7_stats_aggregates_the_listed_set
    (L : Py.lib) (now : Py.datetime) (db : Db) (request : Views.Request)
    (tol : Q) :
  (forall qs,
     Views.get_queryset L now db request = Ok qs ->
     qs <> [] ->
     Spec.database_mean tol (map Models.bpm qs)
       (Py.db_avg L (map Models.bpm qs))
     /\ Spec.database_mean tol (map Models.rr_interval qs)
          (Py.db_avg L (map Models.rr_interval qs))) ->
  match Views.get_queryset L now db request with
  | Raise e => Views.stats L now db request = Raise e
  | Ok qs =>
      exists s,
        Views.stats L now db request
        = Ok {| Views.body := Views.Aggregate s;
                Views.status := Views.HTTP_200_OK |}
        /\ Views.count s = Z.of_nat (length qs)
        /\ Spec.reported_mean tol (map Models.bpm qs) (Views.avg_bpm s)
        /\ Spec.reported_mean tol (map Models.rr_interval qs)
             (Views.avg_rr_interval s)
        /\ Views.least_of Models.bpm qs (Views.min_bpm s)
        /\ Views.greatest_of Models.bpm qs (Views.max_bpm s)
        /\ Views.least_of Models.created_at qs (Views.time_range_start s)
        /\ Views.greatest_of Models.created_at qs (Views.time_range_end s)
        /\ (qs = [] ->
            s = {| Views.count := 0;
                   Views.avg_bpm := None;
                   Views.min_bpm := None;
                   Views.max_bpm := None;
                   Views.avg_rr_interval := None;
                   Views.time_range_start := None;
                   Views.time_range_end := None |})
  end.
Proof.
  intros Hdb. unfold Views.stats. unfold_result.
  destruct (Views.get_queryset L now db request) as [qs|e]; [|done].
  specialize (Hdb qs eq_refl).
  eexists. split; [reflexivity|].
  cbn [Views.count Views.avg_bpm Views.min_bpm Views.max_bpm
       Views.avg_rr_interval Views.time_range_start Views.time_range_end
       Views.aggregate].
  rewrite !round_if_truthy_rounds.
  split; [done|].
  split; [apply Avg_reported; intros Hne; by destruct (Hdb Hne)|].
  split; [apply Avg_reported; intros Hne; by destruct (Hdb Hne)|].
  repeat split; auto using Min_least, Max_greatest.
  by intros ->.
Qed.

Lemma C7_witness :
  match
    Views.get_queryset Samples.query_lib Samples.now0 Samples.three_readings
      (Samples.request_minutes "5")
  with
  | Raise e =>
      Views.stats Samples.query_lib Samples.now0 Samples.three_readings
        (Samples.request_minutes "5") = Raise e
  | Ok qs =>
      exists s,
        Views.stats Samples.query_lib Samples.now0 Samples.three_readings
          (Samples.request_minutes "5")
        = Ok {| Views.body := Views.Aggregate s;
                Views.status := Views.HTTP_200_OK |}
        /\ Views.count s = Z.of_nat (length qs)
        /\ Spec.reported_mean 0 (map Models.bpm qs) (Views.avg_bpm s)
        /\ Spec.reported_mean 0 (map Models.rr_interval qs)
             (Views.avg_rr_interval s)
        /\ Views.least_of Models.bpm qs (Views.min_bpm s)
        /\ Views.greatest_of Models.bpm qs (Views.max_bpm s)
        /\ Views.least_of Models.created_at qs (Views.time_range_start s)
        /\ Views.greatest_of Models.created_at qs (Views.time_range_end s)
        /\ (qs = [] ->
            s = {| Views.count := 0;
                   Views.avg_bpm := None;
                   Views.min_bpm := None;
                   Views.max_bpm := None;
                   Views.avg_rr_interval := None;
                   Views.time_range_start := None;
                   Views.time_range_end := None |})
  end.
Proof.
  apply (C7_stats_aggregates_the_listed_set Samples.query_lib Samples.now0
           Samples.three_readings (Samples.request_minutes "5") 0).
  intros qs [= <-] _.
  split; (eexists; split; [reflexivity|]; split; vm_compute; discriminate).
Defined.

(** [stats()] on an empty store. *)
Example stats_on_empty_store :
  Views.stats Samples.query_lib Samples.now0
    Samples.empty_db {| Views.query_params := ∅ |}
  = Ok {| Views.body :=
            Views.Aggregate
              {| Views.count := 0;
                 Views.avg_bpm := None;
                 Views.min_bpm := None;
                 Views.max_bpm := None;
                 Views.avg_rr_interval := None;
                 Views.time_range_start := None;
                 Views.time_range_end := None |};
          Views.status := 200 |}.
Proof. reflexivity. Qed.

(** [stats(minutes=5)] over the three sample readings: the two recent
    ones count, with a mean bpm of 104.5 and a mean RR interval of
    521.0. *)
Example stats_five_minutes :
  Views.stats Samples.query_lib Samples.now0
    Samples.three_readings (Samples.request_minutes "5")
  = Ok {| Views.body :=
            Views.Aggregate
              {| Views.count := 2;
                 Views.avg_bpm := Some (Py.truediv 1045 10);
                 Views.min_bpm := Some 90;
                 Views.max_bpm := Some 119;
                 Views.avg_rr_interval := Some (Py.truediv 521 1);
                 Views.time_range_start :=
                   Some (Samples.now0 - 2 * Py.us_per_minute);
                 Views.time_range_end :=
                   Some (Samples.now0 - 1 * Py.us_per_minute) |};
          Views.status := 200 |}.
Proof. reflexivity. Qed.

(** C8. On a store with readings, [latest] answers 200 with a stored
    reading whose [created_at] no stored reading exceeds; on an empty
    store it answers 404 with a detail message. It raises nothing. *)
Theorem C8_latest_is_newest_or_not_found (db : Db) :
  match Models.rows db with
  | [] =>
      Views.latest db
      = {| Views.body := Views.Detail "No readings available";
           Views.status := 404 |}
  | _ :: _ =>
      exists r,
        Views.latest db
        = {| Views.body := Views.Reading (Views.HeartRateReadingSerializer r);
             Views.status := 200 |}
        /\ r ∈ Models.rows db
        /\ forall r', r' ∈ Models.rows db ->
                      Models.created_at r' <= Models.created_at r
  end.
Proof.
  unfold Views.latest.
  destruct (Views.first (Views.order_by_created_at_desc (Models.rows db)))
    as [r|] eqn:E.
  - destruct (first_of_sorted_is_newest _ _ E) as [Hin Hmax].
    destruct (Models.rows db) as [|x l] eqn:Er.
    + by apply elem_of_nil in Hin.
    + exists r. auto.
  - by rewrite (first_of_sorted_none _ E).
Qed.

(** [latest] over the three sample readings is the one stored a minute
    ago. *)
Example latest_of_three :
  Views.latest Samples.three_readings
  = {| Views.body :=
         Views.Reading
           (Views.HeartRateReadingSerializer (Samples.reading 2 1 119));
       Views.status := 200 |}.
Proof. reflexivity. Qed.

(* ================================================================== *)
(** * Properties of the producer's test mode *)
(* ================================================================== *)

Section ProducerFacts.

Import Producer.

(** ** Counting outcomes *)

Lemma weight_app {A} (p : A -> bool) (d1 d2 : Dist A) :
  weight p (d1 ++ d2) = (weight p d1 + weight p d2)%nat.
Proof. unfold weight. by rewrite filter_app, length_app. Qed.

Lemma weight_ret {A} (p : A -> bool) (a : A) :
  weight p (mret a) = if p a then 1%nat else 0%nat.
Proof.
  unfold weight, mret, list_ret. rewrite filter_cons.
  destruct (p a); by case_decide.
Qed.

Lemma weight_bind {A B} (p : B -> bool) (d : Dist A) (f : A -> Dist B) :
  weight p (d ≫= f) = sum_list (map (fun a => weight p (f a)) d).
Proof.
  induction d as [|a d IH]; [done|].
  change ((a :: d) ≫= f) with (f a ++ (d ≫= f)).
  rewrite weight_app, IH. reflexivity.
Qed.

Lemma sum_list_const {A} (l : list A) (k : nat) :
  sum_list (map (fun _ => k) l) = (length l * k)%nat.
Proof. induction l as [|a l IH]; simpl; [done|]. by rewrite IH. Qed.

Lemma sum_list_zero {A} (l : list A) (f : A -> nat) :
  (forall a, a ∈ l -> f a = 0%nat) -> sum_list (map f l) = 0%nat.
Proof.
  induction l as [|a l IH]; simpl; [done|]. intros H.
  rewrite (H a) by by left. rewrite IH; [done|].
  intros b Hb. apply H. by right.
Qed.

(** Over a list without repetition, the sum of [k] at [v] and 0
    elsewhere is [k] when [v] is in the list and 0 otherwise. *)
Lemma sum_list_indicator (l : list Z) (v : Z) (k : nat) :
  NoDup l ->
  sum_list (map (fun b => if b =? v then k else 0%nat) l)
  = if bool_decide (v ∈ l) then k else 0%nat.
Proof.
  induction 1 as [|a l Hnotin Hnd IH]; simpl; [done|].
  rewrite IH. destruct (Z.eqb_spec a v) as [->|Hne].
  - rewrite bool_decide_eq_false_2 by done.
    rewrite bool_decide_eq_true_2 by by left. lia.
  - case_bool_decide as Hin.
    + rewrite bool_decide_eq_true_2 by by right. done.
    + rewrite bool_decide_eq_false_2; [done|].
      intros [?|?]%elem_of_cons; congruence.
Qed.

Lemma in_range_seqZ (a b v : Z) :
  bool_decide (v ∈ seqZ a (b - a + 1)) = (a <=? v) && (v <=? b).
Proof.
  case_bool_decide as H; rewrite elem_of_seqZ in H; symmetry.
  - apply andb_true_iff. split; apply Z.leb_le; lia.
  - apply andb_false_iff.
    destruct (Z.leb_spec a v); [right | by left].
    apply Z.leb_gt. lia.
Qed.

(** The outcomes, spelled out. *)
Lemma generated_unfold clock :
  generated clock
  = seqZ 100 (120 - 100 + 1) ≫= fun bpm =>
    seqZ 500 (900 - 500 + 1) ≫= fun rr_interval =>
    mret {| hr_type := "HR"; tstamp := clock; bpm := bpm;
            rr_interval := rr_interval; energy := None |}.
Proof.
  exact (app_nil_r
           (seqZ 100 (120 - 100 + 1) ≫= fun bpm =>
            seqZ 500 (900 - 500 + 1) ≫= fun rr_interval =>
            mret {| hr_type := "HR"; tstamp := clock; bpm := bpm;
                    rr_interval := rr_interval; energy := None |})).
Qed.

Lemma generated_elem clock d :
  d ∈ generated clock <->
  exists b r, 100 <= b <= 120 /\ 500 <= r <= 900
    /\ d = {| hr_type := "HR"; tstamp := clock; bpm := b;
              rr_interval := r; energy := None |}.
Proof.
  rewrite generated_unfold. rewrite list_elem_of_bind. split.
  - intros (b & Hd & Hb). apply list_elem_of_bind in Hd as (r & Hd & Hr).
    apply list_elem_of_ret in Hd. rewrite elem_of_seqZ in Hb, Hr.
    exists b, r. repeat split; (lia || done).
  - intros (b & r & Hb & Hr & ->). exists b. split.
    + apply list_elem_of_bind. exists r. split.
      * by apply list_elem_of_ret.
      * rewrite elem_of_seqZ. lia.
    + rewrite elem_of_seqZ. lia.
Qed.

Lemma generated_length clock : length (generated clock) = (21 * 401)%nat.
Proof. reflexivity. Qed.

(** Each bpm of the range is the bpm of 401 of the 21 * 401 outcomes:
    one chance in 21. *)
Lemma generated_bpm_weight clock v :
  weight (fun d => bpm d =? v) (generated clock)
  = if (100 <=? v) && (v <=? 120) then 401%nat else 0%nat.
Proof.
  rewrite generated_unfold, weight_bind.
  rewrite <- in_range_seqZ, <- sum_list_indicator by apply NoDup_seqZ.
  f_equal. apply map_ext. intros b.
  rewrite weight_bind.
  rewrite (map_ext _ (fun _ => if b =? v then 1%nat else 0%nat))
    by (intros r; by rewrite weight_ret).
  rewrite sum_list_const, length_seqZ. by destruct (b =? v).
Qed.

(** Each RR interval of the range is the one of 21 of the 21 * 401
    outcomes: one chance in 401. *)
Lemma generated_rr_weight clock v :
  weight (fun d => rr_interval d =? v) (generated clock)
  = if (500 <=? v) && (v <=? 900) then 21%nat else 0%nat.
Proof.
  rewrite generated_unfold, weight_bind.
  rewrite (map_ext _ (fun _ => if (500 <=? v) && (v <=? 900)
                               then 1%nat else 0%nat)).
  - rewrite sum_list_const, length_seqZ.
    by destruct ((500 <=? v) && (v <=? 900)).
  - intros b. rewrite weight_bind.
    rewrite (map_ext _ (fun r => if r =? v then 1%nat else 0%nat))
      by (intros r; by rewrite weight_ret).
    rewrite sum_list_indicator by apply NoDup_seqZ.
    by rewrite in_range_seqZ.
Qed.

(** ** One run *)

Lemma SFleb_refl a b : SFleb a b = true -> SFleb a a = true.
Proof.
  unfold SFleb. destruct a as [s| s| |s m e]; simpl; try done.
  - by destruct s.
  - intros _. destruct s; rewrite Z.compare_refl, Pos.compare_cont_refl; done.
Qed.

Lemma lit_0_05_le_0_2 : SFleb lit_0_05 lit_0_2 = true.
Proof. reflexivity. Qed.

(** The literals are the floats nearest to 5/100 and 2/10. *)
Lemma lit_0_05_value : lit_0_05 = Py.truediv 5 100.
Proof. reflexivity. Qed.

Lemma lit_0_2_value : lit_0_2 = Py.truediv 2 10.
Proof. reflexivity. Qed.

Lemma run_test_mode_emissions {G} (R : random_module G) turns g :
  randint_contract R ->
  uniform_contract R ->
  exists es,
    run_test_mode R turns g = emissions es
    /\ map (fun e => tstamp (fst e)) es
       = map wall_clock_ns (turns_taken turns)
    /\ Forall (fun e =>
                 hr_type (fst e) = "HR"
                 /\ 100 <= bpm (fst e) <= 120
                 /\ 500 <= rr_interval (fst e) <= 900
                 /\ energy (fst e) = None
                 /\ float_between lit_0_05 lit_0_2 (snd e) = true) es.
Proof.
  intros Hint Huni. revert g.
  induction turns as [|t turns IH]; intros g.
  - exists []. by repeat split.
  - simpl. unfold generate_random_hr_data, mbind, Run_bind, mret, Run_ret.
    simpl.
    pose proof (Hint 100 120 g ltac:(lia)) as Hb.
    destruct (random_randint R 100 120 g) as [b g1].
    pose proof (Hint 500 900 g1 ltac:(lia)) as Hr.
    destruct (random_randint R 500 900 g1) as [r g2].
    pose proof (Huni lit_0_05 lit_0_2 g2 lit_0_05_le_0_2) as Hs.
    destruct (random_uniform R lit_0_05 lit_0_2 g2) as [s g3].
    simpl in Hb, Hr, Hs.
    destruct (quit_set t).
    + exists [({| hr_type := "HR"; tstamp := wall_clock_ns t; bpm := b;
                  rr_interval := r; energy := None |}, s)].
      split; [done|]. split; [done|].
      constructor; [simpl; repeat split; (done || lia) | constructor].
    + destruct (IH g3) as (es & -> & Hts & Hall).
      exists (({| hr_type := "HR"; tstamp := wall_clock_ns t; bpm := b;
                  rr_interval := r; energy := None |}, s) :: es).
      split; [done|]. split; [simpl; by rewrite Hts|].
      constructor; [simpl; repeat split; (done || lia) | done].
Qed.

End ProducerFacts.

Lemma counter_randint_contract : Producer.randint_contract Samples.counter.
Proof.
  intros a b g Hab. simpl.
  pose proof (Z.mod_pos_bound g (b - a + 1)). lia.
Qed.

Lemma counter_uniform_contract : Producer.uniform_contract Samples.counter.
Proof.
  intros a b g Hab. unfold Producer.float_between. simpl.
  by rewrite (SFleb_refl a b Hab), Hab.
Qed.

(** C9. In test mode, (1) as a distribution, the generated event has
    each bpm from 100 to 120 with the same weight (401 outcomes of
    21 * 401) and no other bpm, each RR interval from 500 to 900 with
    the same weight (21 outcomes) and no other, and always the tag HR,
    the reading of the clock in nanoseconds as timestamp and no energy;
    (2) in a run, given the contracts of [random.randint] and
    [random.uniform], the loop does nothing but emit an event and then
    sleep, turn after turn: the events carry the wall clock of their
    turn, a bpm in [100,120], an RR interval in [500,900] and no energy,
    and the sleep after each, which separates it from the next, is asked
    for a duration between the floats 0.05 and 0.2 (seconds). *)
Theorem C9_test_mode_events
    {G : Type} (R : Producer.random_module G) (turns : list Producer.Turn)
    (g : G) (clock v : Z) :
  Producer.randint_contract R ->
  Producer.uniform_contract R ->
  (length (Producer.generated clock) = (21 * 401)%nat
   /\ Producer.weight (fun d => Producer.bpm d =? v) (Producer.generated clock)
      = (if (100 <=? v) && (v <=? 120) then 401%nat else 0%nat)
   /\ Producer.weight (fun d => Producer.rr_interval d =? v)
        (Producer.generated clock)
      = (if (500 <=? v) && (v <=? 900) then 21%nat else 0%nat)
   /\ forall d, d ∈ Producer.generated clock ->
        Producer.hr_type d = "HR"
        /\ Producer.tstamp d = clock
        /\ Producer.energy d = None)
  /\ exists es,
       Producer.run_test_mode R turns g = Producer.emissions es
       /\ map (fun e => Producer.tstamp (fst e)) es
          = map Producer.wall_clock_ns (Producer.turns_taken turns)
       /\ Forall (fun e =>
                    Producer.hr_type (fst e) = "HR"
                    /\ 100 <= Producer.bpm (fst e) <= 120
                    /\ 500 <= Producer.rr_interval (fst e) <= 900
                    /\ Producer.energy (fst e) = None
                    /\ Producer.float_between Producer.lit_0_05
                         Producer.lit_0_2 (snd e) = true) es.
Proof.
  intros Hint Huni. split.
  - split; [apply generated_length|].
    split; [apply generated_bpm_weight|].
    split; [apply generated_rr_weight|].
    intros d (b & r & _ & _ & ->)%generated_elem. done.
  - by apply run_test_mode_emissions.
Qed.

Lemma C9_witness :
  (length (Producer.generated 1766417260747938000) = (21 * 401)%nat
   /\ Producer.weight (fun d => Producer.bpm d =? 110)
        (Producer.generated 1766417260747938000)
      = (if (100 <=? 110) && (110 <=? 120) then 401%nat else 0%nat)
   /\ Producer.weight (fun d => Producer.rr_interval d =? 110)
        (Producer.generated 1766417260747938000)
      = (if (500 <=? 110) && (110 <=? 900) then 21%nat else 0%nat)
   /\ forall d, d ∈ Producer.generated 1766417260747938000 ->
        Producer.hr_type d = "HR"
        /\ Producer.tstamp d = 1766417260747938000
        /\ Producer.energy d = None)
  /\ exists es,
       Producer.run_test_mode Samples.counter Samples.two_turns 7
       = Producer.emissions es
       /\ map (fun e => Producer.tstamp (fst e)) es
          = map Producer.wall_clock_ns (Producer.turns_taken Samples.two_turns)
       /\ Forall (fun e =>
                    Producer.hr_type (fst e) = "HR"
                    /\ 100 <= Producer.bpm (fst e) <= 120
                    /\ 500 <= Producer.rr_interval (fst e) <= 900
                    /\ Producer.energy (fst e) = None
                    /\ Producer.float_between Producer.lit_0_05
                         Producer.lit_0_2 (snd e) = true) es.
Proof.
  apply (C9_test_mode_events Samples.counter Samples.two_turns 7
           1766417260747938000 110).
  - exact counter_randint_contract.
  - exact counter_uniform_contract.
Defined.

(** The run of the sample generator over two turns, the second one
    ending with the quit event set. *)
Example run_two_turns :
  Producer.run_test_mode Samples.counter Samples.two_turns 7
  = [Producer.Callback
       {| Producer.hr_type := "HR";
          Producer.tstamp := 1766417260747938000;
          Producer.bpm := 107;
          Producer.rr_interval := 508;
          Producer.energy := None |};
     Producer.Sleep Producer.lit_0_05;
     Producer.Callback
       {| Producer.hr_type := "HR";
          Producer.tstamp := 1766417260847938000;
          Producer.bpm := 110;
          Producer.rr_interval := 511;
          Producer.energy := None |};
     Producer.Sleep Producer.lit_0_05].
Proof. reflexivity. Qed.

(* ================================================================== *)
(** * The pipeline end to end *)
(* ================================================================== *)

(** The message
    [{"type":"HR","timestamp":1766417260747938000,"bpm":119,
      "rr_interval":521,"energy":null}]
    on an empty store: one reading is written, [latest] returns it and
    [stats] reports one reading with both means rounded. *)
Example end_to_end :
  let L := Samples.hr_521_lib in
  let w := SubscribeHr.run L Samples.storage_up Samples.hr_521_message
             Samples.fresh in
  let r := {| Models.id := 1;
              Models.sensor_timestamp := 1766417260747938000;
              Models.bpm := 119;
              Models.rr_interval := 521;
              Models.energy := None;
              Models.created_at := Samples.now0 |} in
  Models.rows (SubscribeHr.db w) = [r]
  /\ Views.latest (SubscribeHr.db w)
     = {| Views.body := Views.Reading (Views.HeartRateReadingSerializer r);
          Views.status := 200 |}
  /\ Views.stats L Samples.now0 (SubscribeHr.db w) {| Views.query_params := ∅ |}
     = Ok {| Views.body :=
               Views.Aggregate
                 {| Views.count := 1;
                    Views.avg_bpm := Some (Py.truediv 119 1);
                    Views.min_bpm := Some 119;
                    Views.max_bpm := Some 119;
                    Views.avg_rr_interval := Some (Py.truediv 521 1);
                    Views.time_range_start := Some Samples.now0;
                    Views.time_range_end := Some Samples.now0 |};
             Views.status := 200 |}.
Proof. repeat split. Qed.

(* ================================================================== *)
(** * More on the consumer *)
(* ================================================================== *)

Lemma prepare_row_ok L env db ts b rr en r :
  Models.prepare_row L env db ts b rr en = Ok r ->
  Models.id r = Models.next_id db /\ Models.created_at r = Models.now env.
Proof.
  unfold Models.prepare_row. unfold_result.
  repeat match goal with
         | |- context [match ?x with Ok _ => _ | Raise _ => _ end] =>
             destruct x; try discriminate
         end.
  by intros [= <-].
Qed.

(** A successful [create] appends one row, keyed by the next key and
    stamped with the clock. *)
Lemma objects_create_ok L env db ts b rr en r db' :
  Models.objects_create L env db ts b rr en = Ok (r, db') ->
  Models.id r = Models.next_id db
  /\ Models.created_at r = Models.now env
  /\ Models.rows db' = Models.rows db ++ [r]
  /\ Models.next_id db' = Models.next_id db + 1.
Proof.
  unfold Models.objects_create. unfold_result.
  destruct (Models.prepare_row L env db ts b rr en) as [r0|] eqn:E;
    [|discriminate].
  destruct (Models.insert_fault env); [discriminate|].
  intros [= <- <-]. apply prepare_row_ok in E as [? ?]. by repeat split.
Qed.

(** What a call leaves in the table: nothing new, or the one row that
    [create] wrote. *)
Lemma run_table_cases L env message w :
  SubscribeHr.db (SubscribeHr.run L env message w) = SubscribeHr.db w
  \/ exists ts b rr en r,
       Models.objects_create L env (SubscribeHr.db w) ts b rr en
       = Ok (r, SubscribeHr.db (SubscribeHr.run L env message w)).
Proof.
  destruct (Py.decode_utf8 (SubscribeHr.data message)) as [text|e] eqn:E1.
  2: { rewrite (run_not_utf8 L env message w e E1). by left. }
  destruct (Py.json_loads L text) as [v|e] eqn:E2.
  2: { rewrite (run_loads_raises L env message w text e E1 E2). by left. }
  destruct v as [| b | z | f | s | l | d];
    try (rewrite (run_not_dict L env message w text _ E1 E2) by discriminate;
         by left).
  destruct (Py.eq_str (Py.dict_get d "type") "HR") eqn:Et.
  2: { rewrite (run_not_hr L env message w text d E1 E2 Et). by left. }
  destruct (Py.is_none (Py.dict_get d "timestamp")
            || Py.is_none (Py.dict_get d "bpm")) eqn:Em.
  { rewrite (run_invalid L env message w text d E1 E2 Et Em). by left. }
  rewrite (run_valid L env message w text d E1 E2 Et Em).
  destruct (Models.objects_create _ _ _ _ _ _ _) as [[r db']|e] eqn:Ec.
  - right. by do 5 eexists.
  - by left.
Qed.

(** The consumer only ever appends: after any message, a table with
    distinct keys below its next key is still such a table, the rows it
    had are all there, in place and unchanged, followed by at most one
    new row, and the next key has not gone down. *)
Theorem consumer_only_appends
    (L : Py.lib) (env : Env) (message : SubscribeHr.Message)
    (w : SubscribeHr.World) :
  Notions.table_ok (SubscribeHr.db w) ->
  Notions.table_ok (SubscribeHr.db (SubscribeHr.run L env message w))
  /\ (exists added,
        Models.rows (SubscribeHr.db (SubscribeHr.run L env message w))
        = Models.rows (SubscribeHr.db w) ++ added
        /\ (length added <= 1)%nat)
  /\ Models.next_id (SubscribeHr.db w)
     <= Models.next_id (SubscribeHr.db (SubscribeHr.run L env message w)).
Proof.
  intros [Hnd Hlt].
  destruct (run_table_cases L env message w)
    as [->|(ts & b & rr & en & r & Hc)].
  - split; [by split|]. split; [|lia].
    exists []. rewrite app_nil_r. split; [done | simpl; lia].
  - apply objects_create_ok in Hc as (Hid & _ & Hrows & Hnext).
    rewrite Hnext. split; [|split].
    + split.
      * rewrite Hrows, map_app. simpl.
        apply NoDup_app. split; [done|]. split; [|apply NoDup_singleton].
        intros x Hx ->%list_elem_of_singleton.
        apply list_elem_of_In, in_map_iff in Hx as (r' & Hr' & Hin).
        rewrite Forall_forall in Hlt.
        apply list_elem_of_In in Hin. specialize (Hlt r' Hin). lia.
      * rewrite Hrows, Hnext. apply Forall_app. split.
        -- eapply Forall_impl; [exact Hlt|]. simpl. lia.
        -- constructor; [lia | constructor].
    + exists [r]. split; [done | simpl; lia].
    + lia.
Qed.

Lemma consumer_only_appends_witness :
  Notions.table_ok
    (SubscribeHr.db
       (SubscribeHr.run Samples.hr_lib Samples.storage_up Samples.hr_message
          MoreSamples.stocked))
  /\ (exists added,
        Models.rows
          (SubscribeHr.db
             (SubscribeHr.run Samples.hr_lib Samples.storage_up
                Samples.hr_message MoreSamples.stocked))
        = Models.rows (SubscribeHr.db MoreSamples.stocked) ++ added
        /\ (length added <= 1)%nat)
  /\ Models.next_id (SubscribeHr.db MoreSamples.stocked)
     <= Models.next_id
          (SubscribeHr.db
             (SubscribeHr.run Samples.hr_lib Samples.storage_up
                Samples.hr_message MoreSamples.stocked)).
Proof.
  apply (consumer_only_appends Samples.hr_lib Samples.storage_up
           Samples.hr_message MoreSamples.stocked).
  split.
  - vm_compute. apply (bool_decide_unpack _). by vm_compute.
  - repeat constructor.
Defined.

(** A complete HR object whose fields the columns accept, with a
    storage that takes the write: the row is written and the message
    acknowledged. *)
Lemma run_stores L env message w text d ts b rr en :
  Py.decode_utf8 (SubscribeHr.data message) = Ok text ->
  Py.json_loads L text = Ok (VDict d) ->
  Py.dict_get d "type" = VStr "HR" ->
  Models.IntegerField_prep L (Py.dict_get d "timestamp") = Ok (Some ts) ->
  Models.IntegerField_prep L (Py.dict_get d "bpm") = Ok (Some b) ->
  Models.IntegerField_prep L
    (SubscribeHr.rr_for_create (Py.dict_get d "rr_interval")) = Ok (Some rr) ->
  Models.FloatField_prep L (Py.dict_get d "energy") = Ok en ->
  Models.insert_fault env = None ->
  let r :=
    {| Models.id := Models.next_id (SubscribeHr.db w);
       Models.sensor_timestamp := ts;
       Models.bpm := b;
       Models.rr_interval := rr;
       Models.energy := en;
       Models.created_at := Models.now env |} in
  SubscribeHr.run L env message w
  = SubscribeHr.after w
      {| Models.rows := Models.rows (SubscribeHr.db w) ++ [r];
         Models.next_id := Models.next_id (SubscribeHr.db w) + 1 |}
      [SubscribeHr.Insert r;
       SubscribeHr.Stdout
         (SubscribeHr.Saved (Py.dict_get d "bpm")
            (SubscribeHr.rr_for_create (Py.dict_get d "rr_interval"))
            (Models.id r));
       SubscribeHr.Ack].
Proof.
  intros H1 H2 Ht Hts Hb Hrr Hen Hf r.
  rewrite (run_valid L env message w text d H1 H2).
  - unfold Models.objects_create, Models.prepare_row.
    rewrite Hts, Hb, Hrr, Hen, Hf. reflexivity.
  - by apply eq_str_true.
  - apply orb_false_iff. split; apply is_none_false; intros E;
      rewrite E in *; discriminate.
Qed.

(** The consumer does not recognise a message it has already stored: a
    storable HR message delivered twice is stored twice, as two rows
    with consecutive keys that carry the same reading, and it is
    acknowledged both times. *)
Theorem redelivery_stores_the_reading_again
    (L : Py.lib) (env1 env2 : Env) (message : SubscribeHr.Message)
    (w : SubscribeHr.World) (text : string) (d : gmap string val)
    (ts b rr : Z) (en : option Py.float) :
  Py.decode_utf8 (SubscribeHr.data message) = Ok text ->
  Py.json_loads L text = Ok (VDict d) ->
  Py.dict_get d "type" = VStr "HR" ->
  Models.IntegerField_prep L (Py.dict_get d "timestamp") = Ok (Some ts) ->
  Models.IntegerField_prep L (Py.dict_get d "bpm") = Ok (Some b) ->
  Models.IntegerField_prep L
    (SubscribeHr.rr_for_create (Py.dict_get d "rr_interval")) = Ok (Some rr) ->
  Models.FloatField_prep L (Py.dict_get d "energy") = Ok en ->
  Models.insert_fault env1 = None ->
  Models.insert_fault env2 = None ->
  exists r1 r2 line1 line2,
    SubscribeHr.run L env2 message (SubscribeHr.run L env1 message w)
    = SubscribeHr.after w
        {| Models.rows := Models.rows (SubscribeHr.db w) ++ [r1; r2];
           Models.next_id := Models.next_id (SubscribeHr.db w) + 2 |}
        [SubscribeHr.Insert r1; SubscribeHr.Stdout line1; SubscribeHr.Ack;
         SubscribeHr.Insert r2; SubscribeHr.Stdout line2; SubscribeHr.Ack]
    /\ Notions.same_reading r1 r2
    /\ Models.id r1 = Models.next_id (SubscribeHr.db w)
    /\ Models.id r2 = Models.id r1 + 1
    /\ Models.created_at r1 = Models.now env1
    /\ Models.created_at r2 = Models.now env2.
Proof.
  intros H1 H2 Ht Hts Hb Hrr Hen Hf1 Hf2.
  rewrite (run_stores L env1 message w text d ts b rr en) by done.
  rewrite (run_stores L env2 message _ text d ts b rr en) by done.
  cbv zeta. unfold SubscribeHr.after. simpl.
  rewrite <- !app_assoc. simpl.
  replace (Models.next_id (SubscribeHr.db w) + 1 + 1)
    with (Models.next_id (SubscribeHr.db w) + 2) by lia.
  do 4 eexists. split; [reflexivity|]. by repeat split.
Qed.

Lemma redelivery_witness :
  exists r1 r2 line1 line2,
    SubscribeHr.run Samples.hr_lib MoreSamples.storage_up_later
      Samples.hr_message
      (SubscribeHr.run Samples.hr_lib Samples.storage_up Samples.hr_message
         Samples.fresh)
    = SubscribeHr.after Samples.fresh
        {| Models.rows := Models.rows (SubscribeHr.db Samples.fresh) ++ [r1; r2];
           Models.next_id := Models.next_id (SubscribeHr.db Samples.fresh) + 2 |}
        [SubscribeHr.Insert r1; SubscribeHr.Stdout line1; SubscribeHr.Ack;
         SubscribeHr.Insert r2; SubscribeHr.Stdout line2; SubscribeHr.Ack]
    /\ Notions.same_reading r1 r2
    /\ Models.id r1 = Models.next_id (SubscribeHr.db Samples.fresh)
    /\ Models.id r2 = Models.id r1 + 1
    /\ Models.created_at r1 = Models.now Samples.storage_up
    /\ Models.created_at r2 = Models.now MoreSamples.storage_up_later.
Proof.
  apply (redelivery_stores_the_reading_again Samples.hr_lib
           Samples.storage_up MoreSamples.storage_up_later Samples.hr_message
           Samples.fresh (string_of_list_byte Samples.hr_text)
           Samples.hr_event 1766417260747938000 119 700 None);
    reflexivity.
Defined.

Lemma dict_get_none (d : gmap string val) key :
  Py.dict_get d key = VNone <-> d !! key = None \/ d !! key = Some VNone.
Proof.
  unfold Py.dict_get. destruct (d !! key) as [v|]; simpl.
  - split; [intros ->; by right | intros [?|[= ->]]; done].
  - split; [by left | done].
Qed.

Lemma after_inj w db1 db2 new1 new2 :
  SubscribeHr.after w db1 new1 = SubscribeHr.after w db2 new2 ->
  db1 = db2 /\ new1 = new2.
Proof.
  unfold SubscribeHr.after. intros [= -> H%app_inv_head]. done.
Qed.

(** A required field that is null counts as missing, and nothing else
    does: an HR object takes the missing-field exit (the line with the
    whole object, one acknowledgement, no write) exactly when
    [timestamp] or [bpm] is absent or null. A zero, [false], an empty
    string or a list in their place goes on to the write. *)
Theorem missing_means_absent_or_null
    (L : Py.lib) (env : Env) (message : SubscribeHr.Message)
    (w : SubscribeHr.World) (text : string) (d : gmap string val) :
  Py.decode_utf8 (SubscribeHr.data message) = Ok text ->
  Py.json_loads L text = Ok (VDict d) ->
  Py.dict_get d "type" = VStr "HR" ->
  let missing key := d !! key = None \/ d !! key = Some VNone in
  SubscribeHr.run L env message w
  = SubscribeHr.after w (SubscribeHr.db w)
      [SubscribeHr.Stdout (SubscribeHr.InvalidMessage (VDict d));
       SubscribeHr.Ack]
  <-> missing "timestamp" \/ missing "bpm".
Proof.
  intros H1 H2 Ht missing. subst missing. cbv beta.
  rewrite <- !dict_get_none, <- !is_none_true, <- orb_true_iff.
  apply eq_str_true in Ht.
  destruct (Py.is_none (Py.dict_get d "timestamp")
            || Py.is_none (Py.dict_get d "bpm")) eqn:Em.
  - split; [done|]. intros _. by apply (run_invalid L env message w text d).
  - split; [|done]. rewrite (run_valid L env message w text d H1 H2 Ht Em).
    destruct (Models.objects_create _ _ _ _ _ _ _) as [[r db']|e];
      intros [_ [=]]%after_inj.
Qed.

Lemma missing_means_absent_or_null_witness :
  SubscribeHr.run MoreSamples.null_timestamp_lib Samples.storage_up
    MoreSamples.null_timestamp_message Samples.fresh
  = SubscribeHr.after Samples.fresh (SubscribeHr.db Samples.fresh)
      [SubscribeHr.Stdout
         (SubscribeHr.InvalidMessage (VDict MoreSamples.null_timestamp_event));
       SubscribeHr.Ack]
  <-> (MoreSamples.null_timestamp_event !! "timestamp" = None
       \/ MoreSamples.null_timestamp_event !! "timestamp" = Some VNone)
      \/ (MoreSamples.null_timestamp_event !! "bpm" = None
          \/ MoreSamples.null_timestamp_event !! "bpm" = Some VNone).
Proof.
  apply (missing_means_absent_or_null MoreSamples.null_timestamp_lib
           Samples.storage_up MoreSamples.null_timestamp_message
           Samples.fresh
           (string_of_list_byte MoreSamples.null_timestamp_text)
           MoreSamples.null_timestamp_event);
    reflexivity.
Defined.

Lemma rr_for_create_or rr :
  SubscribeHr.rr_for_create rr
  = Py.or_ (SubscribeHr.first_or_zero rr) (VInt 0).
Proof. by destruct rr. Qed.

(** After the [or 0] nothing is left of a null. *)
Lemma rr_for_create_not_none rr : SubscribeHr.rr_for_create rr <> VNone.
Proof.
  rewrite rr_for_create_or. unfold Py.or_.
  destruct (Py.truthy (SubscribeHr.first_or_zero rr)) eqn:E; [|done].
  intros H. by rewrite H in E.
Qed.

(** Whatever is falsy in the place of [rr_interval] is stored as 0:
    null, [false], 0, 0.0, an empty string, list or object, as the
    value itself or as the first element of a list. The line on
    [stdout] shows the 0 as well. *)
Theorem falsy_rr_interval_is_stored_as_zero
    (L : Py.lib) (env : Env) (message : SubscribeHr.Message)
    (w : SubscribeHr.World) (text : string) (d : gmap string val)
    (ts b : Z) (en : option Py.float) :
  Py.decode_utf8 (SubscribeHr.data message) = Ok text ->
  Py.json_loads L text = Ok (VDict d) ->
  Py.dict_get d "type" = VStr "HR" ->
  Models.IntegerField_prep L (Py.dict_get d "timestamp") = Ok (Some ts) ->
  Models.IntegerField_prep L (Py.dict_get d "bpm") = Ok (Some b) ->
  Models.FloatField_prep L (Py.dict_get d "energy") = Ok en ->
  Models.insert_fault env = None ->
  Py.truthy (SubscribeHr.first_or_zero (Py.dict_get d "rr_interval"))
  = false ->
  let r :=
    {| Models.id := Models.next_id (SubscribeHr.db w);
       Models.sensor_timestamp := ts;
       Models.bpm := b;
       Models.rr_interval := 0;
       Models.energy := en;
       Models.created_at := Models.now env |} in
  SubscribeHr.run L env message w
  = SubscribeHr.after w
      {| Models.rows := Models.rows (SubscribeHr.db w) ++ [r];
         Models.next_id := Models.next_id (SubscribeHr.db w) + 1 |}
      [SubscribeHr.Insert r;
       SubscribeHr.Stdout
         (SubscribeHr.Saved (Py.dict_get d "bpm") (VInt 0) (Models.id r));
       SubscribeHr.Ack].
Proof.
  intros H1 H2 Ht Hts Hb Hen Hf Hrr r.
  assert (SubscribeHr.rr_for_create (Py.dict_get d "rr_interval") = VInt 0)
    as E by (rewrite rr_for_create_or; unfold Py.or_; by rewrite Hrr).
  rewrite (run_stores L env message w text d ts b 0 en) by
    (try done; by rewrite E).
  by rewrite E.
Qed.

Lemma falsy_rr_interval_witness :
  let r :=
    {| Models.id := 1;
       Models.sensor_timestamp := 0;
       Models.bpm := 0;
       Models.rr_interval := 0;
       Models.energy := None;
       Models.created_at := Samples.now0 |} in
  SubscribeHr.run MoreSamples.zero_bpm_lib Samples.storage_up
    MoreSamples.zero_bpm_message Samples.fresh
  = SubscribeHr.after Samples.fresh
      {| Models.rows := [r]; Models.next_id := 2 |}
      [SubscribeHr.Insert r;
       SubscribeHr.Stdout (SubscribeHr.Saved (VInt 0) (VInt 0) 1);
       SubscribeHr.Ack].
Proof.
  apply (falsy_rr_interval_is_stored_as_zero MoreSamples.zero_bpm_lib
           Samples.storage_up MoreSamples.zero_bpm_message Samples.fresh
           (string_of_list_byte MoreSamples.zero_bpm_text)
           MoreSamples.zero_bpm_event 0 0 None);
    reflexivity.
Defined.

(** [rr_interval] is optional, but not free: when [timestamp] and [bpm]
    are fine and what stands for [rr_interval], after the first-of-list
    and the [or 0], cannot be read as an integer (a list inside the
    list, an object, a word), the write raises, the message is
    negatively acknowledged and nothing is stored. *)
Theorem unreadable_rr_interval_is_nacked
    (L : Py.lib) (env : Env) (message : SubscribeHr.Message)
    (w : SubscribeHr.World) (text : string) (d : gmap string val)
    (ts b : Z) (e : exn) :
  Py.decode_utf8 (SubscribeHr.data message) = Ok text ->
  Py.json_loads L text = Ok (VDict d) ->
  Py.dict_get d "type" = VStr "HR" ->
  Models.IntegerField_prep L (Py.dict_get d "timestamp") = Ok (Some ts) ->
  Models.IntegerField_prep L (Py.dict_get d "bpm") = Ok (Some b) ->
  Py.int L (SubscribeHr.rr_for_create (Py.dict_get d "rr_interval"))
  = Raise e ->
  SubscribeHr.run L env message w
  = SubscribeHr.after w (SubscribeHr.db w)
      [SubscribeHr.Stdout (SubscribeHr.ErrorProcessing e); SubscribeHr.Nack].
Proof.
  intros H1 H2 Ht Hts Hb Hrr.
  rewrite (run_valid L env message w text d H1 H2).
  - unfold Models.objects_create, Models.prepare_row.
    rewrite Hts, Hb. unfold_result.
    assert (Models.IntegerField_prep L
              (SubscribeHr.rr_for_create (Py.dict_get d "rr_interval"))
            = Raise e) as ->; [|done].
    pose proof (rr_for_create_not_none (Py.dict_get d "rr_interval")) as Hn.
    unfold Models.IntegerField_prep. unfold_result.
    destruct (SubscribeHr.rr_for_create _); [done | ..];
      simpl in Hrr; simpl; rewrite ?Hrr; congruence.
  - by apply eq_str_true.
  - apply orb_false_iff. split; apply is_none_false; intros E;
      rewrite E in *; discriminate.
Qed.

Lemma unreadable_rr_interval_witness :
  SubscribeHr.run MoreSamples.nested_rr_lib Samples.storage_up
    MoreSamples.nested_rr_message Samples.fresh
  = SubscribeHr.after Samples.fresh (SubscribeHr.db Samples.fresh)
      [SubscribeHr.Stdout (SubscribeHr.ErrorProcessing TypeError);
       SubscribeHr.Nack].
Proof.
  apply (unreadable_rr_interval_is_nacked MoreSamples.nested_rr_lib
           Samples.storage_up MoreSamples.nested_rr_message Samples.fresh
           (string_of_list_byte MoreSamples.nested_rr_text)
           MoreSamples.nested_rr_event 1 80 TypeError);
    reflexivity.
Defined.

(* ================================================================== *)
(** * More on the views *)
(* ================================================================== *)

(** When [list] returns for an integer window, the cutoff is the clock
    minus the window, whatever the sign of the window. *)
Lemma get_queryset_window_inv L now db request s w qs :
  Views.query_params request !! "minutes" = Some s ->
  s <> "" ->
  Py.int_of_str L s = Some w ->
  Views.get_queryset L now db request = Ok qs ->
  qs = Views.order_by_created_at_desc
         (Views.filter_created_at_gte (now - w * Py.us_per_minute)
            (Models.rows db)).
Proof.
  intros Hq Hs Hi. unfold Views.get_queryset. rewrite Hq.
  apply String.eqb_neq in Hs. rewrite Hs. simpl. rewrite Hi.
  unfold_result. simpl.
  unfold Py.timedelta_minutes. destruct (_ && _); simpl; [|discriminate].
  unfold Py.datetime_sub. destruct (_ && _); simpl; [|discriminate].
  by intros [= <-].
Qed.

Lemma in_window L now db request s w qs r :
  Views.query_params request !! "minutes" = Some s ->
  s <> "" ->
  Py.int_of_str L s = Some w ->
  Views.get_queryset L now db request = Ok qs ->
  r ∈ qs <->
  r ∈ Models.rows db /\ now - w * Py.us_per_minute <= Models.created_at r.
Proof.
  intros Hq Hs Hi Hg.
  rewrite (get_queryset_window_inv L now db request s w qs Hq Hs Hi Hg).
  rewrite order_by_perm. unfold Views.filter_created_at_gte.
  by rewrite list_elem_of_filter, (and_comm (_ <= _)).
Qed.

(** Whatever the request, [list] returns stored readings only, and each
    of them at most as often as it is stored. *)
Lemma get_queryset_of_rows L now db request qs :
  Views.get_queryset L now db request = Ok qs ->
  (length qs <= length (Models.rows db))%nat
  /\ forall r, r ∈ qs -> r ∈ Models.rows db.
Proof.
  unfold Views.get_queryset. unfold_result.
  assert (forall l : list HeartRateReading,
            l = Models.rows db
            \/ (exists c, l = Views.filter_created_at_gte c (Models.rows db)) ->
            (length (Views.order_by_created_at_desc l)
             <= length (Models.rows db))%nat
            /\ forall r, r ∈ Views.order_by_created_at_desc l ->
                         r ∈ Models.rows db) as Hsub.
  { intros l Hl. rewrite order_by_perm. split.
    - destruct Hl as [->|[c ->]]; [done|]. apply length_filter.
    - intros r. rewrite order_by_perm.
      destruct Hl as [->|[c ->]]; [done|].
      unfold Views.filter_created_at_gte. rewrite list_elem_of_filter. tauto. }
  destruct (Views.query_params request !! "minutes") as [s|];
    [|intros [= <-]; apply Hsub; by left].
  destruct (negb (s =? "")%string); [|intros [= <-]; apply Hsub; by left].
  destruct (Py.int_of_str L s) as [w|]; simpl;
    [|intros [= <-]; apply Hsub; by left].
  destruct (Py.timedelta_minutes w) as [td|e]; simpl;
    [|destruct (Py.is_ValueError e); [|discriminate];
      intros [= <-]; apply Hsub; by left].
  destruct (Py.datetime_sub now td) as [c|e]; simpl;
    [|destruct (Py.is_ValueError e); [|discriminate];
      intros [= <-]; apply Hsub; by left].
  intros [= <-]. apply Hsub. right. by exists c.
Qed.

(** A longer window never loses a reading: for the same clock and
    table, what [list] returns for [w1] minutes is among what it
    returns for any [w2 >= w1] minutes. *)
Theorem wider_window_lists_no_less
    (L : Py.lib) (now : Py.datetime) (db : Db)
    (request1 request2 : Views.Request) (s1 s2 : string) (w1 w2 : Z)
    (qs1 qs2 : list HeartRateReading) :
  Views.query_params request1 !! "minutes" = Some s1 ->
  Views.query_params request2 !! "minutes" = Some s2 ->
  s1 <> "" ->
  s2 <> "" ->
  Py.int_of_str L s1 = Some w1 ->
  Py.int_of_str L s2 = Some w2 ->
  w1 <= w2 ->
  Views.get_queryset L now db request1 = Ok qs1 ->
  Views.get_queryset L now db request2 = Ok qs2 ->
  (forall r, r ∈ qs1 -> r ∈ qs2) /\ (length qs1 <= length qs2)%nat.
Proof.
  intros Hq1 Hq2 Hs1 Hs2 Hi1 Hi2 Hle Hg1 Hg2.
  assert (now - w2 * Py.us_per_minute <= now - w1 * Py.us_per_minute)
    as Hc by (unfold Py.us_per_minute; lia).
  split.
  - intros r.
    rewrite (in_window L now db request1 s1 w1 qs1) by done.
    rewrite (in_window L now db request2 s2 w2 qs2) by done.
    intros [? ?]. split; [done | lia].
  - rewrite (get_queryset_window_inv L now db request1 s1 w1 qs1) by done.
    rewrite (get_queryset_window_inv L now db request2 s2 w2 qs2) by done.
    rewrite !order_by_perm. unfold Views.filter_created_at_gte.
    induction (Models.rows db) as [|x l IH]; [done|].
    rewrite !filter_cons.
    destruct (decide (now - w1 * Py.us_per_minute <= Models.created_at x));
      destruct (decide (now - w2 * Py.us_per_minute <= Models.created_at x));
      simpl; lia.
Qed.

Lemma wider_window_witness :
  (forall r,
     r ∈ [Samples.reading 2 1 119; Samples.reading 3 2 90] ->
     r ∈ [Samples.reading 2 1 119; Samples.reading 3 2 90;
          Samples.reading 1 10 80])
  /\ (length [Samples.reading 2 1 119; Samples.reading 3 2 90]
      <= length [Samples.reading 2 1 119; Samples.reading 3 2 90;
                 Samples.reading 1 10 80])%nat.
Proof.
  apply (wider_window_lists_no_less Samples.query_lib Samples.now0
           Samples.three_readings (Samples.request_minutes "5")
           (Samples.request_minutes "15") "5" "15" 5 15);
    try reflexivity; try discriminate.
Defined.

(** [minutes=0] and a negative [minutes] are taken as windows like any
    other: the cutoff is the clock or lies after it, and [list] returns
    none of the readings stored before the clock's reading, where it
    returns all of them when [minutes] is left out. *)
Theorem non_positive_window_lists_nothing
    (L : Py.lib) (now : Py.datetime) (db : Db) (request : Views.Request)
    (s : string) (w : Z) :
  Views.query_params request !! "minutes" = Some s ->
  s <> "" ->
  Py.int_of_str L s = Some w ->
  w <= 0 ->
  Py.datetime_min <= now ->
  now - w * Py.us_per_minute <= Py.datetime_max ->
  Forall (fun r => Models.created_at r < now) (Models.rows db) ->
  Views.get_queryset L now db request = Ok [].
Proof.
  intros Hq Hs Hi Hw Hmin Hmax Hold.
  assert (Py.timedelta_minutes w = Ok (w * Py.us_per_minute)) as Htd.
  { revert Hmin Hmax.
    unfold Py.timedelta_minutes, Py.datetime_max, Py.datetime_min,
      Py.us_per_minute, Py.us_per_day, Py.timedelta_max_days.
    intros Hmin Hmax.
    assert (-999999999 <= w * 60000000 / 86400000000 <= 999999999)
      as [H1 H2].
    { split.
      - apply Z.div_le_lower_bound; lia.
      - apply Z.div_le_upper_bound; lia. }
    match goal with |- (if ?c then _ else _) = _ =>
      replace c with true; [done|] end.
    symmetry. apply andb_true_iff. split; apply Z.leb_le; lia. }
  assert (Py.datetime_sub now (w * Py.us_per_minute)
          = Ok (now - w * Py.us_per_minute)) as Hsub.
  { unfold Py.datetime_sub.
    match goal with |- (if ?c then _ else _) = _ =>
      replace c with true; [done|] end.
    symmetry. apply andb_true_iff.
    split; apply Z.leb_le; unfold Py.us_per_minute in *; lia. }
  rewrite (get_queryset_window L now db request s w _ Hq Hs Hi Htd Hsub).
  f_equal. apply Permutation_nil_r. rewrite order_by_perm.
  apply Permutation_nil_r, elem_of_nil_inv. intros r.
  unfold Views.filter_created_at_gte. rewrite list_elem_of_filter.
  intros [Hc Hr]. rewrite Forall_forall in Hold. specialize (Hold r Hr).
  unfold Py.us_per_minute in *. lia.
Qed.

Lemma non_positive_window_witness :
  Views.get_queryset Samples.query_lib Samples.now0 Samples.three_readings
    (Samples.request_minutes "0")
  = Ok [].
Proof.
  apply (non_positive_window_lists_nothing Samples.query_lib Samples.now0
           Samples.three_readings (Samples.request_minutes "0") "0" 0).
  - reflexivity.
  - discriminate.
  - reflexivity.
  - lia.
  - vm_compute. discriminate.
  - vm_compute. discriminate.
  - repeat constructor.
Defined.

Lemma Min_le_Max {A} (field : A -> Z) (qs : list A) lo hi :
  Views.Min field qs = Some lo -> Views.Max field qs = Some hi -> lo <= hi.
Proof.
  destruct qs as [|r qs]; simpl; [done|]. intros [= <-] [= <-].
  destruct (fold_min_least (field r) (map field qs)) as (_ & H1 & _).
  destruct (fold_max_greatest (field r) (map field qs)) as (_ & H2 & _).
  simpl in *. lia.
Qed.

(** The figures of [stats] hang together, whatever the request: the
    count is between 0 and the number of stored readings; at count 0
    every other field is null; at a positive count none is, the least
    bpm is at most the greatest, and the start of the time range is not
    after its end. *)
Theorem stats_figures_are_consistent
    (L : Py.lib) (now : Py.datetime) (db : Db) (request : Views.Request)
    (s : Views.Stats) (code : Z) :
  Views.stats L now db request
  = Ok {| Views.body := Views.Aggregate s; Views.status := code |} ->
  0 <= Views.count s <= Z.of_nat (length (Models.rows db))
  /\ (Views.count s = 0 ->
      Views.avg_bpm s = None /\ Views.min_bpm s = None
      /\ Views.max_bpm s = None /\ Views.avg_rr_interval s = None
      /\ Views.time_range_start s = None /\ Views.time_range_end s = None)
  /\ (0 < Views.count s ->
      exists a1 a2 lo hi t0 t1,
        Views.avg_bpm s = Some a1 /\ Views.avg_rr_interval s = Some a2
        /\ Views.min_bpm s = Some lo /\ Views.max_bpm s = Some hi
        /\ Views.time_range_start s = Some t0
        /\ Views.time_range_end s = Some t1
        /\ lo <= hi /\ t0 <= t1).
Proof.
  unfold Views.stats. unfold_result.
  destruct (Views.get_queryset L now db request) as [qs|e] eqn:Eg;
    [|discriminate].
  intros [= <- <-]. simpl.
  destruct (get_queryset_of_rows L now db request qs Eg) as [Hlen _].
  unfold Views.Count. split; [lia|].
  rewrite !round_if_truthy_rounds.
  destruct qs as [|r qs]; simpl.
  - split; [done | lia].
  - split; [lia|]. intros _. do 6 eexists. repeat split.
    + eapply (Min_le_Max Models.bpm (r :: qs)); reflexivity.
    + eapply (Min_le_Max Models.created_at (r :: qs)); reflexivity.
Qed.

Lemma stats_figures_witness :
  0 <= 2 <= Z.of_nat (length (Models.rows Samples.three_readings))
  /\ (2 = 0 ->
      Some (Py.truediv 1045 10) = None /\ Some 90 = None
      /\ Some 119 = None /\ Some (Py.truediv 521 1) = None
      /\ Some (Samples.now0 - 2 * Py.us_per_minute) = None
      /\ Some (Samples.now0 - 1 * Py.us_per_minute) = None)
  /\ (0 < 2 ->
      exists a1 a2 lo hi t0 t1,
        Some (Py.truediv 1045 10) = Some a1
        /\ Some (Py.truediv 521 1) = Some a2
        /\ Some 90 = Some lo /\ Some 119 = Some hi
        /\ Some (Samples.now0 - 2 * Py.us_per_minute) = Some t0
        /\ Some (Samples.now0 - 1 * Py.us_per_minute) = Some t1
        /\ lo <= hi /\ t0 <= t1).
Proof.
  apply (stats_figures_are_consistent Samples.query_lib Samples.now0
           Samples.three_readings (Samples.request_minutes "5")
           {| Views.count := 2;
              Views.avg_bpm := Some (Py.truediv 1045 10);
              Views.min_bpm := Some 90;
              Views.max_bpm := Some 119;
              Views.avg_rr_interval := Some (Py.truediv 521 1);
              Views.time_range_start :=
                Some (Samples.now0 - 2 * Py.us_per_minute);
              Views.time_range_end :=
                Some (Samples.now0 - 1 * Py.us_per_minute) |} 200).
  reflexivity.
Defined.

(** With an integer window the time range that [stats] reports lies
    inside the window: it does not start before the cutoff, and every
    reading counted is a stored one from the cutoff on. *)
Theorem stats_time_range_starts_within_window
    (L : Py.lib) (now : Py.datetime) (db : Db) (request : Views.Request)
    (text : string) (w : Z) (s : Views.Stats) (code : Z) (t0 : Py.datetime) :
  Views.query_params request !! "minutes" = Some text ->
  text <> "" ->
  Py.int_of_str L text = Some w ->
  Views.stats L now db request
  = Ok {| Views.body := Views.Aggregate s; Views.status := code |} ->
  Views.time_range_start s = Some t0 ->
  now - w * Py.us_per_minute <= t0
  /\ exists r, r ∈ Models.rows db /\ Models.created_at r = t0.
Proof.
  intros Hq Hs Hi. unfold Views.stats. unfold_result.
  destruct (Views.get_queryset L now db request) as [qs|e] eqn:Eg;
    [|discriminate].
  intros [= <- <-]. simpl. intros Hmin.
  pose proof (Min_least Models.created_at qs) as Hl. rewrite Hmin in Hl.
  destruct Hl as [(r & Hr & <-) _].
  apply (in_window L now db request text w qs r Hq Hs Hi Eg) in Hr as [? ?].
  split; [done|]. by exists r.
Qed.

Lemma stats_time_range_witness :
  Samples.now0 - 5 * Py.us_per_minute
  <= Samples.now0 - 2 * Py.us_per_minute
  /\ exists r,
       r ∈ Models.rows Samples.three_readings
       /\ Models.created_at r = Samples.now0 - 2 * Py.us_per_minute.
Proof.
  apply (stats_time_range_starts_within_window Samples.query_lib
           Samples.now0 Samples.three_readings (Samples.request_minutes "5")
           "5" 5
           {| Views.count := 2;
              Views.avg_bpm := Some (Py.truediv 1045 10);
              Views.min_bpm := Some 90;
              Views.max_bpm := Some 119;
              Views.avg_rr_interval := Some (Py.truediv 521 1);
              Views.time_range_start :=
                Some (Samples.now0 - 2 * Py.us_per_minute);
              Views.time_range_end :=
                Some (Samples.now0 - 1 * Py.us_per_minute) |} 200);
    try reflexivity. discriminate.
Defined.

(* ================================================================== *)
(** * More on the producer *)
(* ================================================================== *)

Lemma callbacks_cons_callback d run :
  Notions.callbacks (Producer.Callback d :: run) = S (Notions.callbacks run).
Proof. unfold Notions.callbacks. by rewrite filter_cons_True. Qed.

Lemma callbacks_cons_sleep s run :
  Notions.callbacks (Producer.Sleep s :: run) = Notions.callbacks run.
Proof.
  unfold Notions.callbacks. rewrite filter_cons_False; [done|]. simpl. tauto.
Qed.

(** The loop of the test mode looks at the quit event only between
    turns: the turn in which it is set is completed, frame and sleep,
    and nothing is emitted after it, whatever turns would have
    followed. With [n] turns before that one, the callback has been
    called [n + 1] times. *)
Theorem test_mode_stops_after_the_quit_turn
    {G : Type} (R : Producer.random_module G)
    (pre : list Producer.Turn) (t : Producer.Turn)
    (post : list Producer.Turn) (g : G) :
  Forall (fun t' => Producer.quit_set t' = false) pre ->
  Producer.quit_set t = true ->
  Producer.run_test_mode R (pre ++ t :: post) g
  = Producer.run_test_mode R (pre ++ [t]) g
  /\ Notions.callbacks (Producer.run_test_mode R (pre ++ t :: post) g)
     = S (length pre)
  /\ length (Producer.run_test_mode R (pre ++ t :: post) g)
     = (2 * S (length pre))%nat.
Proof.
  intros Hpre Hq. revert g.
  induction Hpre as [|t' pre Ht' Hpre IH]; intros g; simpl.
  - match goal with |- context [let '(_, _) := ?x in _] =>
      destruct x as [data g1] end.
    destruct (Producer.random_uniform _ _ _ _) as [seconds g2].
    rewrite Hq. by rewrite callbacks_cons_callback, callbacks_cons_sleep.
  - match goal with |- context [let '(_, _) := ?x in _] =>
      destruct x as [data g1] end.
    destruct (Producer.random_uniform _ _ _ _) as [seconds g2].
    rewrite Ht'. destruct (IH g2) as (E1 & E2 & E3).
    rewrite callbacks_cons_callback, callbacks_cons_sleep, E1. simpl.
    rewrite <- E1, E2, E3. repeat split. lia.
Qed.

Lemma test_mode_stops_witness :
  Producer.run_test_mode Samples.counter
    ([] ++ {| Producer.wall_clock_ns := 1766417260747938000;
              Producer.quit_set := true |} :: Samples.two_turns) 7
  = Producer.run_test_mode Samples.counter
      ([] ++ [{| Producer.wall_clock_ns := 1766417260747938000;
                 Producer.quit_set := true |}]) 7
  /\ Notions.callbacks
       (Producer.run_test_mode Samples.counter
          ([] ++ {| Producer.wall_clock_ns := 1766417260747938000;
                    Producer.quit_set := true |} :: Samples.two_turns) 7)
     = S (length (@nil Producer.Turn))
  /\ length
       (Producer.run_test_mode Samples.counter
          ([] ++ {| Producer.wall_clock_ns := 1766417260747938000;
                    Producer.quit_set := true |} :: Samples.two_turns) 7)
     = (2 * S (length (@nil Producer.Turn)))%nat.
Proof.
  apply (test_mode_stops_after_the_quit_turn Samples.counter []
           {| Producer.wall_clock_ns := 1766417260747938000;
              Producer.quit_set := true |} Samples.two_turns 7).
  - constructor.
  - reflexivity.
Defined.

(** ** [heartrate_callback] *)

(** The callback never raises, and no frame goes unseen: a call either
    publishes the frame once on the configured topic and reports it,
    or prints the error and then the frame, or, without Pub/Sub,
    prints the frame. What was printed or published before stays as it
    was. *)
Theorem callback_never_raises_and_shows_every_frame
    (J : Callback.lib) (G : Callback.Globals) (fault : option Callback.exc)
    (data : Callback.obj) (t : list Callback.Event) :
  exists new,
    Callback.heartrate_callback J G fault data t = (Callback.Ret tt, t ++ new)
    /\ ((exists topic payload,
           Callback.pubsub_topic_path G = Some topic
           /\ Callback.pubsub_publisher G <> None
           /\ fault = None
           /\ new = [Callback.Publish topic payload;
                     Callback.Print (Callback.PublishedToPubSub data)])
        \/ (exists e,
              Callback.pubsub_topic_path G <> None
              /\ Callback.pubsub_publisher G <> None
              /\ new = [Callback.Print (Callback.ErrorPublishing e);
                        Callback.Print (Callback.DataWas data)])
        \/ ((Callback.pubsub_publisher G = None
             \/ Callback.pubsub_topic_path G = None)
            /\ new = [Callback.Print (Callback.ShowData data)])).
Proof.
  unfold Callback.heartrate_callback, Callback.try_except, mbind,
    Callback.M_bind, Callback.lift, Callback.publish, Callback.print.
  destruct (Callback.pubsub_publisher G) as [p|];
    [destruct (Callback.pubsub_topic_path G) as [topic|]|].
  - destruct (Callback.build_message_data data) as [m|e]; simpl.
    + destruct (Callback.json_dumps J m) as [text|e]; simpl.
      * destruct fault as [e|]; simpl; eexists; rewrite <- ?app_assoc;
          (split; [reflexivity|]).
        -- right. left. by exists e.
        -- left. by do 2 eexists.
      * eexists. rewrite <- app_assoc. split; [reflexivity|].
        right. left. by exists e.
    + eexists. rewrite <- app_assoc. split; [reflexivity|].
      right. left. by exists e.
  - eexists. split; [reflexivity|]. right. right. split; [by right | done].
  - eexists. split; [reflexivity|]. right. right. split; [by left | done].
Qed.

(** How [rr_interval] leaves the producer depends on the shape of
    [hr_data]. As a tuple [(bpm, [rr1, ...])] it gives the list of RR
    intervals, of which the consumer keeps [rr1]. As a list
    [[bpm, rr1, ...]] it gives the whole list, bpm included, so that
    what the consumer keeps as the RR interval is the bpm. *)
Theorem list_shaped_hr_data_repeats_bpm
    (hr_type timestamp energy bpm rr1 : Callback.obj)
    (rest : list Callback.obj) :
  (exists m,
     Callback.build_message_data
       (Callback.OTuple
          [hr_type; timestamp;
           Callback.OTuple [bpm; Callback.OList (rr1 :: rest)]; energy])
     = Callback.Ret m
     /\ Callback.md_bpm m = bpm
     /\ Callback.md_rr_interval m = Callback.OList (rr1 :: rest)
     /\ SubscribeHr.first_or_zero (Callback.json_of (Callback.md_rr_interval m))
        = Callback.json_of rr1)
  /\ (exists m,
        Callback.build_message_data
          (Callback.OTuple
             [hr_type; timestamp; Callback.OList (bpm :: rr1 :: rest); energy])
        = Callback.Ret m
        /\ Callback.md_bpm m = bpm
        /\ Callback.md_rr_interval m = Callback.OList (bpm :: rr1 :: rest)
        /\ SubscribeHr.first_or_zero
             (Callback.json_of (Callback.md_rr_interval m))
           = Callback.json_of (Callback.md_bpm m)).
Proof. split; eexists; (split; [reflexivity|]); by repeat split. Qed.

Lemma build_message_data_frame d :
  Callback.build_message_data (Callback.frame_of d)
  = Callback.Ret (Notions.message_of d).
Proof. reflexivity. Qed.

Lemma dict_get_message m :
  let d := Callback.json_of_message m in
  Py.dict_get d "type" = Callback.json_of (Callback.md_type m)
  /\ Py.dict_get d "timestamp" = Callback.json_of (Callback.md_timestamp m)
  /\ Py.dict_get d "bpm" = Callback.json_of (Callback.md_bpm m)
  /\ Py.dict_get d "rr_interval"
     = Callback.json_of (Callback.md_rr_interval m)
  /\ Py.dict_get d "energy" = Callback.json_of (Callback.md_energy m).
Proof.
  unfold Py.dict_get, Callback.json_of_message.
  repeat split; by simplify_map_eq.
Qed.

(** Producer to consumer. A frame of the test mode, published by the
    callback and delivered as it was published, is stored with the
    timestamp, the bpm, the RR interval and the energy it was
    generated with, and acknowledged; the hypotheses are that
    [json.loads] reads back what [json.dumps] wrote and that the
    storage takes the write. *)
Theorem published_frame_is_stored_as_sent
    (J : Callback.lib) (L : Py.lib) (G : Callback.Globals) (env : Env)
    (d : Producer.HrData) (w : SubscribeHr.World)
    (p : Callback.Publisher) (topic text : string) :
  Producer.hr_type d = "HR" ->
  Callback.pubsub_publisher G = Some p ->
  Callback.pubsub_topic_path G = Some topic ->
  Callback.json_dumps J (Notions.message_of d) = Callback.Ret text ->
  Py.utf8_valid (Callback.encode_utf8 text) = true ->
  Py.json_loads L text
  = Ok (VDict (Callback.json_of_message (Notions.message_of d))) ->
  Models.insert_fault env = None ->
  let payload := Callback.encode_utf8 text in
  let r :=
    {| Models.id := Models.next_id (SubscribeHr.db w);
       Models.sensor_timestamp := Producer.tstamp d;
       Models.bpm := Producer.bpm d;
       Models.rr_interval := Producer.rr_interval d;
       Models.energy := Producer.energy d;
       Models.created_at := Models.now env |} in
  Callback.emitted J G None (Callback.frame_of d)
  = [Callback.Publish topic payload;
     Callback.Print (Callback.PublishedToPubSub (Callback.frame_of d))]
  /\ SubscribeHr.run L env {| SubscribeHr.data := payload |} w
     = SubscribeHr.after w
         {| Models.rows := Models.rows (SubscribeHr.db w) ++ [r];
            Models.next_id := Models.next_id (SubscribeHr.db w) + 1 |}
         [SubscribeHr.Insert r;
          SubscribeHr.Stdout
            (SubscribeHr.Saved (VInt (Producer.bpm d))
               (VInt (Producer.rr_interval d)) (Models.id r));
          SubscribeHr.Ack].
Proof.
  intros Hty Hp Ht Hdumps Hutf Hloads Hf payload r. split.
  - unfold Callback.emitted, Callback.heartrate_callback. rewrite Hp, Ht.
    unfold Callback.try_except, mbind, Callback.M_bind, Callback.lift.
    rewrite build_message_data_frame, Hdumps. reflexivity.
  - destruct (dict_get_message (Notions.message_of d))
      as (Dty & Dts & Db & Drr & Den).
    simpl in Dty, Dts, Db, Drr, Den.
    assert (Py.decode_utf8 payload = Ok text) as Hdec.
    { unfold Py.decode_utf8. subst payload. rewrite Hutf.
      unfold Callback.encode_utf8. by rewrite string_of_list_byte_of_string. }
    pose proof (run_stores L env {| SubscribeHr.data := payload |} w text
                  (Callback.json_of_message (Notions.message_of d))
                  (Producer.tstamp d) (Producer.bpm d)
                  (Producer.rr_interval d) (Producer.energy d)) as Hrun.
    rewrite Dty, Dts, Db, Drr, Den, rr_for_create_int in Hrun.
    apply Hrun; try done.
    + by rewrite Hty.
    + by destruct (Producer.energy d).
Qed.

Lemma published_frame_witness :
  Callback.emitted MoreSamples.dumps_lib MoreSamples.with_publisher None
    (Callback.frame_of MoreSamples.frame0)
  = [Callback.Publish MoreSamples.topic0 MoreSamples.frame0_text;
     Callback.Print
       (Callback.PublishedToPubSub (Callback.frame_of MoreSamples.frame0))]
  /\ SubscribeHr.run MoreSamples.loads_lib Samples.storage_up
       {| SubscribeHr.data := MoreSamples.frame0_text |} Samples.fresh
     = SubscribeHr.after Samples.fresh
         {| Models.rows :=
              [{| Models.id := 1;
                  Models.sensor_timestamp := 1766417260747938000;
                  Models.bpm := 119;
                  Models.rr_interval := 521;
                  Models.energy := None;
                  Models.created_at := Samples.now0 |}];
            Models.next_id := 2 |}
         [SubscribeHr.Insert
            {| Models.id := 1;
               Models.sensor_timestamp := 1766417260747938000;
               Models.bpm := 119;
               Models.rr_interval := 521;
               Models.energy := None;
               Models.created_at := Samples.now0 |};
          SubscribeHr.Stdout (SubscribeHr.Saved (VInt 119) (VInt 521) 1);
          SubscribeHr.Ack].
Proof.
  apply (published_frame_is_stored_as_sent MoreSamples.dumps_lib
           MoreSamples.loads_lib MoreSamples.with_publisher
           Samples.storage_up MoreSamples.frame0 Samples.fresh
           Callback.PublisherClient MoreSamples.topic0
           (string_of_list_byte MoreSamples.frame0_text));
    reflexivity.
Defined.

(* ================================================================== *)
(** * Startup of the producer *)
(* ================================================================== *)

Ltac startup_cases H args :=
  destruct args as [test [project|] [topic|] [path|]];
  unfold Startup.entry, Startup.main, Startup.init_pubsub,
    Notions.only_one, Notions.publisher_ready, Startup.truthy; simpl;
  repeat match goal with
         | |- context [(?s =? "")%string] =>
             destruct (s =? "")%string eqn:?; simpl
         end;
  destruct (Startup.PUBSUB_AVAILABLE H); simpl;
  repeat match goal with
         | |- context [Startup.os_path_exists H ?path] =>
             destruct (Startup.os_path_exists H path); simpl
         end;
  destruct (Startup.publisher_fault H) as [[]|]; simpl;
  destruct test; simpl;
  destruct (Startup.scan H); simpl.

(** The process ends through [sys.exit] in two cases only: with
    status 1, before anything else is done, when exactly one of the two
    Pub/Sub arguments is given, and with status -4 when it is not in
    test mode and the scan finds no Polar device. It does so exactly
    when the callback is never started: a Pub/Sub that cannot be set
    up stops nothing. *)
Theorem producer_exit_status (H : Startup.Host) (args : Startup.Args) :
  Notions.exit_status (Startup.entry H args)
  = (if Notions.only_one (Startup.pubsub_project_id args)
          (Startup.pubsub_topic_name args)
     then Some 1
     else if Startup.test args then None
     else match Startup.scan H with
          | None => Some (-4)
          | Some _ => None
          end)
  /\ (Notions.only_one (Startup.pubsub_project_id args)
        (Startup.pubsub_topic_name args) = true ->
      Startup.entry H args
      = [Startup.Say Startup.BothOrNeither; Startup.SysExit 1])
  /\ (Startup.callback_globals (Startup.entry H args) = None
      <-> Notions.exit_status (Startup.entry H args) <> None).
Proof.
  startup_cases H args; (split; [reflexivity|]);
    (split; [try discriminate; try reflexivity|]);
    split; intros ?; congruence.
Qed.

(** The callback runs with both globals set or with neither. They are
    set, to the client and to the path of the topic asked for, exactly
    when both Pub/Sub arguments are given, the library is installed,
    the credentials file, if one is named, exists, and the client can
    be created; in every other case the data goes to the screen. *)
Theorem pubsub_is_all_or_nothing
    (H : Startup.Host) (args : Startup.Args) (G : Callback.Globals) :
  Startup.callback_globals (Startup.entry H args) = Some G ->
  G = if Notions.publisher_ready H (Startup.pubsub_project_id args)
           (Startup.pubsub_topic_name args)
           (Startup.pubsub_credentials_path args)
      then {| Callback.pubsub_publisher := Some Callback.PublisherClient;
              Callback.pubsub_topic_path :=
                Some (Startup.topic_path H
                        (default "" (Startup.pubsub_project_id args))
                        (default "" (Startup.pubsub_topic_name args))) |}
      else Startup.no_publisher.
Proof.
  startup_cases H args; try discriminate; by intros [= <-].
Qed.

Lemma pubsub_is_all_or_nothing_witness :
  MoreSamples.with_publisher
  = if Notions.publisher_ready MoreSamples.host0
         (Startup.pubsub_project_id MoreSamples.test_with_pubsub)
         (Startup.pubsub_topic_name MoreSamples.test_with_pubsub)
         (Startup.pubsub_credentials_path MoreSamples.test_with_pubsub)
    then {| Callback.pubsub_publisher := Some Callback.PublisherClient;
            Callback.pubsub_topic_path :=
              Some (Startup.topic_path MoreSamples.host0
                      (default ""
                         (Startup.pubsub_project_id
                            MoreSamples.test_with_pubsub))
                      (default ""
                         (Startup.pubsub_topic_name
                            MoreSamples.test_with_pubsub))) |}
    else Startup.no_publisher.
Proof.
  apply (pubsub_is_all_or_nothing MoreSamples.host0
           MoreSamples.test_with_pubsub MoreSamples.with_publisher).
  reflexivity.
Defined.

(** On the fallback the test mode prints every generated frame, in
    order, and publishes nothing; what [publish] would have raised
    plays no part. *)
Theorem without_publisher_every_frame_is_printed
    (J : Callback.lib) (faults : list (option Callback.exc))
    (run : list Producer.Event) :
  Startup.deliver J Startup.no_publisher faults run
  = map (fun d => Callback.Print (Callback.ShowData (Callback.frame_of d)))
      (Notions.frames run)
  /\ Callback.publishes (Startup.deliver J Startup.no_publisher faults run)
     = 0%nat.
Proof.
  assert (Startup.deliver J Startup.no_publisher faults run
          = map (fun d =>
                   Callback.Print (Callback.ShowData (Callback.frame_of d)))
              (Notions.frames run)) as E.
  { revert faults. induction run as [|[d|s] run IH]; intros faults; simpl.
    - done.
    - by rewrite IH.
    - apply IH. }
  split; [done|]. rewrite E. clear E. unfold Callback.publishes.
  induction (Notions.frames run) as [|d l IH]; [done|].
  simpl. rewrite filter_cons_False; [done|]. simpl. tauto.
Qed.

Lemma publishes_published topic payload l :
  Callback.publishes [Callback.Publish topic payload; Callback.Print l]
  = 1%nat.
Proof. reflexivity. Qed.

Lemma emitted_published J G p topic text d :
  Callback.pubsub_publisher G = Some p ->
  Callback.pubsub_topic_path G = Some topic ->
  Callback.json_dumps J (Notions.message_of d) = Callback.Ret text ->
  Callback.emitted J G None (Callback.frame_of d)
  = [Callback.Publish topic (Callback.encode_utf8 text);
     Callback.Print (Callback.PublishedToPubSub (Callback.frame_of d))].
Proof.
  intros Hp Ht Hdumps.
  unfold Callback.emitted, Callback.heartrate_callback. rewrite Hp, Ht.
  unfold Callback.try_except, mbind, Callback.M_bind, Callback.lift.
  rewrite build_message_data_frame, Hdumps. reflexivity.
Qed.

Lemma publishes_app t1 t2 :
  Callback.publishes (t1 ++ t2)
  = (Callback.publishes t1 + Callback.publishes t2)%nat.
Proof. unfold Callback.publishes. by rewrite filter_app, length_app. Qed.

(** With Pub/Sub set up, a [json.dumps] that takes the frames and a
    client that raises nothing, every frame of the test mode is
    published, once each: as many messages as calls of the callback. *)
Theorem with_publisher_every_frame_is_published
    (J : Callback.lib) (G : Callback.Globals) (p : Callback.Publisher)
    (topic : string) (run : list Producer.Event) :
  Callback.pubsub_publisher G = Some p ->
  Callback.pubsub_topic_path G = Some topic ->
  (forall d, d ∈ Notions.frames run ->
             exists text,
               Callback.json_dumps J (Notions.message_of d)
               = Callback.Ret text) ->
  Callback.publishes (Startup.deliver J G [] run) = Notions.callbacks run
  /\ length (Startup.deliver J G [] run) = (2 * Notions.callbacks run)%nat.
Proof.
  intros Hp Ht. induction run as [|[d|s] run IH]; intros Hd; simpl.
  - done.
  - destruct (Hd d) as [text Htext]; [by left|].
    destruct IH as [IH1 IH2]. { intros d' Hd'. apply Hd. by right. }
    rewrite callbacks_cons_callback, publishes_app, length_app, IH1, IH2.
    rewrite (emitted_published J G p topic text d Hp Ht Htext).
    rewrite publishes_published. simpl length.
    split; [done | unfold Notions.callbacks; lia].
  - rewrite callbacks_cons_sleep. apply IH. intros d' Hd'. by apply Hd.
Qed.

Lemma with_publisher_witness :
  Callback.publishes
    (Startup.deliver MoreSamples.dumps_lib MoreSamples.with_publisher []
       MoreSamples.one_frame)
  = Notions.callbacks MoreSamples.one_frame
  /\ length
       (Startup.deliver MoreSamples.dumps_lib MoreSamples.with_publisher []
          MoreSamples.one_frame)
     = (2 * Notions.callbacks MoreSamples.one_frame)%nat.
Proof.
  apply (with_publisher_every_frame_is_published MoreSamples.dumps_lib
           MoreSamples.with_publisher Callback.PublisherClient
           MoreSamples.topic0 MoreSamples.one_frame).
  - reflexivity.
  - reflexivity.
  - intros d ->%list_elem_of_singleton. by eexists.
Defined.

(* ================================================================== *)
(** * The subscriber command *)
(* ================================================================== *)

Ltac command_unfold :=
  unfold Command.run, Command.handle, Command.run_subscriber,
    Command.wait_on_stream, Command.signal_handler, Command.try_except,
    Command.call, Command.write, Command.emit, Command.raise,
    Command.get_self, Command.set_self, mbind, mret, Command.M_bind,
    Command.M_ret, Command.init.

Ltac command_cases S :=
  repeat match goal with
         | |- context [Command.truthy ?o] =>
             destruct (Command.truthy o) eqn:?; simpl
         end;
  destruct (Command.subscriber_fault S) as [?e|]; simpl;
  destruct (Command.subscribe_fault S) as [?e|]; simpl;
  destruct (Command.signal_arrives S); simpl;
  destruct (Command.wait_fault S) as [?e|]; simpl;
  destruct (Command.cleanup_fault S) as [?e|]; simpl.

(** Whatever goes wrong, [handle] raises nothing but [CommandError]. *)
Theorem handle_raises_only_command_errors
    (S : Command.Service) (settings : Command.Settings)
    (options : Command.Options) (e : Command.exc) :
  fst (Command.run S settings options) = Command.Exc e ->
  exists why, e = Command.CommandError why.
Proof.
  command_unfold. destruct (Command.PUBSUB_AVAILABLE S); simpl;
    [|intros [= <-]; by eexists].
  command_cases S;
    repeat match goal with
           | |- context [match ?o with Some _ => _ | None => _ end] =>
               destruct o; simpl
           | e : Command.exc |- _ => destruct e; simpl
           end;
    try discriminate; intros [= <-]; by eexists.
Qed.

Lemma handle_raises_witness :
  exists why, Command.CommandError Command.PermissionWasDenied
              = Command.CommandError why.
Proof.
  apply (handle_raises_only_command_errors MoreSamples.service_denied
           MoreSamples.settings0 MoreSamples.options0
           (Command.CommandError Command.PermissionWasDenied)).
  reflexivity.
Defined.

Ltac command_all S :=
  command_unfold; unfold Notions.configured, Notions.escaping in *;
  destruct (Command.PUBSUB_AVAILABLE S); simpl in *;
  command_cases S;
  repeat match goal with
         | |- context [match ?o with Some _ => _ | None => _ end] =>
             destruct o; simpl
         end.

(** The configuration is checked before anything is done: without the
    library, a project id or a subscription name (the option first,
    the setting otherwise, an empty one counting as none), the command
    raises [CommandError] and has installed no signal handler, set no
    environment variable and written nothing. With all three it installs
    the handlers and announces the project and the subscription it
    uses. *)
Theorem configuration_is_checked_first
    (S : Command.Service) (settings : Command.Settings)
    (options : Command.Options) :
  if Notions.configured S settings options
  then exists rest,
         Command.trace (snd (Command.run S settings options))
         = Command.InstallSignalHandlers
           :: Command.Write
                (Command.Starting
                   (default ""
                      (Command.or_ (Command.project_id options)
                         (Command.PUBSUB_PROJECT_ID settings)))
                   (default ""
                      (Command.or_ (Command.subscription_name options)
                         (Command.PUBSUB_SUBSCRIPTION_NAME settings))))
           :: rest
  else exists why,
         Command.run S settings options
         = (Command.Exc (Command.CommandError why),
            {| Command.self := Command.init; Command.trace := [] |}).
Proof.
  command_all S;
    repeat match goal with
           | e : Command.exc |- _ => destruct e; simpl
           end;
    by eexists.
Qed.

(** An error of the stream after it was opened does not fail the
    command: the exception is caught where the command waits, the
    pull is cancelled and waited for, 'Subscriber stopped.' is
    written and [handle] returns, also for [NotFound] and
    [PermissionDenied], which [handle] turns into [CommandError] only
    when they come from the creation of the client, from [subscribe]
    or from the cleanup. The error is reported unless a shutdown
    signal came first. *)
Theorem failure_while_waiting_is_contained
    (S : Command.Service) (settings : Command.Settings)
    (options : Command.Options) (e : Command.exc) :
  Notions.configured S settings options = true ->
  Command.subscriber_fault S = None ->
  Command.subscribe_fault S = None ->
  Command.wait_fault S = Some e ->
  Command.cleanup_fault S = None ->
  fst (Command.run S settings options) = Command.Ret tt
  /\ exists before,
       Command.trace (snd (Command.run S settings options))
       = before
         ++ [Command.Wait (Command.timeout options)]
         ++ (if Command.signal_arrives S
             then [Command.Write Command.ReceivedShutdownSignal;
                   Command.Cancel]
             else [Command.Write (Command.SubscriberError e)])
         ++ [Command.Cancel; Command.Wait None;
             Command.Write Command.SubscriberStopped]
       /\ Forall (fun ev => Command.is_cancel ev = false) before.
Proof.
  intros Hc H1 H2 H3 H4. revert Hc.
  command_unfold. unfold Notions.configured. rewrite H1, H2, H3, H4.
  destruct (Command.PUBSUB_AVAILABLE S); simpl; [|discriminate].
  repeat match goal with
         | |- context [Command.truthy ?o] =>
             destruct (Command.truthy o) eqn:?; simpl
         end;
    try discriminate; intros _;
    repeat match goal with
           | |- context [match ?o with Some _ => _ | None => _ end] =>
               destruct o; simpl
           end;
    destruct (Command.signal_arrives S); simpl;
    (split; [reflexivity|]).
  all: match goal with
       | |- exists before, ?l = _ /\ _ =>
           let n := eval cbv in (length l - 5)%nat in
           let m := eval cbv in (length l - 6)%nat in
           first [ exists (take n l); split; [reflexivity|]
                 | exists (take m l); split; [reflexivity|] ]
       end.
  all: simpl; repeat constructor.
Qed.

Lemma failure_while_waiting_witness :
  fst (Command.run MoreSamples.service_lost MoreSamples.settings0
         MoreSamples.options0) = Command.Ret tt
  /\ exists before,
       Command.trace
         (snd (Command.run MoreSamples.service_lost MoreSamples.settings0
                 MoreSamples.options0))
       = before
         ++ [Command.Wait (Command.timeout MoreSamples.options0)]
         ++ (if Command.signal_arrives MoreSamples.service_lost
             then [Command.Write Command.ReceivedShutdownSignal;
                   Command.Cancel]
             else [Command.Write (Command.SubscriberError Command.NotFound)])
         ++ [Command.Cancel; Command.Wait None;
             Command.Write Command.SubscriberStopped]
       /\ Forall (fun ev => Command.is_cancel ev = false) before.
Proof.
  apply (failure_while_waiting_is_contained MoreSamples.service_lost
           MoreSamples.settings0 MoreSamples.options0 Command.NotFound);
    reflexivity.
Defined.

(** A shutdown signal that arrives while the command waits stops it in
    order: the handler writes its line, clears [running] and cancels
    the pull; whether the interrupted wait then returns or raises, no
    error is reported, 'Subscriber stopped.' is the last thing written
    and [handle] returns. *)
Theorem shutdown_signal_stops_the_subscriber
    (S : Command.Service) (settings : Command.Settings)
    (options : Command.Options) :
  Notions.configured S settings options = true ->
  Command.subscriber_fault S = None ->
  Command.subscribe_fault S = None ->
  Command.signal_arrives S = true ->
  Command.cleanup_fault S = None ->
  fst (Command.run S settings options) = Command.Ret tt
  /\ Command.running (Command.self (snd (Command.run S settings options)))
     = false
  /\ exists before,
       Command.trace (snd (Command.run S settings options))
       = before
         ++ [Command.Wait (Command.timeout options);
             Command.Write Command.ReceivedShutdownSignal;
             Command.Cancel]
         ++ match Command.wait_fault S with
            | Some _ => [Command.Cancel; Command.Wait None]
            | None => []
            end
         ++ [Command.Write Command.SubscriberStopped]
       /\ Forall (fun ev => Command.is_cancel ev = false) before.
Proof.
  intros Hc H1 H2 H3 H4. revert Hc.
  command_unfold. unfold Notions.configured. rewrite H1, H2, H3, H4.
  destruct (Command.PUBSUB_AVAILABLE S); simpl; [|discriminate].
  repeat match goal with
         | |- context [Command.truthy ?o] =>
             destruct (Command.truthy o) eqn:?; simpl
         end;
    try discriminate; intros _;
    repeat match goal with
           | |- context [match ?o with Some _ => _ | None => _ end] =>
               destruct o; simpl
           end;
    (split; [reflexivity|]); (split; [reflexivity|]).
  all: match goal with
       | |- exists before, ?l = _ /\ _ =>
           let n := eval cbv in (length l - 4)%nat in
           let m := eval cbv in (length l - 6)%nat in
           first [ exists (take n l); split; [reflexivity|]
                 | exists (take m l); split; [reflexivity|] ]
       end.
  all: simpl; repeat constructor.
Qed.

Lemma shutdown_signal_witness :
  fst (Command.run MoreSamples.service0 MoreSamples.settings0
         MoreSamples.options0) = Command.Ret tt
  /\ Command.running
       (Command.self
          (snd (Command.run MoreSamples.service0 MoreSamples.settings0
                  MoreSamples.options0)))
     = false
  /\ exists before,
       Command.trace
         (snd (Command.run MoreSamples.service0 MoreSamples.settings0
                 MoreSamples.options0))
       = before
         ++ [Command.Wait (Command.timeout MoreSamples.options0);
             Command.Write Command.ReceivedShutdownSignal;
             Command.Cancel]
         ++ match Command.wait_fault MoreSamples.service0 with
            | Some _ => [Command.Cancel; Command.Wait None]
            | None => []
            end
         ++ [Command.Write Command.SubscriberStopped]
       /\ Forall (fun ev => Command.is_cancel ev = false) before.
Proof.
  apply (shutdown_signal_stops_the_subscriber MoreSamples.service0
           MoreSamples.settings0 MoreSamples.options0);
    reflexivity.
Defined.

(** How the command ends once it is configured. It fails exactly when
    an exception leaves [run_subscriber], that is one raised by the
    creation of the client, by [subscribe], or by the wait for cleanup
    after a failed wait; the [CommandError] then says 'Subscription
    not found' for [NotFound], 'Permission denied' for
    [PermissionDenied] and 'Error' for anything else. 'Subscriber
    stopped.' is written exactly when it does not fail. *)
Theorem command_fails_exactly_on_escaping_exceptions
    (S : Command.Service) (settings : Command.Settings)
    (options : Command.Options) :
  Notions.configured S settings options = true ->
  fst (Command.run S settings options)
  = match Notions.escaping S with
    | None => Command.Ret tt
    | Some Command.NotFound =>
        Command.Exc (Command.CommandError Command.SubscriptionNotFound)
    | Some Command.PermissionDenied =>
        Command.Exc (Command.CommandError Command.PermissionWasDenied)
    | Some _ => Command.Exc (Command.CommandError Command.OtherFailure)
    end
  /\ (In (Command.Write Command.SubscriberStopped)
         (Command.trace (snd (Command.run S settings options)))
      <-> Notions.escaping S = None).
Proof.
  command_all S; try discriminate; intros _;
    repeat match goal with
           | e : Command.exc |- _ => destruct e; simpl
           end;
    (split; [reflexivity|]);
    (split; [try reflexivity; intros Hin;
             repeat (destruct Hin as [Hin|Hin]; try discriminate);
             destruct Hin
            | try discriminate; intros _; tauto]).
Qed.

Lemma command_fails_witness :
  fst (Command.run MoreSamples.service_denied MoreSamples.settings0
         MoreSamples.options0)
  = match Notions.escaping MoreSamples.service_denied with
    | None => Command.Ret tt
    | Some Command.NotFound =>
        Command.Exc (Command.CommandError Command.SubscriptionNotFound)
    | Some Command.PermissionDenied =>
        Command.Exc (Command.CommandError Command.PermissionWasDenied)
    | Some _ => Command.Exc (Command.CommandError Command.OtherFailure)
    end
  /\ (In (Command.Write Command.SubscriberStopped)
         (Command.trace
            (snd (Command.run MoreSamples.service_denied
                    MoreSamples.settings0 MoreSamples.options0)))
      <-> Notions.escaping MoreSamples.service_denied = None).
Proof.
  apply (command_fails_exactly_on_escaping_exceptions
           MoreSamples.service_denied MoreSamples.settings0
           MoreSamples.options0).
  reflexivity.
Defined.
